(** * RealTimeSpeechValidation: the React client, embedded and verified

    The development follows the three routed views of the client:
    - [TruthSeeker]  (frontend/src/App.js),
    - [YouTubeLive]  (the YouTube Live view),
    - [AdminPanel]   (frontend/src/AdminPanel.js),
    over a small model of the JavaScript values and of the browser
    services (timers, WebSocket, speech recognition, fetch) they use. *)

From Stdlib Require Import ZArith NArith Ascii String DecimalString.
From stdpp Require Import base decidable option numbers list gmap.

Open Scope N_scope.

(** ** JavaScript strings and values *)
Module Js.

(** A JavaScript string is a sequence of UTF-16 code units; [length] counts
    code units, as [String.prototype.length] does. *)
Definition jsstring : Type := list N.

(** A source literal written in ASCII. *)
Definition lit (s : string) : jsstring :=
  (fun a => N_of_ascii a) <$> list_ascii_of_string s.

Arguments lit : simpl never.

(** ECMAScript WhiteSpace and LineTerminator code units, the ones
    [String.prototype.trim] strips. *)
Definition isWhiteSpace (c : N) : bool :=
  (c =? 9) || (c =? 10) || (c =? 11) || (c =? 12) || (c =? 13) || (c =? 32)
  || (c =? 160) || (c =? 5760) || ((8192 <=? c) && (c <=? 8202))
  || (c =? 8232) || (c =? 8233) || (c =? 8239) || (c =? 8287)
  || (c =? 12288) || (c =? 65279).

Fixpoint trimStart (s : jsstring) : jsstring :=
  match s with
  | c :: s' => if isWhiteSpace c then trimStart s' else s
  | [] => []
  end.

Definition trimEnd (s : jsstring) : jsstring := reverse (trimStart (reverse s)).

Definition trim (s : jsstring) : jsstring := trimEnd (trimStart s).

Definition isAscii (s : jsstring) : Prop := Forall (fun c => c < 128) s.

Definition isUpper (c : N) : bool := (65 <=? c) && (c <=? 90).

Definition lowerUnit (c : N) : N := if isUpper c then c + 32 else c.

(** [String.prototype.toLowerCase] on strings of ASCII code units, where it
    maps A-Z to a-z unit by unit.  Code units from 128 up are left as they
    are here; the statements about [toLowerCase] below are restricted to
    [isAscii] strings. *)
Definition toLowerCase (s : jsstring) : jsstring := lowerUnit <$> s.

(** [s.replace(pat, by)] with a string pattern: the first occurrence only. *)
Fixpoint isPrefix (p s : jsstring) : bool :=
  match p, s with
  | [], _ => true
  | a :: p', b :: s' => (a =? b) && isPrefix p' s'
  | _ :: _, [] => false
  end.

Fixpoint replace (s pat by' : jsstring) : jsstring :=
  if isPrefix pat s then by' ++ drop (length pat) s
  else match s with
       | [] => []
       | c :: s' => c :: replace s' pat by'
       end.

(** What the host (engine and browser) contributes and the client never
    computes with: the IEEE-754 numbers carried by JSON, the texts of the
    TypeErrors raised when a property of [null] or [undefined] is read and
    when an object cannot be converted to a primitive value, and the URL
    parser behind the WebSocket constructor. *)
Class Host := {
  number : Type;
  numberTruthy : number -> bool;
  numberToString : number -> jsstring;
  (** [n > 0], and [s > 0] for a string (which converts it to a number) *)
  numberPositive : number -> bool;
  stringPositive : jsstring -> bool;
  typeErrorMessage : jsstring -> jsstring;
  conversionErrorMessage : jsstring;
  (** whether [new WebSocket(url)] accepts the URL (it throws a SyntaxError
      otherwise) *)
  webSocketUrlOk : jsstring -> bool
}.

Section Values.
Context `{Host}.

#[local] Set Warnings "-register-all".

(** The values [JSON.parse] produces, plus [undefined].  An object is a
    finite map from property names to values. *)
Inductive JsVal : Type :=
| JUndefined
| JNull
| JBool (b : bool)
| JNum (n : number)
| JStr (s : jsstring)
| JArr (l : list JsVal)
| JObj (m : gmap jsstring JsVal).

(** ToBoolean. *)
Definition truthy (v : JsVal) : bool :=
  match v with
  | JUndefined | JNull => false
  | JBool b => b
  | JNum n => numberTruthy n
  | JStr s => negb (bool_decide (s = []))
  | JArr _ | JObj _ => true
  end.

(** [a || b] on values. *)
Definition or_else (a b : JsVal) : JsVal := if truthy a then a else b.

(** [v.k] for an own data property [k].  Reading a property of [null] or
    [undefined] throws a TypeError ([None]); a name that the value does not
    carry reads as [undefined].  (None of the names read by the client is
    a built-in property of strings, numbers, booleans or arrays.) *)
Definition getProp (v : JsVal) (k : jsstring) : option JsVal :=
  match v with
  | JUndefined | JNull => None
  | JObj m => Some (default JUndefined (m !! k))
  | _ => Some JUndefined
  end.

Definition hasProp (v : JsVal) (k : jsstring) : Prop :=
  match v with
  | JObj m => is_Some (m !! k)
  | _ => False
  end.

(** An object literal [{k1: v1, ...}]. *)
Definition object (kvs : list (jsstring * JsVal)) : JsVal :=
  JObj (list_to_map kvs).

Fixpoint join (sep : jsstring) (parts : list jsstring) : jsstring :=
  match parts with
  | [] => []
  | [p] => p
  | p :: rest => p ++ sep ++ join sep rest
  end.

(** ToPrimitive on a value of [JSON.parse].  An object that carries an own
    property [toString] cannot be converted: the property is not callable
    (no parsed value is), and the inherited [valueOf] answers the object
    itself, so a TypeError is thrown, whether a string or a number is asked
    for.  Without that property the inherited [Object.prototype.toString]
    answers.  An array is converted by [join], which converts its
    elements. *)
Fixpoint convertible (v : JsVal) : bool :=
  match v with
  | JObj m => match m !! lit "toString" with
              | Some _ => false
              | None => true
              end
  | JArr l => forallb convertible l
  | _ => true
  end.

(** The string of a value that is [convertible]. *)
Fixpoint primitiveString (v : JsVal) : jsstring :=
  match v with
  | JUndefined => lit "undefined"
  | JNull => lit "null"
  | JBool true => lit "true"
  | JBool false => lit "false"
  | JNum n => numberToString n
  | JStr s => s
  | JArr l =>
      join (lit ",")
        (map (fun x => match x with
                       | JUndefined | JNull => []
                       | _ => primitiveString x
                       end) l)
  | JObj _ => lit "[object Object]"
  end.

(** ToString, as a template literal applies it; [None] when it throws. *)
Definition toString (v : JsVal) : option jsstring :=
  if convertible v then Some (primitiveString v) else None.

Definition isHighSurrogate (c : N) : bool := (55296 <=? c) && (c <=? 56319).
Definition isLowSurrogate (c : N) : bool := (56320 <=? c) && (c <=? 57343).

(** The string iterator: one string per code point. *)
Fixpoint codePoints (s : jsstring) : list jsstring :=
  match s with
  | [] => []
  | c :: s' =>
      match s' with
      | d :: s'' =>
          if isHighSurrogate c && isLowSurrogate d then [c; d] :: codePoints s''
          else [c] :: codePoints s'
      | [] => [[c]]
      end
  end.

(** The elements [...v] spreads into an array literal; [None] when [v] is
    not iterable (a TypeError). *)
Definition spread (v : JsVal) : option (list JsVal) :=
  match v with
  | JArr l => Some l
  | JStr s => Some (JStr <$> codePoints s)
  | _ => None
  end.

(** [v === s] against a string literal. *)
Definition strictEq (v : JsVal) (s : jsstring) : bool :=
  match v with
  | JStr t => bool_decide (t = s)
  | _ => false
  end.

(** [v > 0], which converts [v] to a number; [None] when that throws. *)
Definition positive (v : JsVal) : option bool :=
  if convertible v then
    Some match v with
         | JUndefined | JNull | JObj _ => false
         | JBool b => b
         | JNum n => numberPositive n
         | JStr s => stringPositive s
         | JArr _ => stringPositive (primitiveString v)
         end
  else None.

(** [v.length > 0]. *)
Definition lengthPositive (v : JsVal) : option bool :=
  match v with
  | JArr l => Some (negb (bool_decide (l = [])))
  | JStr s => Some (negb (bool_decide (s = [])))
  | _ => getProp v (lit "length") ≫= positive
  end.

(** What React accepts as a child in [{v}]: a plain object is refused (the
    render throws), an array is rendered element by element. *)
Fixpoint validChild (v : JsVal) : bool :=
  match v with
  | JObj _ => false
  | JArr l => forallb validChild l
  | _ => true
  end.

End Values.

Arguments JsVal {_}.

End Js.

Import Js.

(** ** Browser services: timers and WebSockets *)
Module Browser.

Inductive ReadyState := CONNECTING | OPEN | CLOSING | CLOSED.

#[global] Instance ReadyState_eq_dec : EqDecision ReadyState.
Proof. solve_decision. Defined.

Record Socket := { url : jsstring; readyState : ReadyState }.

Section Runtime.
Context `{Host}.
(** [C] is the type of the closures a view hands to [setTimeout]. *)
Context {C : Type}.

Record Timer := { due : N; callback : C }.

(** The calls a view makes on the browser, in order. *)
Inductive Call :=
| CSetTimeout (id : N) (cb : C) (delay : N)
| CClearTimeout (id : N)
| CNewWebSocket (target : jsstring)
| CSend (sock : N) (payload : JsVal)
| CClose (sock : N)
| CFetch (target : jsstring) (method : jsstring) (body : JsVal)
| CRecognitionStart (r : N)
| CRecognitionStop (r : N).

Record Runtime := {
  now : N;                      (* milliseconds *)
  timers : gmap N Timer;        (* pending timeouts by id *)
  nextTimer : N;                (* ids are handed out from 1 upwards *)
  sockets : gmap N Socket;
  nextSocket : N;
  calls : list Call
}.

Definition boot : Runtime :=
  {| now := 0; timers := ∅; nextTimer := 1; sockets := ∅; nextSocket := 1;
     calls := [] |}.

Definition record (c : Call) (rt : Runtime) : Runtime :=
  {| now := now rt; timers := timers rt; nextTimer := nextTimer rt;
     sockets := sockets rt; nextSocket := nextSocket rt;
     calls := calls rt ++ [c] |}.

(** [setTimeout(cb, delay)]: returns the id of the new timeout. *)
Definition setTimeout (cb : C) (delay : N) (rt : Runtime) : N * Runtime :=
  let id := nextTimer rt in
  (id,
   {| now := now rt;
      timers := <[id := {| due := now rt + delay; callback := cb |}]> (timers rt);
      nextTimer := id + 1;
      sockets := sockets rt; nextSocket := nextSocket rt;
      calls := calls rt ++ [CSetTimeout id cb delay] |}).

(** [clearTimeout(id)]: a no-op when [id] is not pending. *)
Definition clearTimeout (id : N) (rt : Runtime) : Runtime :=
  {| now := now rt; timers := delete id (timers rt); nextTimer := nextTimer rt;
     sockets := sockets rt; nextSocket := nextSocket rt;
     calls := calls rt ++ [CClearTimeout id] |}.

(** The event loop takes a due timeout off the table before running it. *)
Definition takeTimer (id : N) (rt : Runtime) : option (C * Runtime) :=
  match timers rt !! id with
  | Some t =>
      if due t <=? now rt then
        Some (callback t,
              {| now := now rt; timers := delete id (timers rt);
                 nextTimer := nextTimer rt; sockets := sockets rt;
                 nextSocket := nextSocket rt; calls := calls rt |})
      else None
  | None => None
  end.

Definition advance (dt : N) (rt : Runtime) : Runtime :=
  {| now := now rt + dt; timers := timers rt; nextTimer := nextTimer rt;
     sockets := sockets rt; nextSocket := nextSocket rt; calls := calls rt |}.

(** [new WebSocket(url)]: no socket when the constructor throws. *)
Definition newWebSocket (target : jsstring) (rt : Runtime) : option N * Runtime :=
  let s := nextSocket rt in
  if webSocketUrlOk target then
    (Some s,
     {| now := now rt; timers := timers rt; nextTimer := nextTimer rt;
        sockets := <[s := {| url := target; readyState := CONNECTING |}]> (sockets rt);
        nextSocket := s + 1;
        calls := calls rt ++ [CNewWebSocket target] |})
  else (None, record (CNewWebSocket target) rt).

Definition setReadyState (s : N) (r : ReadyState) (rt : Runtime) : Runtime :=
  {| now := now rt; timers := timers rt; nextTimer := nextTimer rt;
     sockets := alter (fun k => {| url := url k; readyState := r |}) s (sockets rt);
     nextSocket := nextSocket rt; calls := calls rt |}.

Definition isOpen (s : N) (rt : Runtime) : bool :=
  match sockets rt !! s with
  | Some k => bool_decide (readyState k = OPEN)
  | None => false
  end.

(** [ws.close()]: starts the closing handshake of a socket that is not
    closed yet; the close event comes later, from the browser. *)
Definition close (s : N) (rt : Runtime) : Runtime :=
  let rt' := record (CClose s) rt in
  match sockets rt !! s with
  | Some k =>
      match readyState k with
      | CONNECTING | OPEN => setReadyState s CLOSING rt'
      | CLOSING | CLOSED => rt'
      end
  | None => rt'
  end.

(** Timer ids handed out so far are below [nextTimer], and never 0. *)
Definition timersFresh (rt : Runtime) : Prop :=
  0 < nextTimer rt ∧ ∀ id t, timers rt !! id = Some t → 0 < id < nextTimer rt.

End Runtime.

Section Fetch.
Context `{Host}.

(** How [await fetch(...)] followed by [await response.json()] can end:
    the request fails, or a response arrives whose body parses to a value
    ([inl]) or makes [response.json()] throw with some message ([inr]). *)
Inductive FetchOutcome :=
| FetchRejected (message : jsstring)
| Response (ok : bool) (json : JsVal + jsstring).

End Fetch.

Arguments Timer : clear implicits.
Arguments Call {_} C.
Arguments Runtime {_} C.

End Browser.

Import Browser.

(** ** The solo view (frontend/src/App.js, [TruthSeeker]) *)
Module TruthSeeker.

(** The closures the view passes to [setTimeout]. *)
Inductive Callback :=
| CbConnectWebSocket                   (* line 132 *)
| CbRestart (r : N)                    (* lines 91-98, for recognition [r] *)
| CbFactCheck (sentence : jsstring).   (* lines 177-208 *)

(** A [SpeechRecognition] object.  Its handlers are installed by the effect
    of lines 33-109 and close over the [isListening] of the render that ran
    the effect. *)
Record Recognition := { capturedIsListening : bool; started : bool }.

(** A [SpeechRecognitionEvent]: [results[i][0].transcript] and
    [results[i].isFinal] for each result. *)
Record ResultEvent := { resultIndex : nat; results : list (jsstring * bool) }.

Section View.
Context `{Host}.
Context (BACKEND_URL : jsstring) (sessionId : jsstring).
(** whether [window.SpeechRecognition || window.webkitSpeechRecognition]
    is defined *)
Context (SpeechRecognition : bool).

Definition API_URL : jsstring := BACKEND_URL ++ lit "/api".
Definition WS_URL : jsstring :=
  replace (replace BACKEND_URL (lit "https://") (lit "wss://"))
          (lit "http://") (lit "ws://").

Record State := {
  (* useState *)
  isListening : bool;
  transcription : jsstring;
  currentSentence : jsstring;
  factChecks : list JsVal;
  isProcessing : bool;
  error : jsstring;
  apiConfigured : JsVal;
  (* useRef *)
  recognitionRef : option N;
  wsRef : option N;
  processTimeoutRef : option N;
  (* the recognition objects created so far, and the browser *)
  recognitions : gmap N Recognition;
  nextRecognition : N;
  rt : Runtime Callback
}.

Definition storeIsListening (x : bool) (st : State) : State :=
  {| isListening := x; transcription := transcription st; currentSentence :=
     currentSentence st; factChecks := factChecks st; isProcessing :=
     isProcessing st; error := error st; apiConfigured := apiConfigured st;
     recognitionRef := recognitionRef st; wsRef := wsRef st;
     processTimeoutRef := processTimeoutRef st; recognitions := recognitions
     st; nextRecognition := nextRecognition st; rt := rt st |}.

Definition setTranscription (x : jsstring) (st : State) : State :=
  {| isListening := isListening st; transcription := x; currentSentence :=
     currentSentence st; factChecks := factChecks st; isProcessing :=
     isProcessing st; error := error st; apiConfigured := apiConfigured st;
     recognitionRef := recognitionRef st; wsRef := wsRef st;
     processTimeoutRef := processTimeoutRef st; recognitions := recognitions
     st; nextRecognition := nextRecognition st; rt := rt st |}.

Definition setCurrentSentence (x : jsstring) (st : State) : State :=
  {| isListening := isListening st; transcription := transcription st;
     currentSentence := x; factChecks := factChecks st; isProcessing :=
     isProcessing st; error := error st; apiConfigured := apiConfigured st;
     recognitionRef := recognitionRef st; wsRef := wsRef st;
     processTimeoutRef := processTimeoutRef st; recognitions := recognitions
     st; nextRecognition := nextRecognition st; rt := rt st |}.

Definition setFactChecks (x : list JsVal) (st : State) : State :=
  {| isListening := isListening st; transcription := transcription st;
     currentSentence := currentSentence st; factChecks := x; isProcessing :=
     isProcessing st; error := error st; apiConfigured := apiConfigured st;
     recognitionRef := recognitionRef st; wsRef := wsRef st;
     processTimeoutRef := processTimeoutRef st; recognitions := recognitions
     st; nextRecognition := nextRecognition st; rt := rt st |}.

Definition setIsProcessing (x : bool) (st : State) : State :=
  {| isListening := isListening st; transcription := transcription st;
     currentSentence := currentSentence st; factChecks := factChecks st;
     isProcessing := x; error := error st; apiConfigured := apiConfigured
     st; recognitionRef := recognitionRef st; wsRef := wsRef st;
     processTimeoutRef := processTimeoutRef st; recognitions := recognitions
     st; nextRecognition := nextRecognition st; rt := rt st |}.

Definition setError (x : jsstring) (st : State) : State :=
  {| isListening := isListening st; transcription := transcription st;
     currentSentence := currentSentence st; factChecks := factChecks st;
     isProcessing := isProcessing st; error := x; apiConfigured :=
     apiConfigured st; recognitionRef := recognitionRef st; wsRef := wsRef
     st; processTimeoutRef := processTimeoutRef st; recognitions :=
     recognitions st; nextRecognition := nextRecognition st; rt := rt st |}.

Definition setApiConfigured (x : JsVal) (st : State) : State :=
  {| isListening := isListening st; transcription := transcription st;
     currentSentence := currentSentence st; factChecks := factChecks st;
     isProcessing := isProcessing st; error := error st; apiConfigured := x;
     recognitionRef := recognitionRef st; wsRef := wsRef st;
     processTimeoutRef := processTimeoutRef st; recognitions := recognitions
     st; nextRecognition := nextRecognition st; rt := rt st |}.

Definition setRecognitionRef (x : option N) (st : State) : State :=
  {| isListening := isListening st; transcription := transcription st;
     currentSentence := currentSentence st; factChecks := factChecks st;
     isProcessing := isProcessing st; error := error st; apiConfigured :=
     apiConfigured st; recognitionRef := x; wsRef := wsRef st;
     processTimeoutRef := processTimeoutRef st; recognitions := recognitions
     st; nextRecognition := nextRecognition st; rt := rt st |}.

Definition setWsRef (x : option N) (st : State) : State :=
  {| isListening := isListening st; transcription := transcription st;
     currentSentence := currentSentence st; factChecks := factChecks st;
     isProcessing := isProcessing st; error := error st; apiConfigured :=
     apiConfigured st; recognitionRef := recognitionRef st; wsRef := x;
     processTimeoutRef := processTimeoutRef st; recognitions := recognitions
     st; nextRecognition := nextRecognition st; rt := rt st |}.

Definition setProcessTimeoutRef (x : option N) (st : State) : State :=
  {| isListening := isListening st; transcription := transcription st;
     currentSentence := currentSentence st; factChecks := factChecks st;
     isProcessing := isProcessing st; error := error st; apiConfigured :=
     apiConfigured st; recognitionRef := recognitionRef st; wsRef := wsRef
     st; processTimeoutRef := x; recognitions := recognitions st;
     nextRecognition := nextRecognition st; rt := rt st |}.

Definition setRecognitions (x : gmap N Recognition) (st : State) : State :=
  {| isListening := isListening st; transcription := transcription st;
     currentSentence := currentSentence st; factChecks := factChecks st;
     isProcessing := isProcessing st; error := error st; apiConfigured :=
     apiConfigured st; recognitionRef := recognitionRef st; wsRef := wsRef
     st; processTimeoutRef := processTimeoutRef st; recognitions := x;
     nextRecognition := nextRecognition st; rt := rt st |}.

Definition setNextRecognition (x : N) (st : State) : State :=
  {| isListening := isListening st; transcription := transcription st;
     currentSentence := currentSentence st; factChecks := factChecks st;
     isProcessing := isProcessing st; error := error st; apiConfigured :=
     apiConfigured st; recognitionRef := recognitionRef st; wsRef := wsRef
     st; processTimeoutRef := processTimeoutRef st; recognitions :=
     recognitions st; nextRecognition := x; rt := rt st |}.

Definition setRt (x : Runtime Callback) (st : State) : State :=
  {| isListening := isListening st; transcription := transcription st;
     currentSentence := currentSentence st; factChecks := factChecks st;
     isProcessing := isProcessing st; error := error st; apiConfigured :=
     apiConfigured st; recognitionRef := recognitionRef st; wsRef := wsRef
     st; processTimeoutRef := processTimeoutRef st; recognitions :=
     recognitions st; nextRecognition := nextRecognition st; rt := x |}.

Definition call (c : Call Callback) (st : State) : State :=
  setRt (record c (rt st)) st.

(** *** Speech recognition (lines 33-109) *)

(** [recognition.start()]: throws an InvalidStateError ([None]) on an object
    that is already started. *)
Definition recognitionStart (r : N) (st : State) : option State :=
  match recognitions st !! r with
  | Some k =>
      if started k then None
      else Some (call (CRecognitionStart r)
                   (setRecognitions
                      (<[r := {| capturedIsListening := capturedIsListening k;
                                 started := true |}]> (recognitions st)) st))
  | None => None
  end.

(** [recognition.stop()]; the browser delivers the end event later. *)
Definition recognitionStop (r : N) (st : State) : State :=
  call (CRecognitionStop r) st.

(** The body of the effect: a new recognition object whose handlers see the
    current [isListening]. *)
Definition recognitionEffect (st : State) : State :=
  if negb SpeechRecognition then
    setError (lit "Speech recognition not supported in this browser. Please use Chrome, Safari, or Edge.") st
  else
    let r := nextRecognition st in
    setRecognitionRef (Some r)
      (setNextRecognition (r + 1)
         (setRecognitions
            (<[r := {| capturedIsListening := isListening st; started := false |}]>
               (recognitions st)) st)).

(** The cleanup returned by the effect (lines 104-108). *)
Definition recognitionCleanup (st : State) : State :=
  if negb SpeechRecognition then st
  else match recognitionRef st with
       | Some r => recognitionStop r st
       | None => st
       end.

(** [setIsListening(b)] together with the re-render it causes: the effect
    has [isListening] as its dependency, so a change of the flag runs the
    cleanup of the previous effect and then the effect again.  (In every
    handler below nothing after [setIsListening] touches a recognition
    object, so running the effect at the call is the same as running it
    when the handler has returned.) *)
Definition setIsListening (b : bool) (st : State) : State :=
  if bool_decide (b = isListening st) then st
  else recognitionEffect (recognitionCleanup (storeIsListening b st)).

(** *** Debounced fact-check requests (lines 169-209) *)

(** [if (processTimeoutRef.current)]: [null] and the id 0 are falsy. *)
Definition pendingTimeout (st : State) : option N :=
  match processTimeoutRef st with
  | Some id => if id =? 0 then None else Some id
  | None => None
  end.

Definition processSentenceForFactCheck (sentence : jsstring) (st : State) : State :=
  let st1 := match pendingTimeout st with
             | Some id => setRt (clearTimeout id (rt st)) st
             | None => st
             end in
  let st2 := setIsProcessing true st1 in
  let '(id, rt') := setTimeout (CbFactCheck sentence) 1000 (rt st2) in
  setProcessTimeoutRef (Some id) (setRt rt' st2).

(** The timeout's closure, up to its first [await] (lines 178-196). *)
Definition factCheckTimeout (sentence : jsstring) (st : State) : State :=
  match wsRef st with
  | Some s =>
      if isOpen s (rt st) then
        setIsProcessing false
          (call (CSend s (object [(lit "type", JStr (lit "transcription_update"));
                                  (lit "text", JStr sentence);
                                  (lit "is_final", JBool true)])) st)
      else
        call (CFetch (API_URL ++ lit "/fact-check") (lit "POST")
                (object [(lit "statement", JStr sentence);
                         (lit "session_id", JStr sessionId)])) st
  | None =>
      call (CFetch (API_URL ++ lit "/fact-check") (lit "POST")
              (object [(lit "statement", JStr sentence);
                       (lit "session_id", JStr sessionId)])) st
  end.

(** The rest of the closure, when the HTTP fallback answers
    (lines 198-207). *)
Definition factCheckResponse (o : FetchOutcome) (st : State) : State :=
  match o with
  | Response true (inl result) =>
      setIsProcessing false (setFactChecks (result :: factChecks st) st)
  | _ => setIsProcessing false st
  end.

(** *** Recognition handlers *)

Definition onstart (st : State) : State := setError [] st.

(** The loop of lines 53-60: (interimTranscript, finalTranscript). *)
Definition transcripts (ev : ResultEvent) : jsstring * jsstring :=
  foldl (fun (acc : jsstring * jsstring) (r : jsstring * bool) =>
           if snd r then (fst acc, snd acc ++ fst r)
           else (fst acc ++ fst r, snd acc))
        ([], []) (drop (resultIndex ev) (results ev)).

Definition interimTranscript (ev : ResultEvent) : jsstring := fst (transcripts ev).
Definition finalTranscript (ev : ResultEvent) : jsstring := snd (transcripts ev).

Definition onresult (ev : ResultEvent) (st : State) : State :=
  let final := finalTranscript ev in
  if negb (bool_decide (final = [])) then
    let st1 := setCurrentSentence []
                 (setTranscription (transcription st ++ final ++ lit " ") st) in
    if (10 <? length (trim final))%nat then
      processSentenceForFactCheck (trim final) st1
    else st1
  else setCurrentSentence (interimTranscript ev) st.

Definition onerror (err : jsstring) (st : State) : State :=
  let st1 :=
    if bool_decide (err = lit "not-allowed") then
      setError (lit "Microphone access denied. Please allow microphone access and refresh the page.") st
    else if bool_decide (err = lit "no-speech") then
      setError (lit "No speech detected. Please try speaking again.") st
    else setError (lit "Speech recognition error: " ++ err) st in
  setIsListening false st1.

(** [recognition.onend] of the recognition object [r] (lines 87-100); the
    [isListening] it tests is the one its closure captured. *)
Definition onend (r : N) (st : State) : State :=
  match recognitions st !! r with
  | Some k =>
      if capturedIsListening k then
        setRt (snd (setTimeout (CbRestart r) 100 (rt st))) st
      else st
  | None => st
  end.

(** The closure of lines 91-98. *)
Definition restart (r : N) (st : State) : State :=
  match recognitionStart r st with
  | Some st' => st'
  | None => setIsListening false st
  end.

(** *** WebSocket (lines 112-152) *)

Definition connectWebSocket (st : State) : State :=
  let '(socket, rt') := newWebSocket (WS_URL ++ lit "/ws/" ++ sessionId) (rt st) in
  match socket with
  | Some s => setWsRef (Some s) (setRt rt' st)
  | None => setRt rt' st        (* caught, logged *)
  end.

Definition ws_onopen (st : State) : State := st.

(** [event.data] parses to [message], or [JSON.parse] throws ([None]). *)
Definition ws_onmessage (parsed : option JsVal) (st : State) : State :=
  match parsed with
  | Some message =>
      match getProp message (lit "type") with
      | Some type =>
          if strictEq type (lit "fact_check_result") then
            setIsProcessing false
              (setFactChecks
                 (default JUndefined (getProp message (lit "data")) :: factChecks st)
                 st)
          else st
      | None => st    (* TypeError in the handler: nothing is updated *)
      end
  | None => st
  end.

Definition ws_onclose (st : State) : State :=
  setRt (snd (setTimeout CbConnectWebSocket 3000 (rt st))) st.

Definition ws_onerror (st : State) : State := st.

(** The cleanup of the WebSocket effect (lines 147-151). *)
Definition wsCleanup (st : State) : State :=
  match wsRef st with
  | Some s => setRt (close s (rt st)) st
  | None => st
  end.

(** *** Health check (lines 155-167) *)

Definition checkHealth (st : State) : State :=
  call (CFetch (API_URL ++ lit "/health") (lit "GET") JUndefined) st.

Definition healthResponse (o : FetchOutcome) (st : State) : State :=
  match o with
  | Response _ (inl data) =>
      match getProp data (lit "perplexity_api_configured") with
      | Some flag => setApiConfigured flag st
      | None => st    (* caught, logged *)
      end
  | _ => st
  end.

(** *** Buttons (lines 211-234) *)

Definition toggleListening (st : State) : State :=
  match recognitionRef st with
  | None => st
  | Some r =>
      if isListening st then setIsListening false (recognitionStop r st)
      else match recognitionStart r st with
           | Some st' => setError [] (setIsListening true st')
           | None =>
               setError (lit "Error starting speech recognition. Please try again.") st
           end
  end.

Definition clearAll (st : State) : State :=
  setError [] (setFactChecks [] (setCurrentSentence [] (setTranscription [] st))).

(** *** Rendering (lines 236-434) *)

Definition verdictColor (verdict : jsstring) : jsstring :=
  let v := toLowerCase verdict in
  if bool_decide (v = lit "true") then
    lit "text-green-400 bg-green-900/20 border-green-500/30"
  else if bool_decide (v = lit "false") then
    lit "text-red-400 bg-red-900/20 border-red-500/30"
  else if bool_decide (v = lit "partially true") then
    lit "text-yellow-400 bg-yellow-900/20 border-yellow-500/30"
  else lit "text-gray-400 bg-gray-900/20 border-gray-500/30".

(** U+2713, U+2717, U+26A0 and the question mark. *)
Definition verdictIcon (verdict : jsstring) : jsstring :=
  let v := toLowerCase verdict in
  if bool_decide (v = lit "true") then [10003]
  else if bool_decide (v = lit "false") then [10007]
  else if bool_decide (v = lit "partially true") then [9888]
  else lit "?".

(** [verdict.toLowerCase()] throws a TypeError on anything but a string. *)
Definition getVerdictColor (verdict : JsVal) : option jsstring :=
  match verdict with
  | JStr s => Some (verdictColor s)
  | _ => None
  end.

Definition getVerdictIcon (verdict : JsVal) : option jsstring :=
  match verdict with
  | JStr s => Some (verdictIcon s)
  | _ => None
  end.

(** The header badge of lines 277-281. *)
Definition demoBanner (st : State) : option jsstring :=
  if negb (truthy (apiConfigured st)) then
    Some (lit "Demo Mode - Add Perplexity API Key")
  else None.

(** One card of the fact-check list (lines 373-407).  [confidence] is the
    operand of [Math.round(check.confidence_score * 100)]. *)
Record Card := {
  className : jsstring;
  icon : jsstring;
  verdict : JsVal;
  confidence : JsVal;
  statement : JsVal;
  explanation : JsVal;
  sources : list (JsVal * JsVal)     (* href and link text, at most two *)
}.

(** One link (lines 399-403): [source.title] is a child; [source.url] is
    the [href] attribute, which React sets as ['' + value]. *)
Definition renderSource (source : JsVal) : option (JsVal * JsVal) :=
  href ← getProp source (lit "url");
  title ← getProp source (lit "title");
  if convertible href && validChild title then Some (href, title) else None.

(** [check.sources && check.sources.length > 0 && (...slice(0, 2).map(...))] *)
Definition renderSources (srcs : JsVal) : option (list (JsVal * JsVal)) :=
  if truthy srcs then
    nonempty ← lengthPositive srcs;
    if nonempty : bool then
      match srcs with
      | JArr l => mapM renderSource (take 2 l)
      | _ => None               (* no [slice], or no [map] on its result *)
      end
    else Some []
  else Some [].

(** [None]: rendering the card throws.  [check.confidence_score * 100]
    converts its operand to a number. *)
Definition renderCard (check : JsVal) : option Card :=
  v ← getProp check (lit "verdict");
  color ← getVerdictColor v;
  ic ← getVerdictIcon v;
  c ← getProp check (lit "confidence_score");
  s ← getProp check (lit "statement");
  e ← getProp check (lit "explanation");
  srcs ← getProp check (lit "sources");
  links ← renderSources srcs;
  if convertible c && validChild s && validChild e then
    Some {| className := color; icon := ic; verdict := v; confidence := c;
            statement := s; explanation := e; sources := links |}
  else None.

Definition renderFactChecks (st : State) : option (list Card) :=
  mapM renderCard (factChecks st).

(** Whether the render of the view returns.  Besides the fact-check list
    it shows strings of the view's own and tests flags ([apiConfigured] is
    only negated), so it returns exactly when every card renders.  The
    view sits under no error boundary: when its render throws, React
    unmounts it. *)
Definition renders (st : State) : bool :=
  match renderFactChecks st with
  | Some _ => true
  | None => false
  end.

(** *** The life of the view *)

Definition initial : State :=
  {| isListening := false; transcription := []; currentSentence := [];
     factChecks := []; isProcessing := false; error := [];
     apiConfigured := JBool false;
     recognitionRef := None; wsRef := None; processTimeoutRef := None;
     recognitions := ∅; nextRecognition := 1; rt := boot |}.

(** First render: the three effects, in source order. *)
Definition mount : State :=
  checkHealth (connectWebSocket (recognitionEffect initial)).

Definition unmount (st : State) : State :=
  wsCleanup (recognitionCleanup st).

Definition runCallback (cb : Callback) (st : State) : State :=
  match cb with
  | CbConnectWebSocket => connectWebSocket st
  | CbRestart r => restart r st
  | CbFactCheck sentence => factCheckTimeout sentence st
  end.

(** What can happen to a mounted view. *)
Inductive Event :=
| Elapse (dt : N)
| TimerFires (id : N)
| RecognitionStarts (r : N)
| RecognitionResult (r : N) (ev : ResultEvent)
| RecognitionError (r : N) (err : jsstring)
| RecognitionEnds (r : N)
| SocketOpens (s : N)
| SocketMessage (s : N) (parsed : option JsVal)
| SocketErrors (s : N)
| SocketCloses (s : N)
| HealthAnswers (o : FetchOutcome)
| FactCheckAnswers (o : FetchOutcome)
| ClickMicrophone
| ClickClearAll.

Definition ended (r : N) (st : State) : State :=
  setRecognitions
    (alter (fun k => {| capturedIsListening := capturedIsListening k;
                        started := false |}) r (recognitions st)) st.

(** What the handlers of an event do to the state of a mounted view.  The
    render that follows is [renders]: the view is mounted after the event
    when that render returns, see [staysMounted]. *)
Definition step (st : State) (e : Event) : State :=
  match e with
  | Elapse dt => setRt (advance dt (rt st)) st
  | TimerFires id =>
      match takeTimer id (rt st) with
      | Some (cb, rt') => runCallback cb (setRt rt' st)
      | None => st
      end
  | RecognitionStarts _ => onstart st
  | RecognitionResult _ ev => onresult ev st
  | RecognitionError _ err => onerror err st
  | RecognitionEnds r => onend r (ended r st)
  | SocketOpens s => ws_onopen (setRt (setReadyState s OPEN (rt st)) st)
  | SocketMessage _ parsed => ws_onmessage parsed st
  | SocketErrors _ => ws_onerror st
  | SocketCloses s => ws_onclose (setRt (setReadyState s CLOSED (rt st)) st)
  | HealthAnswers o => healthResponse o st
  | FactCheckAnswers o => factCheckResponse o st
  | ClickMicrophone => toggleListening st
  | ClickClearAll => clearAll st
  end.

Definition steps (st : State) (es : list Event) : State := foldl step st es.

Definition run (es : list Event) : State := steps mount es.

(** The events reach a mounted view one after the other: the render after
    each of them returns. *)
Fixpoint staysMounted (st : State) (es : list Event) : bool :=
  match es with
  | [] => true
  | e :: es' => renders (step st e) && staysMounted (step st e) es'
  end.

End View.

End TruthSeeker.

(** ** The YouTube Live view *)
Module YouTubeLive.

Inductive Callback :=
| CbConnectWebSocket.                  (* line 46 *)

Section View.
Context `{Host}.
Context (BACKEND_URL : jsstring).

Definition API_URL : jsstring := BACKEND_URL ++ lit "/api".
Definition WS_URL : jsstring :=
  replace (replace BACKEND_URL (lit "https://") (lit "wss://"))
          (lit "http://") (lit "ws://").

(** [factChecks] and [transcriptSegments] start as empty arrays, but
    [message.data.fact_checks || []] can store any truthy value there. *)
Record State := {
  (* useState *)
  videoSession : JsVal;
  factChecks : JsVal;
  transcriptSegments : JsVal;
  isConnected : bool;
  error : JsVal;
  loading : bool;
  (* useRef *)
  wsRef : option N;
  reconnectTimeoutRef : option N;
  rt : Runtime Callback
}.

Definition setVideoSession (x : JsVal) (st : State) : State :=
  {| videoSession := x; factChecks := factChecks st; transcriptSegments :=
     transcriptSegments st; isConnected := isConnected st; error := error
     st; loading := loading st; wsRef := wsRef st; reconnectTimeoutRef :=
     reconnectTimeoutRef st; rt := rt st |}.

Definition setFactChecks (x : JsVal) (st : State) : State :=
  {| videoSession := videoSession st; factChecks := x; transcriptSegments :=
     transcriptSegments st; isConnected := isConnected st; error := error
     st; loading := loading st; wsRef := wsRef st; reconnectTimeoutRef :=
     reconnectTimeoutRef st; rt := rt st |}.

Definition setTranscriptSegments (x : JsVal) (st : State) : State :=
  {| videoSession := videoSession st; factChecks := factChecks st;
     transcriptSegments := x; isConnected := isConnected st; error := error
     st; loading := loading st; wsRef := wsRef st; reconnectTimeoutRef :=
     reconnectTimeoutRef st; rt := rt st |}.

Definition setIsConnected (x : bool) (st : State) : State :=
  {| videoSession := videoSession st; factChecks := factChecks st;
     transcriptSegments := transcriptSegments st; isConnected := x; error :=
     error st; loading := loading st; wsRef := wsRef st; reconnectTimeoutRef
     := reconnectTimeoutRef st; rt := rt st |}.

Definition setError (x : JsVal) (st : State) : State :=
  {| videoSession := videoSession st; factChecks := factChecks st;
     transcriptSegments := transcriptSegments st; isConnected := isConnected
     st; error := x; loading := loading st; wsRef := wsRef st;
     reconnectTimeoutRef := reconnectTimeoutRef st; rt := rt st |}.

Definition setLoading (x : bool) (st : State) : State :=
  {| videoSession := videoSession st; factChecks := factChecks st;
     transcriptSegments := transcriptSegments st; isConnected := isConnected
     st; error := error st; loading := x; wsRef := wsRef st;
     reconnectTimeoutRef := reconnectTimeoutRef st; rt := rt st |}.

Definition setWsRef (x : option N) (st : State) : State :=
  {| videoSession := videoSession st; factChecks := factChecks st;
     transcriptSegments := transcriptSegments st; isConnected := isConnected
     st; error := error st; loading := loading st; wsRef := x;
     reconnectTimeoutRef := reconnectTimeoutRef st; rt := rt st |}.

Definition setReconnectTimeoutRef (x : option N) (st : State) : State :=
  {| videoSession := videoSession st; factChecks := factChecks st;
     transcriptSegments := transcriptSegments st; isConnected := isConnected
     st; error := error st; loading := loading st; wsRef := wsRef st;
     reconnectTimeoutRef := x; rt := rt st |}.

Definition setRt (x : Runtime Callback) (st : State) : State :=
  {| videoSession := videoSession st; factChecks := factChecks st;
     transcriptSegments := transcriptSegments st; isConnected := isConnected
     st; error := error st; loading := loading st; wsRef := wsRef st;
     reconnectTimeoutRef := reconnectTimeoutRef st; rt := x |}.

Definition call (c : Call Callback) (st : State) : State :=
  setRt (record c (rt st)) st.

(** *** Messages (lines 97-129) *)

(** [prev => [...prev, x]]; [None] when [prev] is not iterable. *)
Definition append (prev x : JsVal) : option JsVal :=
  l ← spread prev; Some (JArr (l ++ [x])).

(** [None]: the updater [prev => [...prev, x]] throws when React applies
    it, and the view is taken down.  (When [message] is [null] the
    TypeError is thrown by the handler itself, before any update: the state
    stays as it is.) *)
Definition handleWebSocketMessage (message : JsVal) (st : State) : option State :=
  match getProp message (lit "type") with
  | None => Some st
  | Some type =>
  let data := default JUndefined (getProp message (lit "data")) in
  if strictEq type (lit "current_session") then
    let st1 :=
      if truthy data then
        setTranscriptSegments
          (or_else (default JUndefined (getProp data (lit "transcript_segments")))
                   (JArr []))
          (setFactChecks
             (or_else (default JUndefined (getProp data (lit "fact_checks")))
                      (JArr []))
             (setVideoSession data st))
      else st in
    Some (setLoading false st1)
  else if strictEq type (lit "new_fact_check") then
    fcs ← append (factChecks st) data; Some (setFactChecks fcs st)
  else if strictEq type (lit "new_transcript") then
    segs ← append (transcriptSegments st) data; Some (setTranscriptSegments segs st)
  else if strictEq type (lit "video_changed") then
    Some (setTranscriptSegments (JArr [])
            (setFactChecks (JArr []) (setVideoSession data st)))
  else if strictEq type (lit "error") then
    Some (setError (default JUndefined (getProp message (lit "message"))) st)
  else Some st
  end.

(** *** WebSocket (lines 20-71) *)

Definition connectWebSocket (st : State) : State :=
  let '(socket, rt') := newWebSocket (WS_URL ++ lit "/ws/youtube-live") (rt st) in
  match socket with
  | Some s => setWsRef (Some s) (setRt rt' st)
  | None => setError (JStr (lit "Failed to connect to live updates")) (setRt rt' st)
  end.

(** [ws.onopen] of socket [s]. *)
Definition ws_onopen (s : N) (st : State) : State :=
  call (CSend s (object [(lit "type", JStr (lit "get_current_session"))]))
    (setError (JStr []) (setIsConnected true st)).

Definition ws_onmessage (parsed : option JsVal) (st : State) : option State :=
  match parsed with
  | Some message => handleWebSocketMessage message st
  | None => Some st             (* [JSON.parse] throws in the handler *)
  end.

Definition ws_onclose (st : State) : State :=
  let st1 := setIsConnected false st in
  let '(id, rt') := setTimeout CbConnectWebSocket 3000 (rt st1) in
  setReconnectTimeoutRef (Some id) (setRt rt' st1).

Definition ws_onerror (st : State) : State :=
  setError (JStr (lit "Connection error. Retrying...")) st.

(** The cleanup of lines 63-70. *)
Definition wsCleanup (st : State) : State :=
  let st1 := match wsRef st with
             | Some s => setRt (close s (rt st)) st
             | None => st
             end in
  match reconnectTimeoutRef st1 with
  | Some id => if id =? 0 then st1 else setRt (clearTimeout id (rt st1)) st1
  | None => st1
  end.

(** *** Initial data (lines 74-95) *)

Definition fetchInitialData (st : State) : State :=
  call (CFetch (API_URL ++ lit "/youtube/current-session") (lit "GET") JUndefined) st.

Definition initialDataResponse (o : FetchOutcome) (st : State) : State :=
  let failed := setError (JStr (lit "Failed to load video session")) st in
  let st1 :=
    match o with
    | FetchRejected _ => failed
    | Response false _ => st
    | Response true (inr _) => failed
    | Response true (inl data) =>
        match getProp data (lit "session") with
        | None => failed
        | Some session =>
            if truthy session then
              setTranscriptSegments
                (or_else (default JUndefined (getProp data (lit "transcript_segments")))
                         (JArr []))
                (setFactChecks
                   (or_else (default JUndefined (getProp data (lit "fact_checks")))
                            (JArr []))
                   (setVideoSession session st))
            else st
        end
    end in
  setLoading false st1.

(** *** Rendering (lines 131-155) *)

Definition verdictColor (verdict : jsstring) : jsstring :=
  let v := toLowerCase verdict in
  if bool_decide (v = lit "true") then
    lit "text-green-400 bg-green-900/20 border-green-500/30"
  else if bool_decide (v = lit "false") then
    lit "text-red-400 bg-red-900/20 border-red-500/30"
  else if bool_decide (v = lit "partially true") then
    lit "text-yellow-400 bg-yellow-900/20 border-yellow-500/30"
  else lit "text-gray-400 bg-gray-900/20 border-gray-500/30".

Definition verdictIcon (verdict : jsstring) : jsstring :=
  let v := toLowerCase verdict in
  if bool_decide (v = lit "true") then [10003]
  else if bool_decide (v = lit "false") then [10007]
  else if bool_decide (v = lit "partially true") then [9888]
  else lit "?".

Definition getVerdictColor (verdict : JsVal) : option jsstring :=
  match verdict with
  | JStr s => Some (verdictColor s)
  | _ => None
  end.

Definition getVerdictIcon (verdict : JsVal) : option jsstring :=
  match verdict with
  | JStr s => Some (verdictIcon s)
  | _ => None
  end.

(** *** The life of the view *)

Definition initial : State :=
  {| videoSession := JNull; factChecks := JArr []; transcriptSegments := JArr [];
     isConnected := false; error := JStr []; loading := true;
     wsRef := None; reconnectTimeoutRef := None; rt := boot |}.

Definition mount : State := fetchInitialData (connectWebSocket initial).

Definition unmount (st : State) : State := wsCleanup st.

Inductive Event :=
| Elapse (dt : N)
| TimerFires (id : N)
| SocketOpens (s : N)
| SocketMessage (s : N) (parsed : option JsVal)
| SocketErrors (s : N)
| SocketCloses (s : N)
| InitialDataAnswers (o : FetchOutcome).

(** What the handlers of an event do to the state of a mounted view;
    [None] when a state updater throws.  Whether the render of the new
    state returns, and the view is mounted after the event, is
    [LiveRender.renders] below. *)
Definition step (st : State) (e : Event) : option State :=
  match e with
  | Elapse dt => Some (setRt (advance dt (rt st)) st)
  | TimerFires id =>
      match takeTimer id (rt st) with
      | Some (CbConnectWebSocket, rt') => Some (connectWebSocket (setRt rt' st))
      | None => Some st
      end
  | SocketOpens s => Some (ws_onopen s (setRt (setReadyState s OPEN (rt st)) st))
  | SocketMessage _ parsed => ws_onmessage parsed st
  | SocketErrors _ => Some (ws_onerror st)
  | SocketCloses s => Some (ws_onclose (setRt (setReadyState s CLOSED (rt st)) st))
  | InitialDataAnswers o => Some (initialDataResponse o st)
  end.

Fixpoint steps (st : State) (es : list Event) : option State :=
  match es with
  | [] => Some st
  | e :: es' => st' ← step st e; steps st' es'
  end.

End View.

End YouTubeLive.

(** ** The admin panel (frontend/src/AdminPanel.js) *)
Module AdminPanel.

Section View.
Context `{Host}.
Context (BACKEND_URL : jsstring).
(** [process.env.REACT_APP_ADMIN_KEY]; [None] when it is not defined. *)
Context (REACT_APP_ADMIN_KEY : option jsstring).

Definition API_URL : jsstring := BACKEND_URL ++ lit "/api".

Record State := {
  videoUrl : jsstring;
  currentSession : JsVal;
  isLoading : bool;
  message : jsstring;
  isProcessing : bool;
  adminKey : jsstring;
  isAuthenticated : bool;
  (* the requests sent so far *)
  calls : list (Call Empty_set)
}.

Definition setVideoUrl (x : jsstring) (st : State) : State :=
  {| videoUrl := x; currentSession := currentSession st; isLoading :=
     isLoading st; message := message st; isProcessing := isProcessing st;
     adminKey := adminKey st; isAuthenticated := isAuthenticated st; calls
     := calls st |}.

Definition setCurrentSession (x : JsVal) (st : State) : State :=
  {| videoUrl := videoUrl st; currentSession := x; isLoading := isLoading
     st; message := message st; isProcessing := isProcessing st; adminKey :=
     adminKey st; isAuthenticated := isAuthenticated st; calls := calls st
     |}.

Definition setIsLoading (x : bool) (st : State) : State :=
  {| videoUrl := videoUrl st; currentSession := currentSession st; isLoading
     := x; message := message st; isProcessing := isProcessing st; adminKey
     := adminKey st; isAuthenticated := isAuthenticated st; calls := calls
     st |}.

Definition setMessage (x : jsstring) (st : State) : State :=
  {| videoUrl := videoUrl st; currentSession := currentSession st; isLoading
     := isLoading st; message := x; isProcessing := isProcessing st;
     adminKey := adminKey st; isAuthenticated := isAuthenticated st; calls
     := calls st |}.

Definition setIsProcessing (x : bool) (st : State) : State :=
  {| videoUrl := videoUrl st; currentSession := currentSession st; isLoading
     := isLoading st; message := message st; isProcessing := x; adminKey :=
     adminKey st; isAuthenticated := isAuthenticated st; calls := calls st
     |}.

Definition setAdminKey (x : jsstring) (st : State) : State :=
  {| videoUrl := videoUrl st; currentSession := currentSession st; isLoading
     := isLoading st; message := message st; isProcessing := isProcessing
     st; adminKey := x; isAuthenticated := isAuthenticated st; calls :=
     calls st |}.

Definition setIsAuthenticated (x : bool) (st : State) : State :=
  {| videoUrl := videoUrl st; currentSession := currentSession st; isLoading
     := isLoading st; message := message st; isProcessing := isProcessing
     st; adminKey := adminKey st; isAuthenticated := x; calls := calls st
     |}.

Definition setCalls (x : list (Call Empty_set)) (st : State) : State :=
  {| videoUrl := videoUrl st; currentSession := currentSession st; isLoading
     := isLoading st; message := message st; isProcessing := isProcessing
     st; adminKey := adminKey st; isAuthenticated := isAuthenticated st;
     calls := x |}.

Definition initial : State :=
  {| videoUrl := []; currentSession := JNull; isLoading := false; message := [];
     isProcessing := false; adminKey := []; isAuthenticated := false; calls := [] |}.

(** *** Current session (lines 21-31) *)

Definition fetchCurrentSession (st : State) : State :=
  setCalls (calls st ++ [CFetch (API_URL ++ lit "/youtube/current-session")
                           (lit "GET") JUndefined]) st.

Definition currentSessionResponse (o : FetchOutcome) (st : State) : State :=
  match o with
  | Response true (inl data) =>
      match getProp data (lit "session") with
      | Some session => setCurrentSession session st
      | None => st
      end
  | _ => st
  end.

(** *** Login (lines 33-42) *)

Definition handleAuth (st : State) : State :=
  if bool_decide (adminKey st = lit "admin123")
     || bool_decide (Some (adminKey st) = REACT_APP_ADMIN_KEY)
  then setMessage [] (setIsAuthenticated true st)
  else setMessage (lit "Invalid admin key") st.

(** *** Setting the video (lines 44-87) *)

(** [data.k] where [data] is known not to be [null] or [undefined]. *)
Definition prop (data : JsVal) (k : string) : JsVal :=
  default JUndefined (getProp data (lit k)).

(** The handler up to [await fetch] (lines 45-65). *)
Definition handleSetVideo (st : State) : State :=
  if bool_decide (trim (videoUrl st) = []) then
    setMessage (lit "Please enter a valid YouTube URL") st
  else
    let st1 := setMessage [] (setIsLoading true st) in
    setCalls (calls st1 ++ [CFetch (API_URL ++ lit "/youtube/set-video") (lit "POST")
                              (object [(lit "video_url", JStr (videoUrl st));
                                       (lit "admin_user", JStr (lit "admin"))])]) st1.

(** U+2705 and U+274C. *)
Definition okMark : jsstring := [9989].
Definition errorMark : jsstring := [10060].

Definition networkError (m : jsstring) (st : State) : State :=
  setMessage (errorMark ++ lit " Network error: " ++ m) st.

(** The [else] branch of line 80.  A TypeError of the template literal
    is caught at line 82 like one of the property read. *)
Definition setVideoFailed (data : JsVal) (st : State) : State :=
  match getProp data (lit "error") with
  | Some e =>
      match toString (or_else e (JStr (lit "Failed to set video"))) with
      | Some text => setMessage (errorMark ++ lit " Error: " ++ text) st
      | None => networkError conversionErrorMessage st
      end
  | None => networkError (typeErrorMessage (lit "error")) st
  end.

(** The handler from the answer on (lines 67-86); [isoNow] is
    [new Date().toISOString()]. *)
Definition setVideoResponse (o : FetchOutcome) (isoNow : jsstring) (st : State) : State :=
  let st1 :=
    match o with
    | FetchRejected m => networkError m st
    | Response _ (inr m) => networkError m st
    | Response false (inl data) => setVideoFailed data st
    | Response true (inl data) =>
        match getProp data (lit "success") with
        | None => networkError (typeErrorMessage (lit "success")) st
        | Some success =>
            if truthy success then
              match toString (prop data "title") with
              | Some title =>
                  setVideoUrl []
                    (setCurrentSession
                       (object [(lit "video_id", prop data "video_id");
                                (lit "title", prop data "title");
                                (lit "duration", prop data "duration");
                                (lit "is_live", prop data "is_live");
                                (lit "created_at", JStr isoNow)])
                       (setMessage (okMark ++ lit " Video set successfully: " ++ title)
                          st))
              | None => networkError conversionErrorMessage st   (* line 70 throws *)
              end
            else setVideoFailed data st
        end
    end in
  setIsLoading false st1.

End View.

End AdminPanel.

(** ** The fact-check endpoint *)
Module Backend.

(** The verdicts of a FactCheckResult. *)
Inductive Verdict := VTrue | VFalse | VPartiallyTrue | VUnverified.

Definition verdictText (v : Verdict) : jsstring :=
  match v with
  | VTrue => lit "True"
  | VFalse => lit "False"
  | VPartiallyTrue => lit "Partially True"
  | VUnverified => lit "Unverified"
  end.

Section Endpoint.
Context `{Host}.

(** What the fact-check provider, or the mock table, says about a
    statement. *)
Record Assessment := {
  verdict : Verdict;
  confidence : number;
  explanation : jsstring;
  sources : list (jsstring * jsstring)       (* title and url *)
}.

(** whether a Perplexity API key is configured *)
Context (apiKeyConfigured : bool).
(** the external provider; [None] when the call fails *)
Context (provider : jsstring -> option Assessment).
(** the static mock table, keyed by substrings of the statement, and the
    entry for a statement that matches none of them *)
Context (mockTable : list (jsstring * Assessment)) (mockDefault : Assessment).
(** what the handler answers to an empty statement *)
Context (emptyStatement : FetchOutcome).

Fixpoint includes (s sub : jsstring) : bool :=
  isPrefix sub s ||
  match s with
  | [] => false
  | _ :: s' => includes s' sub
  end.

Definition mockLookup (statement : jsstring) : Assessment :=
  match find (fun entry => includes statement (fst entry)) mockTable with
  | Some entry => snd entry
  | None => mockDefault
  end.

Definition assess (statement : jsstring) : Assessment :=
  if apiKeyConfigured then
    match provider statement with
    | Some a => a
    | None => mockLookup statement
    end
  else mockLookup statement.

Definition sourceObject (src : jsstring * jsstring) : JsVal :=
  object [(lit "title", JStr (fst src)); (lit "url", JStr (snd src))].

(** Modelled from the spec: the handler of POST /api/fact-check, whose source
    (the REST backend) is not among the files of the client.  The spec
    gives a FactCheckResult a statement text, a verdict of the enum, a
    confidence score, an explanation text, a list of {title, url} sources
    and a creation time; the verdict comes from the external provider, or
    from the static mock table when no API key is configured or the
    provider fails.  The property names are the ones the views read. *)
Definition factCheck (statement : jsstring) (createdAt : jsstring) : FetchOutcome :=
  if bool_decide (statement = []) then emptyStatement
  else
    let a := assess statement in
    Response true
      (inl (object [(lit "statement", JStr statement);
                    (lit "verdict", JStr (verdictText (verdict a)));
                    (lit "confidence_score", JNum (confidence a));
                    (lit "explanation", JStr (explanation a));
                    (lit "sources", JArr (sourceObject <$> sources a));
                    (lit "created_at", JStr createdAt)])).

End Endpoint.

Arguments Assessment {_}.

End Backend.

(** ** A host for concrete runs: integer numbers, ws:// and wss:// URLs *)
Module SampleHost.

Definition decimal (z : Z) : jsstring :=
  lit (NilZero.string_of_int (Z.to_int z)).

Definition host : Host := {|
  number := Z;
  numberTruthy := fun z => negb (z =? 0)%Z;
  numberToString := decimal;
  numberPositive := fun z => (0 <? z)%Z;
  stringPositive := fun s =>
    forallb (fun c => (48 <=? c) && (c <=? 57)) s && existsb (fun c => 48 <? c) s;
  typeErrorMessage := fun k =>
    lit "Cannot read properties of null (reading '" ++ k ++ lit "')";
  conversionErrorMessage := lit "Cannot convert object to primitive value";
  webSocketUrlOk := fun u => isPrefix (lit "ws://") u || isPrefix (lit "wss://") u
|}.

End SampleHost.

(** * Properties *)

(** ** Strings *)
Section StringFacts.

(** Two code units that are the same letter up to ASCII case. *)
Definition sameLetter (a b : N) : Prop :=
  a = b ∨ (isUpper a = true ∧ b = a + 32) ∨ (isUpper b = true ∧ a = b + 32).

(** Equality of strings up to the case of the letters A-Z. *)
Definition sameUpToCase (s t : jsstring) : Prop := Forall2 sameLetter s t.

Lemma isUpper_spec c : isUpper c = true ↔ 65 ≤ c ≤ 90.
Proof.
  unfold isUpper. rewrite andb_true_iff, !N.leb_le. tauto.
Qed.

Lemma lowerUnit_sameLetter a b : lowerUnit a = lowerUnit b ↔ sameLetter a b.
Proof.
  unfold lowerUnit, sameLetter.
  pose proof (isUpper_spec a) as Ua. pose proof (isUpper_spec b) as Ub.
  destruct (isUpper a), (isUpper b); split.
  - intros E. left. lia.
  - intros [E|[[_ E]|[_ E]]]; lia.
  - intros E. right. left. split; [done|lia].
  - intros [E|[[_ E]|[E _]]]; [|lia|done].
    subst. destruct Ub as [_ Ub]. destruct Ua as [Ua _].
    specialize (Ua eq_refl). specialize (Ub Ua). done.
  - intros E. right. right. split; [done|lia].
  - intros [E|[[E _]|[_ E]]]; [|done|lia].
    subst. destruct Ub as [Ub _]. destruct Ua as [_ Ua].
    specialize (Ub eq_refl). specialize (Ua Ub). done.
  - intros E. left. done.
  - intros [E|[[E _]|[E _]]]; done.
Qed.

Lemma toLowerCase_sameUpToCase s t :
  toLowerCase s = toLowerCase t ↔ sameUpToCase s t.
Proof.
  unfold toLowerCase, sameUpToCase. revert t.
  induction s as [|a s IH]; intros [|b t]; simpl.
  - split; [constructor|done].
  - split; [done|inversion 1].
  - split; [done|inversion 1].
  - split.
    + intros [= Hab Hst]. constructor; [by apply lowerUnit_sameLetter|by apply IH].
    + inversion 1; subst. f_equal; [by apply lowerUnit_sameLetter|by apply IH].
Qed.

Lemma lowerUnit_idem c : lowerUnit (lowerUnit c) = lowerUnit c.
Proof.
  unfold lowerUnit. destruct (isUpper c) eqn:Hc.
  - apply isUpper_spec in Hc.
    destruct (isUpper (c + 32)) eqn:E; [|done].
    apply isUpper_spec in E. lia.
  - by rewrite Hc.
Qed.

Lemma toLowerCase_idem s : toLowerCase (toLowerCase s) = toLowerCase s.
Proof.
  unfold toLowerCase. rewrite <- list_fmap_compose. apply list_fmap_ext.
  intros _ c _. apply lowerUnit_idem.
Qed.

Lemma trimStart_length s : (length (trimStart s) ≤ length s)%nat.
Proof.
  induction s as [|c s IH]; simpl; [lia|]. destruct (isWhiteSpace c); simpl; lia.
Qed.

Lemma trim_length s : (length (trim s) ≤ length s)%nat.
Proof.
  unfold trim, trimEnd. rewrite length_reverse.
  etransitivity; [apply trimStart_length|]. rewrite length_reverse.
  apply trimStart_length.
Qed.

End StringFacts.

(** ** Verdict rendering *)
Section Verdicts.
Context `{Host}.

Lemma toLowerCase_matches v t :
  toLowerCase t = t → toLowerCase v = t ↔ sameUpToCase v t.
Proof.
  intros Ht. rewrite <- toLowerCase_sameUpToCase, Ht. done.
Qed.

Lemma different_cases v t u :
  toLowerCase t = t → toLowerCase u = u → t ≠ u →
  sameUpToCase v t → ¬ sameUpToCase v u.
Proof.
  intros Ht Hu Hne Hvt Hvu.
  apply toLowerCase_matches in Hvt, Hvu; congruence.
Qed.

(** The two views carry the same two functions. *)
Lemma views_agree_on_verdicts (verdict : JsVal) :
  YouTubeLive.getVerdictIcon verdict = TruthSeeker.getVerdictIcon verdict ∧
  YouTubeLive.getVerdictColor verdict = TruthSeeker.getVerdictColor verdict.
Proof. by destruct verdict. Qed.

(** C7.  For a verdict string [v] (of ASCII code units, as the members of
    the verdict enum are), [getVerdictIcon] and [getVerdictColor] are the
    same functions in the solo view and in the YouTube Live view, and they
    match [v] without regard to case: a spelling of "true" gives the check
    mark and the green classes, a spelling of "false" the cross and the red
    classes, a spelling of "partially true" the warning sign and the yellow
    classes, and every other string the question mark and the gray
    default; so the members True, False, Partially True and Unverified of
    the enum are rendered as check, cross, warning sign and question
    mark. *)
Theorem verdict_rendering_ignores_case (v : jsstring) :
  isAscii v →
  (YouTubeLive.getVerdictIcon (JStr v) = TruthSeeker.getVerdictIcon (JStr v) ∧
   YouTubeLive.getVerdictColor (JStr v) = TruthSeeker.getVerdictColor (JStr v)) ∧
  (sameUpToCase v (lit "true") →
     TruthSeeker.getVerdictIcon (JStr v) = Some [10003] ∧
     TruthSeeker.getVerdictColor (JStr v)
       = Some (lit "text-green-400 bg-green-900/20 border-green-500/30")) ∧
  (sameUpToCase v (lit "false") →
     TruthSeeker.getVerdictIcon (JStr v) = Some [10007] ∧
     TruthSeeker.getVerdictColor (JStr v)
       = Some (lit "text-red-400 bg-red-900/20 border-red-500/30")) ∧
  (sameUpToCase v (lit "partially true") →
     TruthSeeker.getVerdictIcon (JStr v) = Some [9888] ∧
     TruthSeeker.getVerdictColor (JStr v)
       = Some (lit "text-yellow-400 bg-yellow-900/20 border-yellow-500/30")) ∧
  (¬ sameUpToCase v (lit "true") → ¬ sameUpToCase v (lit "false") →
   ¬ sameUpToCase v (lit "partially true") →
     TruthSeeker.getVerdictIcon (JStr v) = Some (lit "?") ∧
     TruthSeeker.getVerdictColor (JStr v)
       = Some (lit "text-gray-400 bg-gray-900/20 border-gray-500/30")) ∧
  (∀ e : Backend.Verdict,
     TruthSeeker.getVerdictIcon (JStr (Backend.verdictText e))
       = Some match e with
              | Backend.VTrue => [10003]
              | Backend.VFalse => [10007]
              | Backend.VPartiallyTrue => [9888]
              | Backend.VUnverified => lit "?"
              end).
Proof.
  intros _.
  assert (Ht : toLowerCase (lit "true") = lit "true") by reflexivity.
  assert (Hf : toLowerCase (lit "false") = lit "false") by reflexivity.
  assert (Hp : toLowerCase (lit "partially true") = lit "partially true")
    by reflexivity.
  split; [apply views_agree_on_verdicts|].
  simpl. unfold TruthSeeker.verdictIcon, TruthSeeker.verdictColor.
  split; [|split; [|split; [|split]]].
  - intros Hv. apply (toLowerCase_matches _ _ Ht) in Hv. by rewrite Hv.
  - intros Hv. apply (toLowerCase_matches _ _ Hf) in Hv. by rewrite Hv.
  - intros Hv. apply (toLowerCase_matches _ _ Hp) in Hv. by rewrite Hv.
  - intros Nt Nf Np.
    rewrite <- (toLowerCase_matches _ _ Ht) in Nt.
    rewrite <- (toLowerCase_matches _ _ Hf) in Nf.
    rewrite <- (toLowerCase_matches _ _ Hp) in Np.
    by rewrite !bool_decide_eq_false_2.
  - by intros [].
Qed.

End Verdicts.

Lemma verdict_rendering_ignores_case_witness :
  isAscii (lit "Partially TRUE") ∧
  sameUpToCase (lit "Partially TRUE") (lit "partially true") ∧
  TruthSeeker.getVerdictIcon (H := SampleHost.host) (JStr (lit "Partially TRUE"))
    = Some [9888].
Proof.
  assert (A : isAscii (lit "Partially TRUE")).
  { unfold isAscii. apply Forall_forall. intros c Hc.
    repeat (apply elem_of_cons in Hc as [->|Hc]; [reflexivity|]).
    by apply elem_of_nil in Hc. }
  assert (S : sameUpToCase (lit "Partially TRUE") (lit "partially true")).
  { apply toLowerCase_sameUpToCase. reflexivity. }
  split; [exact A|]. split; [exact S|].
  apply (verdict_rendering_ignores_case (H := SampleHost.host) _ A). exact S.
Defined.

(** ** The admin panel *)
Section Admin.
Context `{Host}.
Context (BACKEND_URL : jsstring) (REACT_APP_ADMIN_KEY : option jsstring).

Import AdminPanel.

Abbreviation handleAuth := (AdminPanel.handleAuth REACT_APP_ADMIN_KEY).
Abbreviation handleSetVideo := (AdminPanel.handleSetVideo BACKEND_URL).

(** C10.  On the login form (where [isAuthenticated] is false), submitting
    the entered key authenticates if and only if the key is 'admin123' or
    is the value of REACT_APP_ADMIN_KEY; for every other key
    [isAuthenticated] stays false and the message is 'Invalid admin key'.
    In particular 'admin123' is accepted whatever REACT_APP_ADMIN_KEY is, also
    when it is not defined. *)
Theorem handleAuth_accepts_exactly_two_keys (st : State) :
  isAuthenticated st = false →
  (isAuthenticated (handleAuth st) = true ↔
     adminKey st = lit "admin123" ∨ REACT_APP_ADMIN_KEY = Some (adminKey st)) ∧
  (isAuthenticated (handleAuth st) = false →
     message (handleAuth st) = lit "Invalid admin key") ∧
  (adminKey st = lit "admin123" →
     isAuthenticated (handleAuth st) = true ∧ message (handleAuth st) = []).
Proof.
  intros Hno. unfold AdminPanel.handleAuth.
  destruct (bool_decide (adminKey st = lit "admin123")) eqn:E1;
    destruct (bool_decide (Some (adminKey st) = REACT_APP_ADMIN_KEY)) eqn:E2;
    simpl.
  all: try apply bool_decide_eq_true in E1.
  all: try apply bool_decide_eq_true in E2.
  all: try apply bool_decide_eq_false in E1.
  all: try apply bool_decide_eq_false in E2.
  - split; [split; [by left|done]|]. by split.
  - split; [split; [by left|done]|]. by split.
  - split; [split; [by right|done]|]. by split.
  - rewrite Hno. split; [|by split].
    split; [done|]. intros [?|?]; congruence.
Qed.

(** What the handler leaves alone while the request is in flight or has
    failed. *)
Definition sessionKept (st st' : State) : Prop :=
  currentSession st' = currentSession st ∧ videoUrl st' = videoUrl st.

(** C6.  Submitting the set-video form: with a URL that is empty after
    trimming, no request is sent and the message asks for a URL.  When the
    answer is not ok, or its [success] is falsy, the message is the error
    mark, " Error: " and the answer's error text (a fixed text when it
    carries none), and the current session and the URL field are as
    before; an [error] that cannot be converted to a string makes the
    template throw, which is caught: the message is then a network error,
    and session and URL are as before too, as they are when the request
    fails or the body cannot be read.  Only an ok answer with a truthy
    [success] replaces the current session, by the returned video fields,
    and clears the URL field; it does so when its [title] can be converted
    to a string, and is caught as a network error otherwise. *)
Theorem handleSetVideo_errors_keep_session (st : State) :
  (trim (videoUrl st) = [] →
     handleSetVideo st = setMessage (lit "Please enter a valid YouTube URL") st ∧
     calls (handleSetVideo st) = calls st) ∧
  (∀ ok data success e isoNow,
     getProp data (lit "success") = Some success →
     getProp data (lit "error") = Some e →
     ok = false ∨ truthy success = false →
     let st' := setVideoResponse (Response ok (inl data)) isoNow st in
     (∀ text, truthy e = true → toString e = Some text →
        message st' = errorMark ++ lit " Error: " ++ text) ∧
     (truthy e = false →
        message st' = errorMark ++ lit " Error: " ++ lit "Failed to set video") ∧
     (toString e = None →
        message st' = errorMark ++ lit " Network error: " ++ conversionErrorMessage) ∧
     sessionKept st st') ∧
  (∀ data success title isoNow,
     getProp data (lit "success") = Some success →
     truthy success = true →
     toString (prop data "title") = Some title →
     let st' := setVideoResponse (Response true (inl data)) isoNow st in
     currentSession st' =
       object [(lit "video_id", prop data "video_id");
               (lit "title", prop data "title");
               (lit "duration", prop data "duration");
               (lit "is_live", prop data "is_live");
               (lit "created_at", JStr isoNow)] ∧
     videoUrl st' = [] ∧
     message st' = okMark ++ lit " Video set successfully: " ++ title) ∧
  (∀ data success isoNow,
     getProp data (lit "success") = Some success →
     truthy success = true →
     toString (prop data "title") = None →
     let st' := setVideoResponse (Response true (inl data)) isoNow st in
     message st' = errorMark ++ lit " Network error: " ++ conversionErrorMessage ∧
     sessionKept st st') ∧
  (∀ o isoNow,
     sessionKept st (setVideoResponse o isoNow st) ∨
     ∃ data success title,
       o = Response true (inl data) ∧
       getProp data (lit "success") = Some success ∧ truthy success = true ∧
       toString (prop data "title") = Some title).
Proof.
  split; [|split; [|split; [|split]]].
  - intros Hempty. unfold AdminPanel.handleSetVideo.
    rewrite bool_decide_eq_true_2 by done. done.
  - intros ok data success e isoNow Hs He Hfail st'. subst st'.
    assert (Hst : setVideoResponse (Response ok (inl data)) isoNow st
                  = setIsLoading false (setVideoFailed data st)).
    { unfold setVideoResponse. destruct ok; [|done].
      rewrite Hs. destruct Hfail as [? | ->]; done. }
    rewrite Hst. unfold setVideoFailed. rewrite He. unfold or_else.
    split; [|split; [|split]].
    + intros text Ht Htext. by rewrite Ht, Htext.
    + intros Ht. by rewrite Ht.
    + intros Hnone. destruct (truthy e) eqn:Ht.
      * by rewrite Hnone.
      * by destruct e.
    + destruct (truthy e); by destruct (toString _).
  - intros data success title isoNow Hs Ht Htitle st'. subst st'.
    unfold setVideoResponse. rewrite Hs, Ht, Htitle. by repeat split.
  - intros data success isoNow Hs Ht Htitle st'. subst st'.
    unfold setVideoResponse. rewrite Hs, Ht, Htitle. by repeat split.
  - intros o isoNow.
    destruct o as [m | ok json]; [left; by split|].
    destruct json as [data | m]; [|left; destruct ok; by split].
    destruct ok.
    + destruct (getProp data (lit "success")) as [success|] eqn:Hs.
      * destruct (truthy success) eqn:Ht.
        -- destruct (toString (prop data "title")) as [title|] eqn:Htitle.
           ++ right. by exists data, success, title.
           ++ left. unfold setVideoResponse. rewrite Hs, Ht, Htitle. by split.
        -- left. unfold setVideoResponse, setVideoFailed. rewrite Hs, Ht.
           destruct (getProp data (lit "error")); [|by split].
           by destruct (toString _).
      * left. unfold setVideoResponse. rewrite Hs. by split.
    + left. unfold setVideoResponse, setVideoFailed.
      destruct (getProp data (lit "error")); [|by split].
      by destruct (toString _).
Qed.

End Admin.

(** The login form with 'admin123' typed in, and no REACT_APP_ADMIN_KEY. *)
Definition sampleLogin : AdminPanel.State (H := SampleHost.host) :=
  AdminPanel.setAdminKey (lit "admin123") AdminPanel.initial.

Lemma handleAuth_accepts_exactly_two_keys_witness :
  AdminPanel.isAuthenticated sampleLogin = false ∧
  AdminPanel.isAuthenticated (AdminPanel.handleAuth None sampleLogin) = true.
Proof.
  split; [reflexivity|].
  destruct (handleAuth_accepts_exactly_two_keys None sampleLogin eq_refl)
    as (_ & _ & Hhard).
  exact (proj1 (Hhard eq_refl)).
Defined.

(** The admin view with a URL typed in, and a refusal of the backend. *)
Definition sampleAdmin : AdminPanel.State (H := SampleHost.host) :=
  AdminPanel.setVideoUrl (lit "https://youtu.be/x") AdminPanel.initial.

Definition sampleRefusal : JsVal (H := SampleHost.host) :=
  object [(lit "success", JBool false); (lit "error", JStr (lit "Invalid URL"))].

Lemma handleSetVideo_errors_keep_session_witness :
  getProp sampleRefusal (lit "success") = Some (JBool false) ∧
  getProp sampleRefusal (lit "error") = Some (JStr (lit "Invalid URL")) ∧
  AdminPanel.message
    (AdminPanel.setVideoResponse (Response true (inl sampleRefusal)) [] sampleAdmin)
  = AdminPanel.errorMark ++ lit " Error: " ++ lit "Invalid URL".
Proof.
  assert (Hs : getProp sampleRefusal (lit "success") = Some (JBool false))
    by (vm_compute; reflexivity).
  assert (He : getProp sampleRefusal (lit "error") = Some (JStr (lit "Invalid URL")))
    by (vm_compute; reflexivity).
  split; [exact Hs|]. split; [exact He|].
  destruct (handleSetVideo_errors_keep_session [] sampleAdmin) as (_ & Hfail & _).
  destruct (Hfail true sampleRefusal (JBool false) (JStr (lit "Invalid URL")) []
              Hs He (or_intror eq_refl)) as (Hm & _).
  exact (Hm (lit "Invalid URL") eq_refl eq_refl).
Defined.

(** ** The YouTube Live view: incoming messages *)
Section LiveMessages.
Context `{Host}.

Import YouTubeLive.

(** Two different literals. *)
Ltac lit_differs :=
  let E := fresh in intros E; vm_compute in E; discriminate E.

Ltac switch_on Ht :=
  unfold handleWebSocketMessage; simpl getProp; rewrite Ht; simpl default;
  unfold strictEq;
  repeat (rewrite bool_decide_eq_false_2 by lit_differs);
  rewrite bool_decide_eq_true_2 by reflexivity.

(** C5.  For a message object whose [type] is 'video_changed', the video
    session becomes the message's [data] and both the fact-check list and
    the transcript list become empty.  When [type] is 'new_fact_check' and
    the fact-check list is an array, the message's [data] is appended at its
    end, and the transcript list and the video session are as before; when
    [type] is 'new_transcript' and the transcript list is an array, [data] is
    appended at its end, and the fact-check list and the video session are
    as before. *)
Theorem handleWebSocketMessage_updates_lists (st : State) (m : gmap jsstring JsVal) :
  let data := default JUndefined (m !! lit "data") in
  (m !! lit "type" = Some (JStr (lit "video_changed")) →
     ∃ st', handleWebSocketMessage (JObj m) st = Some st' ∧
            videoSession st' = data ∧
            factChecks st' = JArr [] ∧ transcriptSegments st' = JArr []) ∧
  (∀ l, m !! lit "type" = Some (JStr (lit "new_fact_check")) →
        factChecks st = JArr l →
     ∃ st', handleWebSocketMessage (JObj m) st = Some st' ∧
            factChecks st' = JArr (l ++ [data]) ∧
            transcriptSegments st' = transcriptSegments st ∧
            videoSession st' = videoSession st) ∧
  (∀ l, m !! lit "type" = Some (JStr (lit "new_transcript")) →
        transcriptSegments st = JArr l →
     ∃ st', handleWebSocketMessage (JObj m) st = Some st' ∧
            transcriptSegments st' = JArr (l ++ [data]) ∧
            factChecks st' = factChecks st ∧
            videoSession st' = videoSession st).
Proof.
  intros data. split; [|split].
  - intros Ht. eexists. split; [switch_on Ht; reflexivity|]. by repeat split.
  - intros l Ht Hl. eexists. split.
    + switch_on Ht. unfold append. rewrite Hl. reflexivity.
    + by repeat split.
  - intros l Ht Hl. eexists. split.
    + switch_on Ht. unfold append. rewrite Hl. reflexivity.
    + by repeat split.
Qed.

End LiveMessages.

(** A mounted live view that has received one fact-check, and the message
    announcing a second one. *)
Definition sampleLive : YouTubeLive.State (H := SampleHost.host) :=
  YouTubeLive.setFactChecks (JArr [JStr (lit "first")])
    (YouTubeLive.mount (lit "https://api.example.com")).

Definition sampleNewFactCheck : gmap jsstring (JsVal (H := SampleHost.host)) :=
  list_to_map [(lit "type", JStr (lit "new_fact_check"));
               (lit "data", JStr (lit "second"))].

Lemma handleWebSocketMessage_updates_lists_witness :
  sampleNewFactCheck !! lit "type" = Some (JStr (lit "new_fact_check")) ∧
  YouTubeLive.factChecks sampleLive = JArr [JStr (lit "first")] ∧
  ∃ st', YouTubeLive.handleWebSocketMessage (JObj sampleNewFactCheck) sampleLive
           = Some st' ∧
         YouTubeLive.factChecks st' = JArr [JStr (lit "first"); JStr (lit "second")].
Proof.
  assert (Ht : sampleNewFactCheck !! lit "type" = Some (JStr (lit "new_fact_check")))
    by (vm_compute; reflexivity).
  split; [exact Ht|]. split; [reflexivity|].
  destruct (handleWebSocketMessage_updates_lists sampleLive sampleNewFactCheck)
    as (_ & Hnew & _).
  destruct (Hnew [JStr (lit "first")] Ht eq_refl) as (st' & Hst & Hfc & _).
  exists st'. split; [exact Hst|]. rewrite Hfc. vm_compute. reflexivity.
Defined.

(** ** The solo view: health flag and the length gate *)
Section Solo.
Context `{Host}.

Import TruthSeeker.

(** C4.  When the answer of /api/health has been read ([data] is the parsed
    body, [flag] its [perplexity_api_configured]), the view's
    [apiConfigured] is [flag], and the 'Demo Mode - Add Perplexity API Key'
    badge is rendered exactly when [flag] is falsy; for a boolean flag:
    exactly when it is [false]. *)
Theorem health_flag_drives_demo_banner (st : State) (ok : bool) (data flag : JsVal) :
  getProp data (lit "perplexity_api_configured") = Some flag →
  let st' := healthResponse (Response ok (inl data)) st in
  apiConfigured st' = flag ∧
  (demoBanner st' = Some (lit "Demo Mode - Add Perplexity API Key")
     ↔ truthy flag = false) ∧
  (demoBanner st' = None ↔ truthy flag = true) ∧
  (∀ b, flag = JBool b → (is_Some (demoBanner st') ↔ b = false)).
Proof.
  intros Hflag st'. subst st'. unfold healthResponse. rewrite Hflag.
  unfold demoBanner. simpl apiConfigured.
  split; [done|]. split; [|split].
  - destruct (truthy flag); simpl; split; congruence.
  - destruct (truthy flag); simpl; split; congruence.
  - intros b ->. destruct b; simpl; split; intros X;
      try done; try (by destruct X); by eexists.
Qed.

(** The timer a call of [processSentenceForFactCheck] cancels, if any. *)
Definition cancelled (st : State) : list (Call Callback) :=
  match pendingTimeout st with
  | Some id => [CClearTimeout id]
  | None => []
  end.

Lemma processSentenceForFactCheck_calls sentence st :
  let st' := processSentenceForFactCheck sentence st in
  calls (rt st') = calls (rt st) ++ cancelled st
                     ++ [CSetTimeout (nextTimer (rt st)) (CbFactCheck sentence) 1000] ∧
  timers (rt st') !! nextTimer (rt st)
    = Some {| due := now (rt st) + 1000; callback := CbFactCheck sentence |} ∧
  processTimeoutRef st' = Some (nextTimer (rt st)) ∧
  isProcessing st' = true.
Proof.
  unfold processSentenceForFactCheck, cancelled.
  destruct (pendingTimeout st) as [id|]; simpl.
  - rewrite <- app_assoc. simpl. rewrite lookup_insert_eq. done.
  - rewrite lookup_insert_eq. done.
Qed.

(** C8.  A recognition result whose final transcript, trimmed, has 10 code
    units or fewer leaves timers, requests and the processing flag as they
    were: [processSentenceForFactCheck] is not called and nothing is sent.
    A result whose trimmed final transcript is longer than 10 code units
    calls [processSentenceForFactCheck] on the trimmed transcript, which
    schedules its fact-check for 1000 ms later. *)
Theorem fact_check_only_beyond_ten_units (ev : ResultEvent) (st : State) :
  let final := finalTranscript ev in
  let st' := onresult ev st in
  ((length (trim final) ≤ 10)%nat →
     rt st' = rt st ∧
     processTimeoutRef st' = processTimeoutRef st ∧
     isProcessing st' = isProcessing st) ∧
  ((10 < length (trim final))%nat →
     st' = processSentenceForFactCheck (trim final)
             (setCurrentSentence []
                (setTranscription (transcription st ++ final ++ lit " ") st)) ∧
     calls (rt st') = calls (rt st) ++ cancelled st
                        ++ [CSetTimeout (nextTimer (rt st)) (CbFactCheck (trim final)) 1000] ∧
     timers (rt st') !! nextTimer (rt st)
       = Some {| due := now (rt st) + 1000; callback := CbFactCheck (trim final) |}).
Proof.
  intros final st'. subst st'. unfold onresult. fold final.
  split.
  - intros Hshort. case_bool_decide as Hempty; simpl; [done|].
    destruct (10 <? length (trim final))%nat eqn:E; [|done].
    apply Nat.ltb_lt in E. lia.
  - intros Hlong.
    assert (Hne : final ≠ []).
    { intros E. rewrite E in Hlong. simpl in Hlong. lia. }
    rewrite bool_decide_eq_false_2 by done. simpl negb. cbv iota.
    apply Nat.ltb_lt in Hlong. rewrite Hlong.
    split; [done|].
    match goal with
    | |- context [processSentenceForFactCheck ?s ?x] =>
        destruct (processSentenceForFactCheck_calls s x) as (Hc & Ht & _)
    end.
    split; [exact Hc|exact Ht].
Qed.

End Solo.

(** ** Reconnection of the WebSocket *)
Section Reconnect.
Context `{Host}.
Context (BACKEND_URL sessionId : jsstring) (SpeechRecognition : bool).

Lemma newWebSocket_calls {C} target (r : Runtime C) :
  calls (snd (newWebSocket target r)) = calls r ++ [CNewWebSocket target] ∧
  timers (snd (newWebSocket target r)) = timers r.
Proof. unfold newWebSocket. by destruct (webSocketUrlOk target). Qed.

Lemma newWebSocket_nextTimer {C} target (r : Runtime C) :
  nextTimer (snd (newWebSocket target r)) = nextTimer r.
Proof. unfold newWebSocket. by destruct (webSocketUrlOk target). Qed.

Lemma takeTimer_after_setTimeout {C} (cb : C) delay dt (r : Runtime C) :
  takeTimer (nextTimer r) (advance dt (snd (setTimeout cb delay r)))
  = if delay <=? dt then
      Some (cb, {| now := now r + dt;
                   timers := delete (nextTimer r) (timers r);
                   nextTimer := nextTimer r + 1;
                   sockets := sockets r; nextSocket := nextSocket r;
                   calls := calls r ++ [CSetTimeout (nextTimer r) cb delay] |})
    else None.
Proof.
  unfold takeTimer. simpl. rewrite lookup_insert_eq. simpl.
  rewrite delete_insert_eq.
  destruct (delay <=? dt) eqn:E.
  - apply N.leb_le in E. by rewrite (proj2 (N.leb_le _ _)) by lia.
  - apply N.leb_gt in E. by rewrite (proj2 (N.leb_gt _ _)) by lia.
Qed.

Abbreviation soloSteps := (TruthSeeker.steps BACKEND_URL sessionId SpeechRecognition).
Abbreviation liveSteps := (YouTubeLive.steps BACKEND_URL).

Section SoloView.
Import TruthSeeker.

Lemma solo_close_reconnects (st : State) (s : N) :
  let st1 := soloSteps st [SocketCloses s] in
  let id := nextTimer (rt st) in
  calls (rt st1) = calls (rt st) ++ [CSetTimeout id CbConnectWebSocket 3000] ∧
  timers (rt st1)
    = <[id := {| due := now (rt st) + 3000; callback := CbConnectWebSocket |}]>
        (timers (rt st)) ∧
  (∀ dt, dt < 3000 →
     soloSteps st1 [Elapse dt; TimerFires id] = soloSteps st1 [Elapse dt]) ∧
  (∀ dt, 3000 ≤ dt →
     let st2 := soloSteps st1 [Elapse dt; TimerFires id] in
     calls (rt st2)
       = calls (rt st1)
           ++ [CNewWebSocket (WS_URL BACKEND_URL ++ lit "/ws/" ++ sessionId)] ∧
     timers (rt st2) = delete id (timers (rt st))).
Proof.
  intros st1 id. split; [done|]. split; [done|].
  set (st0 := setRt (setReadyState s CLOSED (rt st)) st).
  assert (E : ∀ dt, takeTimer id (rt (soloSteps st1 [Elapse dt]))
                    = takeTimer (nextTimer (rt st0))
                        (advance dt (snd (setTimeout CbConnectWebSocket 3000 (rt st0)))))
    by reflexivity.
  assert (S : ∀ dt, soloSteps st1 [Elapse dt; TimerFires id]
                    = TruthSeeker.step BACKEND_URL sessionId SpeechRecognition
                        (soloSteps st1 [Elapse dt]) (TimerFires id))
    by reflexivity.
  split; intros dt Hdt; rewrite S.
  - unfold TruthSeeker.step at 1. rewrite E, takeTimer_after_setTimeout.
    by rewrite (proj2 (N.leb_gt _ _)) by lia.
  - unfold TruthSeeker.step at 1. rewrite E, takeTimer_after_setTimeout.
    rewrite (proj2 (N.leb_le _ _)) by lia.
    simpl runCallback. unfold TruthSeeker.connectWebSocket.
    match goal with
    | |- context [newWebSocket ?u ?r] =>
        pose proof (newWebSocket_calls u r) as [Hc Ht];
        destruct (newWebSocket u r) as [[sock|] r']
    end; simpl in Hc, Ht |- *; rewrite Hc, Ht; done.
Qed.

End SoloView.

Section LiveView.
Import YouTubeLive.

Lemma live_close_reconnects (st : State) (s : N) :
  ∃ st1,
    liveSteps st [SocketCloses s] = Some st1 ∧
    let id := nextTimer (rt st) in
    calls (rt st1) = calls (rt st) ++ [CSetTimeout id CbConnectWebSocket 3000] ∧
    timers (rt st1)
      = <[id := {| due := now (rt st) + 3000; callback := CbConnectWebSocket |}]>
          (timers (rt st)) ∧
    (∀ dt, dt < 3000 →
       liveSteps st1 [Elapse dt; TimerFires id] = liveSteps st1 [Elapse dt]) ∧
    (∀ dt, 3000 ≤ dt →
       ∃ st2,
         liveSteps st1 [Elapse dt; TimerFires id] = Some st2 ∧
         calls (rt st2)
           = calls (rt st1)
               ++ [CNewWebSocket (WS_URL BACKEND_URL ++ lit "/ws/youtube-live")] ∧
         timers (rt st2) = delete id (timers (rt st))).
Proof.
  eexists. split; [reflexivity|]. intros id.
  split; [done|]. split; [done|].
  set (st0 := setRt (setReadyState s CLOSED (rt st)) st).
  set (st1 := ws_onclose st0).
  assert (E : ∀ dt, takeTimer id (rt (setRt (advance dt (rt st1)) st1))
                    = takeTimer (nextTimer (rt st0))
                        (advance dt (snd (setTimeout CbConnectWebSocket 3000 (rt st0)))))
    by reflexivity.
  assert (S : ∀ dt, liveSteps st1 [Elapse dt; TimerFires id]
                    = (st' ← YouTubeLive.step BACKEND_URL
                               (setRt (advance dt (rt st1)) st1) (TimerFires id);
                       Some st'))
    by reflexivity.
  split; intros dt Hdt; rewrite S.
  - unfold YouTubeLive.step. rewrite E, takeTimer_after_setTimeout.
    by rewrite (proj2 (N.leb_gt _ _)) by lia.
  - unfold YouTubeLive.step. rewrite E, takeTimer_after_setTimeout.
    rewrite (proj2 (N.leb_le _ _)) by lia.
    eexists. split; [reflexivity|].
    unfold YouTubeLive.connectWebSocket.
    match goal with
    | |- context [newWebSocket ?u ?r] =>
        pose proof (newWebSocket_calls u r) as [Hc Ht];
        destruct (newWebSocket u r) as [[sock|] r']
    end; simpl in Hc, Ht |- *; rewrite Hc, Ht; done.
Qed.

End LiveView.

(** C1.  In the solo view and in the YouTube Live view alike, a close event
    of the socket makes exactly one call of [setTimeout], for
    [connectWebSocket] with a delay of 3000 ms, which adds one timeout due
    3000 ms later.  That timeout cannot run before the 3000 ms have passed;
    when it runs, [connectWebSocket] constructs a WebSocket for the view's
    URL (/ws/{session id}, /ws/youtube-live), and the timeout is spent. *)
Theorem close_schedules_one_reconnect_after_3000ms
    (solo : TruthSeeker.State) (live : YouTubeLive.State) (s : N) :
  (let st1 := soloSteps solo [TruthSeeker.SocketCloses s] in
   let id := nextTimer (TruthSeeker.rt solo) in
   calls (TruthSeeker.rt st1)
     = calls (TruthSeeker.rt solo)
         ++ [CSetTimeout id TruthSeeker.CbConnectWebSocket 3000] ∧
   timers (TruthSeeker.rt st1)
     = <[id := {| due := now (TruthSeeker.rt solo) + 3000;
                  callback := TruthSeeker.CbConnectWebSocket |}]>
         (timers (TruthSeeker.rt solo)) ∧
   (∀ dt, dt < 3000 →
      soloSteps st1 [TruthSeeker.Elapse dt; TruthSeeker.TimerFires id]
      = soloSteps st1 [TruthSeeker.Elapse dt]) ∧
   (∀ dt, 3000 ≤ dt →
      let st2 := soloSteps st1 [TruthSeeker.Elapse dt; TruthSeeker.TimerFires id] in
      calls (TruthSeeker.rt st2)
        = calls (TruthSeeker.rt st1)
            ++ [CNewWebSocket (TruthSeeker.WS_URL BACKEND_URL ++ lit "/ws/" ++ sessionId)] ∧
      timers (TruthSeeker.rt st2) = delete id (timers (TruthSeeker.rt solo)))) ∧
  (∃ st1,
     liveSteps live [YouTubeLive.SocketCloses s] = Some st1 ∧
     let id := nextTimer (YouTubeLive.rt live) in
     calls (YouTubeLive.rt st1)
       = calls (YouTubeLive.rt live)
           ++ [CSetTimeout id YouTubeLive.CbConnectWebSocket 3000] ∧
     timers (YouTubeLive.rt st1)
       = <[id := {| due := now (YouTubeLive.rt live) + 3000;
                    callback := YouTubeLive.CbConnectWebSocket |}]>
           (timers (YouTubeLive.rt live)) ∧
     (∀ dt, dt < 3000 →
        liveSteps st1 [YouTubeLive.Elapse dt; YouTubeLive.TimerFires id]
        = liveSteps st1 [YouTubeLive.Elapse dt]) ∧
     (∀ dt, 3000 ≤ dt →
        ∃ st2,
          liveSteps st1 [YouTubeLive.Elapse dt; YouTubeLive.TimerFires id] = Some st2 ∧
          calls (YouTubeLive.rt st2)
            = calls (YouTubeLive.rt st1)
                ++ [CNewWebSocket (YouTubeLive.WS_URL BACKEND_URL ++ lit "/ws/youtube-live")] ∧
          timers (YouTubeLive.rt st2) = delete id (timers (YouTubeLive.rt live)))).
Proof.
  split; [apply solo_close_reconnects | apply live_close_reconnects].
Qed.

End Reconnect.

(** ** Concrete runs of the solo view *)

Definition sampleBackend : jsstring := lit "https://api.example.com".
Definition sampleSession : jsstring := lit "session_k3j9x0q1z_1700000000000".

Definition sampleSolo : TruthSeeker.State (H := SampleHost.host) :=
  TruthSeeker.mount sampleBackend sampleSession true.

Lemma close_schedules_one_reconnect_after_3000ms_witness :
  3000 ≤ 3000 ∧
  calls (TruthSeeker.rt
           (TruthSeeker.steps sampleBackend sampleSession true
              (TruthSeeker.steps sampleBackend sampleSession true sampleSolo
                 [TruthSeeker.SocketCloses 1])
              [TruthSeeker.Elapse 3000; TruthSeeker.TimerFires 1]))
  = calls (TruthSeeker.rt
             (TruthSeeker.steps sampleBackend sampleSession true sampleSolo
                [TruthSeeker.SocketCloses 1]))
      ++ [CNewWebSocket (TruthSeeker.WS_URL sampleBackend ++ lit "/ws/" ++ sampleSession)].
Proof.
  split; [reflexivity|].
  destruct (close_schedules_one_reconnect_after_3000ms sampleBackend sampleSession
              true sampleSolo (YouTubeLive.mount sampleBackend) 1)
    as [(_ & _ & _ & Hfire) _].
  exact (proj1 (Hfire 3000 (N.le_refl 3000))).
Defined.

Definition sampleHealth : JsVal (H := SampleHost.host) :=
  object [(lit "status", JStr (lit "healthy"));
          (lit "service", JStr (lit "TruthSeeker"));
          (lit "perplexity_api_configured", JBool false)].

Lemma health_flag_drives_demo_banner_witness :
  getProp sampleHealth (lit "perplexity_api_configured") = Some (JBool false) ∧
  TruthSeeker.demoBanner
    (TruthSeeker.healthResponse (Response true (inl sampleHealth)) sampleSolo)
  = Some (lit "Demo Mode - Add Perplexity API Key").
Proof.
  assert (Hf : getProp sampleHealth (lit "perplexity_api_configured")
               = Some (JBool false)) by (vm_compute; reflexivity).
  split; [exact Hf|].
  destruct (health_flag_drives_demo_banner sampleSolo true sampleHealth
              (JBool false) Hf) as (_ & Hshown & _).
  apply Hshown. reflexivity.
Defined.

(** A final result of 18 code units after trimming, and one of 5. *)
Definition sampleLongResult : TruthSeeker.ResultEvent :=
  {| TruthSeeker.resultIndex := 0;
     TruthSeeker.results := [(lit "  The Earth is flat. ", true)] |}.

Definition sampleShortResult : TruthSeeker.ResultEvent :=
  {| TruthSeeker.resultIndex := 0;
     TruthSeeker.results := [(lit " hello ", true); (lit "and", false)] |}.

Lemma fact_check_only_beyond_ten_units_witness :
  ((length (trim (TruthSeeker.finalTranscript sampleShortResult)) ≤ 10)%nat ∧
   TruthSeeker.rt (TruthSeeker.onresult sampleShortResult sampleSolo)
   = TruthSeeker.rt sampleSolo) ∧
  ((10 < length (trim (TruthSeeker.finalTranscript sampleLongResult)))%nat ∧
   timers (TruthSeeker.rt (TruthSeeker.onresult sampleLongResult sampleSolo))
     !! nextTimer (TruthSeeker.rt sampleSolo)
   = Some {| due := now (TruthSeeker.rt sampleSolo) + 1000;
             callback := TruthSeeker.CbFactCheck
                           (trim (TruthSeeker.finalTranscript sampleLongResult)) |}).
Proof.
  assert (Hshort : (length (trim (TruthSeeker.finalTranscript sampleShortResult))
                    ≤ 10)%nat) by (vm_compute; lia).
  assert (Hlong : (10 < length (trim (TruthSeeker.finalTranscript sampleLongResult)))%nat)
    by (vm_compute; lia).
  split.
  - split; [exact Hshort|].
    destruct (fact_check_only_beyond_ten_units sampleShortResult sampleSolo)
      as [Hs _].
    exact (proj1 (Hs Hshort)).
  - split; [exact Hlong|].
    destruct (fact_check_only_beyond_ten_units sampleLongResult sampleSolo)
      as [_ Hl].
    exact (proj2 (proj2 (Hl Hlong))).
Defined.

(** ** The solo view: debouncing *)
Section Debounce.
Context `{Host}.
Context (BACKEND_URL sessionId : jsstring) (SpeechRecognition : bool).

Import TruthSeeker.

Abbreviation step := (TruthSeeker.step BACKEND_URL sessionId SpeechRecognition).
Abbreviation steps := (TruthSeeker.steps BACKEND_URL sessionId SpeechRecognition).
Abbreviation run := (TruthSeeker.run BACKEND_URL sessionId SpeechRecognition).

(** A handler that leaves the timer table and [processTimeoutRef] alone. *)
Definition timersKept (st st' : State) : Prop :=
  timers (rt st') = timers (rt st) ∧
  nextTimer (rt st') = nextTimer (rt st) ∧
  processTimeoutRef st' = processTimeoutRef st.

(** What a handler can do to the timer table and to [processTimeoutRef]. *)
Inductive TimerEffect (st st' : State) : Prop :=
| Untouched :
    timersKept st st' → TimerEffect st st'
| Scheduled (t : Timer Callback) :
    (∀ s, callback t ≠ CbFactCheck s) →
    timers (rt st') = <[nextTimer (rt st) := t]> (timers (rt st)) →
    nextTimer (rt st') = nextTimer (rt st) + 1 →
    processTimeoutRef st' = processTimeoutRef st →
    TimerEffect st st'
| Fired (id : N) :
    timers (rt st') = delete id (timers (rt st)) →
    nextTimer (rt st') = nextTimer (rt st) →
    processTimeoutRef st' = processTimeoutRef st →
    TimerEffect st st'
| Debounced (sentence : jsstring) :
    timers (rt st')
      = <[nextTimer (rt st) := {| due := now (rt st) + 1000;
                                  callback := CbFactCheck sentence |}]>
          (match pendingTimeout st with
           | Some id => delete id (timers (rt st))
           | None => timers (rt st)
           end) →
    nextTimer (rt st') = nextTimer (rt st) + 1 →
    processTimeoutRef st' = Some (nextTimer (rt st)) →
    TimerEffect st st'.

Ltac kept :=
  unfold timersKept;
  repeat first [reflexivity | split | case_match | case_bool_decide | progress simpl].

Ltac untouched := apply Untouched; kept.

Lemma timersKept_trans st1 st2 st3 :
  timersKept st1 st2 → timersKept st2 st3 → timersKept st1 st3.
Proof. intros (?&?&?) (?&?&?). repeat split; congruence. Qed.

Lemma setIsListening_kept b st :
  timersKept st (TruthSeeker.setIsListening SpeechRecognition b st).
Proof.
  unfold TruthSeeker.setIsListening, recognitionEffect, recognitionCleanup,
    recognitionStop, call.
  kept.
Qed.

Lemma processSentenceForFactCheck_effect sentence st :
  TimerEffect st (processSentenceForFactCheck sentence st).
Proof.
  apply (Debounced _ _ sentence);
    unfold processSentenceForFactCheck; by destruct (pendingTimeout st).
Qed.

Lemma runCallback_kept cb st :
  timersKept st (runCallback BACKEND_URL sessionId SpeechRecognition cb st).
Proof.
  destruct cb as [|r|sentence]; simpl.
  - unfold TruthSeeker.connectWebSocket.
    match goal with
    | |- context [newWebSocket ?u ?r] =>
        pose proof (newWebSocket_calls u r) as [_ Ht];
        pose proof (newWebSocket_nextTimer u r) as Hn;
        destruct (newWebSocket u r) as [[sock|] r']
    end; by repeat split.
  - unfold restart, recognitionStart, call.
    destruct (recognitions st !! r) as [k|]; [destruct (started k)|];
      [apply setIsListening_kept|kept|apply setIsListening_kept].
  - unfold factCheckTimeout, call. kept.
Qed.

Lemma step_effect st e : TimerEffect st (step st e).
Proof.
  destruct e; simpl.
  - untouched.
  - unfold takeTimer.
    destruct (timers (rt st) !! id) as [t|] eqn:Ht; [|untouched].
    destruct (due t <=? now (rt st)); [|untouched].
    match goal with
    | |- TimerEffect _ (runCallback _ _ _ ?cb ?x) =>
        destruct (runCallback_kept cb x) as (Ht2 & Hn2 & Hr2)
    end.
    apply (Fired _ _ id); [rewrite Ht2|rewrite Hn2|rewrite Hr2]; done.
  - untouched.
  - unfold onresult.
    case_bool_decide; simpl; [untouched|].
    case_match; [|untouched].
    match goal with
    | |- TimerEffect _ (processSentenceForFactCheck ?s ?x) =>
        destruct (processSentenceForFactCheck_effect s x)
          as [(?&?&?)|? ? ? ? ?|? ? ? ?|s' Ht2 Hn2 Hr2]
    end.
    + by apply Untouched.
    + by eapply Scheduled.
    + by eapply Fired.
    + by apply (Debounced _ _ s').
  - unfold onerror. apply Untouched.
    match goal with
    | |- timersKept _ (TruthSeeker.setIsListening _ _ ?x) =>
        apply (timersKept_trans _ x); [kept|apply setIsListening_kept]
    end.
  - unfold onend, ended. simpl.
    case_match; [|untouched]. case_match; [|untouched].
    apply (Scheduled _ _ {| due := now (rt st) + 100; callback := CbRestart r |});
      done.
  - untouched.
  - unfold ws_onmessage. untouched.
  - untouched.
  - apply (Scheduled _ _ {| due := now (rt st) + 3000;
                            callback := CbConnectWebSocket |}); done.
  - unfold healthResponse. untouched.
  - unfold factCheckResponse. untouched.
  - unfold toggleListening, recognitionStart, recognitionStop, call.
    apply Untouched.
    destruct (recognitionRef st) as [r|]; [|kept].
    destruct (isListening st).
    + match goal with
      | |- timersKept _ (TruthSeeker.setIsListening _ _ ?x) =>
          apply (timersKept_trans _ x); [by repeat split|apply setIsListening_kept]
      end.
    + destruct (recognitions st !! r) as [k|]; [destruct (started k)|];
        [kept| |kept].
      match goal with
      | |- timersKept _ (setError _ (TruthSeeker.setIsListening _ _ ?x)) =>
          apply (timersKept_trans _ x); [by repeat split|];
          apply (timersKept_trans _ (TruthSeeker.setIsListening SpeechRecognition true x));
            [apply setIsListening_kept|by repeat split]
      end.
  - untouched.
Qed.

(** Every pending timeout has an id that was handed out,
    [processTimeoutRef] holds such an id, and a pending fact-check timeout
    is the one [processTimeoutRef] names. *)
Definition debounced (st : State) : Prop :=
  timersFresh (rt st) ∧
  (∀ id, processTimeoutRef st = Some id → 0 < id < nextTimer (rt st)) ∧
  (∀ id t s, timers (rt st) !! id = Some t → callback t = CbFactCheck s →
             processTimeoutRef st = Some id).

(** A timeout that ran or was cleared: its id was handed out and is not
    pending. *)
Definition spent (id : N) (st : State) : Prop :=
  timers (rt st) !! id = None ∧ id < nextTimer (rt st).

Lemma pendingTimeout_debounced st :
  debounced st → pendingTimeout st = processTimeoutRef st.
Proof.
  intros (_ & Href & _). unfold pendingTimeout.
  destruct (processTimeoutRef st) as [id|]; [|done].
  destruct (Href id eq_refl) as [Hpos _].
  by rewrite (proj2 (N.eqb_neq id 0)) by lia.
Qed.

Lemma effect_debounced st st' : TimerEffect st st' → debounced st → debounced st'.
Proof.
  intros E D. pose proof (pendingTimeout_debounced st D) as Hp.
  destruct D as ((Hnext & Hfresh) & Href & Honly).
  destruct E as [(Ht & Hn & Hr)|t Hcb Ht Hn Hr|id0 Ht Hn Hr|sentence Ht Hn Hr];
    unfold debounced, timersFresh; rewrite Ht, Hn, Hr.
  - done.
  - split; [split; [lia|]|split].
    + intros id t' [[<- <-]|[_ Hold]]%lookup_insert_Some; [lia|].
      apply Hfresh in Hold. lia.
    + intros id Hid. apply Href in Hid. lia.
    + intros id t' s [[<- <-]|[_ Hold]]%lookup_insert_Some Hs;
        [by destruct (Hcb s)|by eapply Honly].
  - split; [split; [lia|]|split].
    + intros id t' [_ Hold]%lookup_delete_Some. by eapply Hfresh.
    + done.
    + intros id t' s [_ Hold]%lookup_delete_Some Hs. by eapply Honly.
  - rewrite Hp. split; [split; [lia|]|split].
    + intros id t' [[<- <-]|[_ Hold]]%lookup_insert_Some; [lia|].
      assert (timers (rt st) !! id = Some t') as Hold'.
      { destruct (processTimeoutRef st); [|done].
        by apply lookup_delete_Some in Hold as [_ ?]. }
      apply Hfresh in Hold'. lia.
    + intros id [= <-]. lia.
    + intros id t' s [[<- <-]|[Hne Hold]]%lookup_insert_Some Hs; [done|].
      exfalso. destruct (processTimeoutRef st) as [id0|] eqn:Hid0.
      * apply lookup_delete_Some in Hold as [Hne0 Hold].
        specialize (Honly _ _ _ Hold Hs). congruence.
      * specialize (Honly _ _ _ Hold Hs). congruence.
Qed.

Lemma effect_spent id st st' : TimerEffect st st' → spent id st → spent id st'.
Proof.
  intros E [Hgone Hold].
  destruct E as [(Ht & Hn & Hr)|t Hcb Ht Hn Hr|id0 Ht Hn Hr|sentence Ht Hn Hr];
    unfold spent; rewrite Ht, Hn.
  - done.
  - split; [|lia]. apply lookup_insert_None. split; [done|lia].
  - split; [|done]. apply lookup_delete_None. by right.
  - split; [|lia]. apply lookup_insert_None. split; [|lia].
    destruct (pendingTimeout st); [|done]. apply lookup_delete_None. by right.
Qed.

Lemma mount_debounced :
  debounced (TruthSeeker.mount BACKEND_URL sessionId SpeechRecognition).
Proof.
  assert (K : timersKept initial
                (TruthSeeker.mount BACKEND_URL sessionId SpeechRecognition)).
  { unfold TruthSeeker.mount, checkHealth, call, TruthSeeker.connectWebSocket.
    match goal with
    | |- context [newWebSocket ?u ?r] =>
        pose proof (newWebSocket_calls u r) as [_ Ht];
        pose proof (newWebSocket_nextTimer u r) as Hn;
        destruct (newWebSocket u r) as [[sock|] r']
    end; simpl in Ht, Hn |- *;
      (repeat split; simpl; [rewrite Ht|rewrite Hn|];
       unfold recognitionEffect; by destruct SpeechRecognition). }
  apply (effect_debounced initial); [by apply Untouched|].
  repeat split; simpl; try done.
Qed.

Lemma steps_debounced st es : debounced st → debounced (steps st es).
Proof.
  revert st. induction es as [|e es IH]; intros st D; [done|].
  apply IH. apply (effect_debounced st); [apply step_effect|done].
Qed.

Lemma steps_spent id st es : spent id st → spent id (steps st es).
Proof.
  revert st. induction es as [|e es IH]; intros st D; [done|].
  apply IH. apply (effect_spent id st); [apply step_effect|done].
Qed.

(** C9.  Let the view be in any state it can reach, with the timeout [id1]
    of an earlier call of [processSentenceForFactCheck] (for the statement
    [s1]) still pending.  A new call, for [s2], clears that timeout and
    schedules one for [s2], 1000 ms later.  Whatever happens afterwards,
    the timeout [id1] is never pending again and its firing does nothing,
    so its closure never sends [s1]; and the timeout for [s2] is the only
    fact-check timeout pending after the call.  In every reachable state
    at most one fact-check timeout is pending. *)
Theorem debounce_keeps_only_the_latest_statement
    (es : list Event) (s1 s2 : jsstring) (id1 : N) (t1 : Timer Callback) :
  let st := run es in
  let st' := processSentenceForFactCheck s2 st in
  timers (rt st) !! id1 = Some t1 →
  callback t1 = CbFactCheck s1 →
  calls (rt st')
    = calls (rt st)
        ++ [CClearTimeout id1; CSetTimeout (nextTimer (rt st)) (CbFactCheck s2) 1000] ∧
  (∀ es', timers (rt (steps st' es')) !! id1 = None ∧
          step (steps st' es') (TimerFires id1) = steps st' es') ∧
  (∀ id t s, timers (rt st') !! id = Some t → callback t = CbFactCheck s →
             id = nextTimer (rt st) ∧ s = s2 ∧ due t = now (rt st) + 1000) ∧
  (∀ es0 ida ta sa idb tb sb,
     timers (rt (run es0)) !! ida = Some ta → callback ta = CbFactCheck sa →
     timers (rt (run es0)) !! idb = Some tb → callback tb = CbFactCheck sb →
     ida = idb).
Proof.
  intros st st' Hpending Hs1.
  assert (D : debounced st) by apply steps_debounced, mount_debounced.
  pose proof (pendingTimeout_debounced st D) as Hp.
  pose proof D as ((Hnext & Hfresh) & Href & Honly).
  pose proof (Honly _ _ _ Hpending Hs1) as Hid1.
  assert (Hcancel : cancelled st = [CClearTimeout id1]).
  { unfold cancelled. by rewrite Hp, Hid1. }
  assert (Ht' : timers (rt st')
                = <[nextTimer (rt st) := {| due := now (rt st) + 1000;
                                            callback := CbFactCheck s2 |}]>
                    (delete id1 (timers (rt st)))).
  { subst st'. unfold processSentenceForFactCheck. by rewrite Hp, Hid1. }
  split; [|split; [|split]].
  - destruct (processSentenceForFactCheck_calls s2 st) as (Hc & _).
    fold st' in Hc. rewrite Hc, Hcancel. done.
  - intros es'.
    assert (S : spent id1 (steps st' es')).
    { apply steps_spent. split.
      - rewrite Ht'. apply lookup_insert_None.
        split; [apply lookup_delete_eq|].
        apply Hfresh in Hpending. lia.
      - subst st'. unfold processSentenceForFactCheck. rewrite Hp, Hid1. simpl.
        apply Hfresh in Hpending. lia. }
    destruct S as [Hgone _]. split; [exact Hgone|].
    simpl. unfold takeTimer. by rewrite Hgone.
  - intros id t s Hid Hs. rewrite Ht' in Hid.
    apply lookup_insert_Some in Hid as [[<- <-]|[Hne Hold]].
    + simpl in Hs. injection Hs as <-. done.
    + apply lookup_delete_Some in Hold as [Hne1 Hold].
      specialize (Honly _ _ _ Hold Hs). congruence.
  - intros es0 ida ta sa idb tb sb Ha Hsa Hb Hsb.
    assert (D0 : debounced (run es0)) by apply steps_debounced, mount_debounced.
    destruct D0 as (_ & _ & Honly0).
    pose proof (Honly0 _ _ _ Ha Hsa). pose proof (Honly0 _ _ _ Hb Hsb).
    congruence.
Qed.

(** *** Restart on end *)

(** What [recognition.onend] does, in terms of the [isListening] its closure
    captured: with [true] it schedules the restart closure for 100 ms
    later, with [false] it does nothing. *)
Lemma onend_follows_captured_flag st r k :
  recognitions st !! r = Some k →
  onend r st
  = if capturedIsListening k
    then setRt (snd (setTimeout (CbRestart r) 100 (rt st))) st
    else st.
Proof. intros Hk. unfold onend. by rewrite Hk. Qed.

(** The restart closure calls [recognition.start()]; when that throws (the
    object is started already) it sets [isListening] to false. *)
Lemma restart_starts_or_gives_up st r k :
  recognitions st !! r = Some k →
  (started k = false →
     calls (rt (restart SpeechRecognition r st))
       = calls (rt st) ++ [CRecognitionStart r] ∧
     isListening (restart SpeechRecognition r st) = isListening st) ∧
  (started k = true →
     isListening (restart SpeechRecognition r st) = false).
Proof.
  intros Hk. unfold restart, recognitionStart. rewrite Hk. split; intros ->.
  - done.
  - unfold TruthSeeker.setIsListening.
    case_bool_decide as E; [done|].
    unfold recognitionEffect, recognitionCleanup.
    by destruct SpeechRecognition, (recognitionRef _).
Qed.

(** After each render the recognition object in [recognitionRef] is the one
    whose handlers captured the current [isListening]. *)
Definition refIsCurrent (st : State) : Prop :=
  ∀ r, recognitionRef st = Some r →
       ∃ k, recognitions st !! r = Some k ∧ capturedIsListening k = isListening st.

End Debounce.

(** ** The solo view: the end event after a click on the microphone *)
Section RestartOnEnd.
Context `{Host}.
Context (BACKEND_URL sessionId : jsstring).

Import TruthSeeker.

(** C2.  On a browser with speech recognition, the user clicks the
    microphone and the recognition started by the click ends.  The click
    calls [start()] on recognition 1 and sets [isListening]; the re-render
    runs the effect again, whose cleanup calls [stop()] on recognition 1 and
    which installs recognition 2.  When recognition 1 then ends,
    [isListening] is true (after the click, and still after the end event),
    but the handler of recognition 1 tests the [isListening] of the first
    render: no timeout is pending afterwards and no [setTimeout] was ever
    called, so recognition is not restarted. *)
Theorem end_after_click_schedules_no_restart :
  let mounted := TruthSeeker.mount BACKEND_URL sessionId true in
  let clicked := TruthSeeker.run BACKEND_URL sessionId true [ClickMicrophone] in
  let st := TruthSeeker.run BACKEND_URL sessionId true
              [ClickMicrophone; RecognitionEnds 1] in
  isListening clicked = true ∧
  isListening st = true ∧
  calls (rt st) = calls (rt mounted) ++ [CRecognitionStart 1; CRecognitionStop 1] ∧
  recognitionRef st = Some 2 ∧
  recognitions st !! 1 = Some {| capturedIsListening := false; started := false |} ∧
  timers (rt st) = ∅ ∧
  (∀ dt id, TruthSeeker.steps BACKEND_URL sessionId true st [Elapse dt; TimerFires id]
            = TruthSeeker.steps BACKEND_URL sessionId true st [Elapse dt]) ∧
  (∀ id cb delay, CSetTimeout id cb delay ∉ calls (rt st)).
Proof.
  intros mounted clicked st.
  assert (Hclicked : isListening clicked = true).
  { subst clicked.
    unfold TruthSeeker.run, TruthSeeker.mount, TruthSeeker.connectWebSocket,
      newWebSocket.
    destruct (webSocketUrlOk _); vm_compute; done. }
  assert (Hcalls : calls (rt mounted)
                   = [CNewWebSocket (WS_URL BACKEND_URL ++ lit "/ws/" ++ sessionId);
                      CFetch (API_URL BACKEND_URL ++ lit "/health") (lit "GET")
                        JUndefined]).
  { subst mounted. unfold TruthSeeker.mount, TruthSeeker.connectWebSocket,
      newWebSocket. by destruct (webSocketUrlOk _). }
  assert (Hst : isListening st = true ∧
                calls (rt st) = calls (rt mounted)
                                  ++ [CRecognitionStart 1; CRecognitionStop 1] ∧
                recognitionRef st = Some 2 ∧
                recognitions st !! 1
                  = Some {| capturedIsListening := false; started := false |} ∧
                timers (rt st) = ∅).
  { subst st mounted.
    unfold TruthSeeker.run, TruthSeeker.mount, TruthSeeker.connectWebSocket,
      newWebSocket.
    destruct (webSocketUrlOk _); vm_compute; done. }
  destruct Hst as (Hl & Hc & Hr & Hk & Ht).
  repeat (split; [assumption|]). split.
  - intros dt id. simpl. unfold takeTimer. simpl. by rewrite Ht, lookup_empty.
  - intros id cb delay. rewrite Hc, Hcalls. simpl.
    intros Hin. repeat (apply elem_of_cons in Hin as [Hin|Hin]; [discriminate|]).
    by apply elem_of_nil in Hin.
Qed.

End RestartOnEnd.

(** ** The solo view: the restart closure never runs *)
Section RestartNeverRuns.
Context `{Host}.
Context (BACKEND_URL sessionId : jsstring) (SpeechRecognition : bool).

Import TruthSeeker.

Abbreviation step := (TruthSeeker.step BACKEND_URL sessionId SpeechRecognition).
Abbreviation steps := (TruthSeeker.steps BACKEND_URL sessionId SpeechRecognition).

(** The browser ends only a recognition that was started. *)
Definition deliverable (st : State) (e : Event) : Prop :=
  match e with
  | RecognitionEnds r => ∃ k, recognitions st !! r = Some k ∧ started k = true
  | _ => True
  end.

Fixpoint deliverableAll (st : State) (es : list Event) : Prop :=
  match es with
  | [] => True
  | e :: es' => deliverable st e ∧ deliverableAll (step st e) es'
  end.

(** Only recognition objects whose handlers captured [isListening = false]
    are ever started, and no restart closure is pending. *)
Definition restartDead (st : State) : Prop :=
  (SpeechRecognition = false → recognitionRef st = None) ∧
  (∀ r k, recognitions st !! r = Some k → r < nextRecognition st) ∧
  (∀ r k, recognitions st !! r = Some k → started k = true →
          capturedIsListening k = false) ∧
  refIsCurrent st ∧
  (∀ id t r, timers (rt st) !! id = Some t → callback t ≠ CbRestart r).

Lemma restartDead_frame st st' :
  recognitions st' = recognitions st →
  nextRecognition st' = nextRecognition st →
  recognitionRef st' = recognitionRef st →
  isListening st' = isListening st →
  (∀ id t r, timers (rt st') !! id = Some t → callback t = CbRestart r →
             timers (rt st) !! id = Some t) →
  restartDead st → restartDead st'.
Proof.
  intros Hrec Hnext Href Hl Ht (D1 & D2 & D3 & D4 & D5).
  unfold restartDead, refIsCurrent. rewrite Hrec, Hnext, Href, Hl.
  repeat split; try done.
  intros id t r Hid Hcb. exact (D5 id t r (Ht id t r Hid Hcb) Hcb).
Qed.

Ltac framed :=
  eapply restartDead_frame; [..|eassumption];
  repeat first [reflexivity | case_match | case_bool_decide | progress simpl];
  try (intros; assumption).

Lemma setIsListening_dead b st :
  restartDead st → restartDead (TruthSeeker.setIsListening SpeechRecognition b st).
Proof.
  intros D. unfold TruthSeeker.setIsListening.
  case_bool_decide as Hb; [done|].
  destruct D as (D1 & D2 & D3 & D4 & D5).
  unfold recognitionEffect, recognitionCleanup, recognitionStop, call.
  destruct SpeechRecognition eqn:Hsr; simpl.
  - assert (∀ st0 : State,
              recognitions st0 = recognitions st →
              nextRecognition st0 = nextRecognition st →
              timers (rt st0) = timers (rt st) →
              restartDead
                (setRecognitionRef (Some (nextRecognition st0))
                   (setNextRecognition (nextRecognition st0 + 1)
                      (setRecognitions
                         (<[nextRecognition st0 :=
                              {| capturedIsListening := b; started := false |}]>
                            (recognitions st0))
                         (storeIsListening b st0))))) as K.
    { intros st0 Hrec Hnext Ht. unfold restartDead, refIsCurrent. simpl.
      rewrite Hrec, Hnext, Ht. repeat split.
      - intros ?. congruence.
      - intros r k [[<- <-]|[_ Hold]]%lookup_insert_Some; [lia|].
        apply D2 in Hold. lia.
      - intros r k [[<- <-]|[_ Hold]]%lookup_insert_Some Hs; [done|].
        by eapply D3.
      - intros r [= <-]. eexists. by rewrite lookup_insert_eq.
      - done. }
    destruct (recognitionRef st) as [r0|].
    + apply (K (setRt (record (CRecognitionStop r0) (rt (storeIsListening b st)))
                  (storeIsListening b st))); done.
    + apply (K (storeIsListening b st)); done.
  - unfold restartDead, refIsCurrent. simpl. rewrite (D1 eq_refl).
    repeat split; done.
Qed.

Lemma step_dead st e : restartDead st → deliverable st e → restartDead (step st e).
Proof.
  intros D Hd.
  destruct e as [dt|id|r|r ev|r err|r|s|s parsed|s|s|o|o| |]; simpl.
  - framed.
  - unfold takeTimer.
    destruct (timers (rt st) !! id) as [t|] eqn:Ht; [|done].
    destruct (due t <=? now (rt st)); [|done].
    assert (D0 : restartDead
                   (setRt {| now := now (rt st); timers := delete id (timers (rt st));
                             nextTimer := nextTimer (rt st); sockets := sockets (rt st);
                             nextSocket := nextSocket (rt st); calls := calls (rt st) |}
                      st)).
    { eapply restartDead_frame; [..|exact D]; try done.
      simpl. by intros id' t' r [_ ?]%lookup_delete_Some _. }
    destruct (callback t) as [|r|sentence] eqn:Hcb; simpl.
    + unfold TruthSeeker.connectWebSocket.
      match goal with
      | |- context [newWebSocket ?u ?r] =>
          pose proof (newWebSocket_calls u r) as [_ Ht'];
          destruct (newWebSocket u r) as [[sock|] r']
      end; simpl in Ht';
        (eapply restartDead_frame; [..|exact D0]; try done;
         simpl; rewrite Ht'; by intros).
    + destruct D as (_ & _ & _ & _ & D5). by destruct (D5 _ _ r Ht).
    + unfold factCheckTimeout, call.
      eapply restartDead_frame; [..|exact D0];
        repeat first [reflexivity | case_match | progress simpl];
        by intros.
  - framed.
  - unfold onresult.
    case_bool_decide; simpl; [framed|].
    case_match; [|framed].
    eapply restartDead_frame; [..|exact D];
      try (unfold processSentenceForFactCheck; by destruct (pendingTimeout _)).
    unfold processSentenceForFactCheck.
    destruct (pendingTimeout _) as [id0|]; simpl;
      intros id' t' r' [[_ <-]|[_ Hold]]%lookup_insert_Some Hcb; try done.
    by apply lookup_delete_Some in Hold as [_ ?].
  - unfold onerror. apply setIsListening_dead. framed.
  - destruct Hd as (k & Hk & Hstarted).
    pose proof D as (_ & _ & D3 & _ & _).
    pose proof (D3 _ _ Hk Hstarted) as Hcap.
    unfold onend, ended. simpl. rewrite lookup_alter_eq, Hk. simpl.
    rewrite Hcap.
    destruct D as (D1 & D2 & D3' & D4 & D5).
    unfold restartDead, refIsCurrent. simpl. repeat split; try done.
    + intros r' k'. rewrite lookup_alter. case_decide; [|apply D2].
      subst r'. rewrite Hk. simpl. intros [= <-]. by eapply D2.
    + intros r' k'. rewrite lookup_alter. case_decide; [|apply D3'].
      subst r'. rewrite Hk. simpl. by intros [= <-].
    + intros r' Hr'. destruct (D4 r' Hr') as (k' & Hk' & Hc').
      rewrite lookup_alter. case_decide; [|by exists k'].
      subst r'. rewrite Hk in Hk'. injection Hk' as <-.
      eexists. rewrite Hk. simpl. split; [done|]. done.
  - framed.
  - unfold ws_onmessage. framed.
  - framed.
  - eapply restartDead_frame; [..|exact D]; try done. simpl.
    by intros id' t' r' [[_ <-]|[_ ?]]%lookup_insert_Some.
  - unfold healthResponse. framed.
  - unfold factCheckResponse. framed.
  - unfold toggleListening.
    destruct (recognitionRef st) as [r|] eqn:Href; [|done].
    destruct (isListening st) eqn:Hl.
    + apply setIsListening_dead. unfold recognitionStop, call. framed.
    + pose proof D as (D1 & D2 & D3 & D4 & D5).
      destruct (D4 r Href) as (k & Hk & Hcap). rewrite Hl in Hcap.
      unfold recognitionStart. rewrite Hk.
      destruct (started k) eqn:Hstarted; [framed|].
      assert (restartDead
                (call (CRecognitionStart r)
                   (setRecognitions
                      (<[r := {| capturedIsListening := capturedIsListening k;
                                 started := true |}]> (recognitions st)) st))) as D0.
      { unfold restartDead, refIsCurrent, call. simpl. repeat split; try done.
        - intros r' k' [[<- <-]|[_ Hold]]%lookup_insert_Some; by eapply D2.
        - intros r' k' [[<- <-]|[_ Hold]]%lookup_insert_Some Hs; [done|].
          by eapply D3.
        - intros r' Hr'. rewrite Href in Hr'. injection Hr' as <-.
          eexists. rewrite lookup_insert_eq. split; [done|]. simpl. congruence. }
      apply (setIsListening_dead true) in D0.
      eapply restartDead_frame; [..|exact D0]; try reflexivity. by intros.
  - framed.
Qed.

Lemma mount_dead :
  restartDead (TruthSeeker.mount BACKEND_URL sessionId SpeechRecognition).
Proof.
  assert (D0 : restartDead (recognitionEffect SpeechRecognition initial)).
  { unfold recognitionEffect, restartDead, refIsCurrent.
    destruct SpeechRecognition; simpl; repeat split; try done.
    - intros r k [[<- <-]|[_ Hold]]%lookup_insert_Some; [lia|done].
    - intros r k [[<- <-]|[_ Hold]]%lookup_insert_Some; done.
    - intros r [= <-]. eexists. by rewrite lookup_insert_eq. }
  unfold TruthSeeker.mount, checkHealth, call, TruthSeeker.connectWebSocket.
  match goal with
  | |- context [newWebSocket ?u ?r] =>
      pose proof (newWebSocket_calls u r) as [_ Ht];
      destruct (newWebSocket u r) as [[sock|] r']
  end; simpl in Ht;
    (eapply restartDead_frame; [..|exact D0]; try reflexivity;
     simpl; rewrite Ht; by intros).
Qed.

Lemma steps_dead st es :
  restartDead st → deliverableAll st es → restartDead (steps st es).
Proof.
  revert st. induction es as [|e es IH]; intros st D Hes; [done|].
  destruct Hes as [He Hes]. apply IH; [by apply step_dead|done].
Qed.

(** In a run of the view where the browser ends only recognitions that were
    started, no restart closure is ever pending, and the end of a
    recognition schedules nothing: the [isListening] its handler tests is
    false, whatever the view's [isListening] is by then. *)
Lemma restart_never_scheduled (es : list Event) (r : N) :
  let mounted := TruthSeeker.mount BACKEND_URL sessionId SpeechRecognition in
  let st := steps mounted es in
  deliverableAll mounted es →
  deliverable st (RecognitionEnds r) →
  (∀ id t r', timers (rt st) !! id = Some t → callback t ≠ CbRestart r') ∧
  rt (step st (RecognitionEnds r)) = rt st.
Proof.
  intros mounted st Hes (k & Hk & Hstarted).
  assert (D : restartDead st) by (apply steps_dead; [apply mount_dead|done]).
  destruct D as (_ & _ & D3 & _ & D5). split; [exact D5|].
  simpl. unfold onend, ended. simpl. rewrite lookup_alter_eq, Hk. simpl.
  by rewrite (D3 _ _ Hk Hstarted).
Qed.

End RestartNeverRuns.

(** ** The fact-check answer and its card *)
Section FactCheckAnswer.
Context `{Host}.
Context (apiKeyConfigured : bool) (provider : jsstring → option Backend.Assessment).
Context (mockTable : list (jsstring * Backend.Assessment)).
Context (mockDefault : Backend.Assessment) (emptyStatement : FetchOutcome).

Import TruthSeeker.

Abbreviation factCheck :=
  (Backend.factCheck apiKeyConfigured provider mockTable mockDefault emptyStatement).
Abbreviation assess :=
  (Backend.assess apiKeyConfigured provider mockTable mockDefault).

Lemma renderSource_sourceObject src :
  renderSource (Backend.sourceObject src) = Some (JStr (snd src), JStr (fst src)).
Proof. by vm_compute. Qed.

Lemma renderSources_sourceObjects srcs :
  renderSources (JArr (Backend.sourceObject <$> srcs))
  = Some ((fun src => (JStr (snd src), JStr (fst src))) <$> take 2 srcs).
Proof.
  unfold renderSources. simpl.
  destruct srcs as [|a [|b srcs]]; simpl; [done| |];
    by rewrite ?renderSource_sourceObject.
Qed.

(** The fields of a FactCheckResult object. *)
Lemma result_fields (s v c e srcs t : JsVal) :
  let r := object [(lit "statement", s); (lit "verdict", v);
                   (lit "confidence_score", c); (lit "explanation", e);
                   (lit "sources", srcs); (lit "created_at", t)] in
  (getProp r (lit "statement") = Some s ∧ getProp r (lit "verdict") = Some v ∧
   getProp r (lit "confidence_score") = Some c ∧
   getProp r (lit "explanation") = Some e ∧ getProp r (lit "sources") = Some srcs) ∧
  (hasProp r (lit "verdict") ∧ hasProp r (lit "confidence_score") ∧
   hasProp r (lit "statement") ∧ hasProp r (lit "explanation") ∧
   hasProp r (lit "sources")).
Proof.
  split.
  - repeat split; vm_compute; reflexivity.
  - repeat split; vm_compute; by eexists.
Qed.

(** What the card needs of each read but the one of [sources]. *)
Definition cardReads (check v c s e : JsVal) : Prop :=
  getProp check (lit "verdict") = Some v ∧
  getProp check (lit "confidence_score") = Some c ∧
  getProp check (lit "statement") = Some s ∧
  getProp check (lit "explanation") = Some e.

Lemma getProp_all (check : JsVal) (k k' : jsstring) :
  is_Some (getProp check k) → is_Some (getProp check k').
Proof. destruct check; simpl; intros [? [=]]; by eexists. Qed.

(** The card is rendered from whatever the reads yield. *)
Lemma renderCard_Some (check : JsVal) (card : Card) :
  renderCard check = Some card ↔
  ∃ v srcs,
    cardReads check (JStr v) (confidence card) (statement card) (explanation card) ∧
    getProp check (lit "sources") = Some srcs ∧
    renderSources srcs = Some (sources card) ∧
    className card = verdictColor v ∧ icon card = verdictIcon v ∧
    verdict card = JStr v ∧
    convertible (confidence card) = true ∧
    validChild (statement card) = true ∧ validChild (explanation card) = true.
Proof.
  unfold renderCard, cardReads. split.
  - destruct (getProp check (lit "verdict")) as [v|]; [|done]. simpl.
    destruct v as [| |?|?|v|?|?]; try done. simpl.
    destruct (getProp check (lit "confidence_score")) as [c|]; [|done]. simpl.
    destruct (getProp check (lit "statement")) as [st|]; [|done]. simpl.
    destruct (getProp check (lit "explanation")) as [e|]; [|done]. simpl.
    destruct (getProp check (lit "sources")) as [srcs|]; [|done]. simpl.
    destruct (renderSources srcs) as [links|] eqn:Hlinks; [|done]. simpl.
    destruct (convertible c) eqn:Hc; [|done].
    destruct (validChild st) eqn:Hst; [|done].
    destruct (validChild e) eqn:He; [|done]. simpl.
    intros [= <-]. by exists v, srcs.
  - intros (v & srcs & (-> & -> & -> & ->) & -> & Hlinks & Hclass & Hicon & Hv & Hc & Hst & He).
    simpl. rewrite Hlinks. simpl. rewrite Hc, Hst, He. simpl.
    destruct card. simpl in *. by subst.
Qed.

(** [check.sources] is looked at only behind its guard. *)
Lemma renderSources_guard (srcs : JsVal) :
  truthy srcs = false ∨ lengthPositive srcs = Some false →
  renderSources srcs = Some [].
Proof.
  unfold renderSources. intros [->| ->]; [done|]. by destruct (truthy srcs).
Qed.

(** What a source needs to be shown as a link. *)
Definition linkReads (source : JsVal) : Prop :=
  ∃ href title,
    getProp source (lit "url") = Some href ∧
    getProp source (lit "title") = Some title ∧
    convertible href = true ∧ validChild title = true.

Lemma renderSource_is_Some (source : JsVal) :
  is_Some (renderSource source) ↔ linkReads source.
Proof.
  unfold renderSource, linkReads. split.
  - destruct (getProp source (lit "url")) as [href|]; [|by intros [? ?]]. simpl.
    destruct (getProp source (lit "title")) as [title|]; [|by intros [? ?]]. simpl.
    destruct (convertible href) eqn:Hc; [|by intros [? ?]].
    destruct (validChild title) eqn:Ht; [|by intros [? ?]].
    intros _. by exists href, title.
  - intros (href & title & -> & -> & Hc & Ht). simpl. rewrite Hc, Ht. by eexists.
Qed.

(** When the block of the sources renders: behind the guard the sources
    have to be an array, of which the first two entries are shown. *)
Lemma renderSources_is_Some (srcs : JsVal) :
  is_Some (renderSources srcs) ↔
  truthy srcs = false ∨ lengthPositive srcs = Some false ∨
  ∃ l, srcs = JArr l ∧ l ≠ [] ∧ Forall linkReads (take 2 l).
Proof.
  unfold renderSources. destruct (truthy srcs) eqn:Ht.
  - destruct (lengthPositive srcs) as [[|]|] eqn:Hlen; simpl.
    + destruct srcs as [| |?|?|?|l|?];
        try (split; [by intros [? ?]|by intros [?|[?|(? & ? & _)]]]).
      rewrite mapM_is_Some. split.
      * intros Hl. right. right. exists l. split; [done|]. split.
        -- intros ->. done.
        -- eapply Forall_impl; [exact Hl|]. intros x. apply renderSource_is_Some.
      * intros [?|[?|(l' & [= <-] & _ & Hl)]]; [done..|].
        eapply Forall_impl; [exact Hl|]. intros x. apply renderSource_is_Some.
    + split; [intros _; by right; left|by eexists].
    + split; [by intros [? ?]|].
      intros [?|[?|(l & -> & _)]]; done.
  - split; [intros _; by left|by eexists].
Qed.

(** C3, as the code has it.  For every non-empty statement the
    fact-check endpoint answers ok with an object that carries [statement]
    (the statement sent), [verdict] (one of True, False, Partially True,
    Unverified), [confidence_score], [explanation] and [sources].  The
    solo view puts an answer, as received and whatever it is, at the head
    of its fact-check list, and the card of the endpoint's answer renders:
    class and icon from the verdict, the statement, and at most two source
    links.  The card reads [verdict], [confidence_score], [statement] and
    [explanation] without a guard: it renders exactly when [verdict] is a
    string, [confidence_score] can be converted to a number, [statement]
    and [explanation] are valid children and the block of the sources
    renders; the render throws otherwise, and when it returns the four
    are shown as read.  [sources] is read behind the guard
    [check.sources && check.sources.length > 0]: without [sources], or
    with a falsy one, or one whose length is not positive, there are no
    links and the block does not throw; past the guard the block renders
    exactly when [sources] is an array whose first two entries each have
    a [url] that can be converted to a string and a [title] that is a
    valid child. *)
Theorem fact_check_answer_renders (statement createdAt : jsstring) (st : State) :
  statement ≠ [] →
  (∃ result,
     factCheck statement createdAt = Response true (inl result) ∧
     (hasProp result (lit "verdict") ∧ hasProp result (lit "confidence_score") ∧
      hasProp result (lit "statement") ∧ hasProp result (lit "explanation") ∧
      hasProp result (lit "sources")) ∧
     getProp result (lit "statement") = Some (JStr statement) ∧
     getProp result (lit "verdict")
       = Some (JStr (Backend.verdictText (Backend.verdict (assess statement)))) ∧
     Backend.verdictText (Backend.verdict (assess statement))
       ∈ [lit "True"; lit "False"; lit "Partially True"; lit "Unverified"] ∧
     ∃ card,
       renderCard result = Some card ∧
       verdict card = JStr (Backend.verdictText (Backend.verdict (assess statement))) ∧
       TruthSeeker.statement card = JStr statement ∧
       (length (sources card) ≤ 2)%nat) ∧
  (∀ result : JsVal,
     factChecks (factCheckResponse (Response true (inl result)) st)
     = result :: factChecks st) ∧
  (∀ check : JsVal,
     is_Some (renderCard check) ↔
     ∃ v c s e srcs,
       cardReads check (JStr v) c s e ∧ getProp check (lit "sources") = Some srcs ∧
       convertible c = true ∧ validChild s = true ∧ validChild e = true ∧
       is_Some (renderSources srcs)) ∧
  (∀ (check : JsVal) (card : Card),
     renderCard check = Some card →
     cardReads check (verdict card) (confidence card) (TruthSeeker.statement card)
       (explanation card)) ∧
  (∀ (check srcs : JsVal) (card : Card),
     renderCard check = Some card →
     getProp check (lit "sources") = Some srcs →
     truthy srcs = false ∨ lengthPositive srcs = Some false →
     sources card = []) ∧
  (∀ srcs : JsVal,
     is_Some (renderSources srcs) ↔
     truthy srcs = false ∨ lengthPositive srcs = Some false ∨
     ∃ l, srcs = JArr l ∧ l ≠ [] ∧ Forall linkReads (take 2 l)) ∧
  (∀ (m : gmap jsstring JsVal) v,
     m !! lit "verdict" = Some (JStr v) →
     m !! lit "sources" = None →
     convertible (default JUndefined (m !! lit "confidence_score")) = true →
     validChild (default JUndefined (m !! lit "statement")) = true →
     validChild (default JUndefined (m !! lit "explanation")) = true →
     ∃ card, renderCard (JObj m) = Some card ∧ sources card = []).
Proof.
  intros Hne. split; [|split; [|split; [|split; [|split; [|split]]]]].
  - unfold Backend.factCheck. rewrite bool_decide_eq_false_2 by done.
    fold assess. set (a := assess statement).
    eexists. split; [reflexivity|].
    match goal with
    | |- context [object [(_, ?s); (_, ?v); (_, ?c); (_, ?e); (_, ?srcs); (_, ?t)]] =>
        destruct (result_fields s v c e srcs t) as ((Fs & Fv & Fc & Fe & Fsrc) & Hhas)
    end.
    split; [exact Hhas|]. split; [exact Fs|]. split; [exact Fv|].
    split; [destruct (Backend.verdict a); simpl; repeat constructor|].
    eexists. split.
    + unfold renderCard. rewrite Fv, Fc, Fs, Fe, Fsrc.
      simpl. rewrite renderSources_sourceObjects. simpl. reflexivity.
    + simpl. split; [done|]. split; [done|].
      rewrite length_fmap, length_take. lia.
  - done.
  - intros check. split.
    + intros [card (v & srcs & Hreads & Hsrcs & Hlinks & _ & _ & _ & Hc & Hs & He)%renderCard_Some].
      exists v, (confidence card), (TruthSeeker.statement card), (explanation card), srcs.
      repeat (split; [done|]). by eexists.
    + intros (v & c & s & e & srcs & Hreads & Hsrcs & Hc & Hs & He & [links Hlinks]).
      exists {| className := verdictColor v; icon := verdictIcon v; verdict := JStr v;
                confidence := c; statement := s; explanation := e; sources := links |}.
      apply renderCard_Some. by exists v, srcs.
  - intros check card (v & srcs & Hreads & _ & _ & _ & _ & Hv & _)%renderCard_Some.
    by rewrite Hv.
  - intros check srcs card (v & srcs' & _ & Hsrcs' & Hlinks & _)%renderCard_Some Hsrcs Hguard.
    rewrite Hsrcs in Hsrcs'. injection Hsrcs' as <-.
    rewrite (renderSources_guard srcs Hguard) in Hlinks. by injection Hlinks.
  - apply renderSources_is_Some.
  - intros m v Hv Hsrcs Hc Hs He.
    eexists {| sources := [] |}. split; [|done].
    apply renderCard_Some. exists v, JUndefined. unfold cardReads. simpl.
    rewrite Hv, Hsrcs. simpl. by repeat split.
Qed.

End FactCheckAnswer.

(** ** Concrete runs: a fact-check without sources, a demo backend, a
    debounced pair of statements *)

(** A result that carries everything but [sources]. *)
Definition sampleBareResult : JsVal (H := SampleHost.host) :=
  object [(lit "statement", JStr (lit "The Earth is round"));
          (lit "verdict", JStr (lit "True"));
          (lit "confidence_score", JNum (H := SampleHost.host) 1%Z);
          (lit "explanation", JStr (lit "Well established."))].

(** The card of a result without [sources] renders: the read of
    [check.sources] is guarded. *)
Lemma card_renders_without_sources :
  is_Some (TruthSeeker.renderCard sampleBareResult) ∧
  ¬ hasProp sampleBareResult (lit "sources").
Proof.
  split.
  - vm_compute. by eexists.
  - vm_compute. by intros [? ?].
Qed.

Definition sampleUnverified : Backend.Assessment (H := SampleHost.host) :=
  {| Backend.verdict := Backend.VUnverified;
     Backend.confidence := (0%Z : number (Host := SampleHost.host));
     Backend.explanation := lit "No information available.";
     Backend.sources := [] |}.

Definition sampleMockTable : list (jsstring * Backend.Assessment (H := SampleHost.host)) :=
  [(lit "Earth is flat",
    {| Backend.verdict := Backend.VFalse;
       Backend.confidence := (1%Z : number (Host := SampleHost.host));
       Backend.explanation := lit "The Earth is an oblate spheroid.";
       Backend.sources := [(lit "NASA", lit "https://www.nasa.gov");
                           (lit "ESA", lit "https://www.esa.int");
                           (lit "NOAA", lit "https://www.noaa.gov")] |})].

Lemma fact_check_answer_renders_witness :
  lit "The Earth is flat." ≠ [] ∧
  ∃ result card,
    Backend.factCheck false (fun _ => None) sampleMockTable sampleUnverified
      (FetchRejected []) (lit "The Earth is flat.") (lit "2025-01-01T00:00:00Z")
    = Response true (inl result) ∧
    TruthSeeker.renderCard result = Some card ∧
    TruthSeeker.verdict card = JStr (lit "False").
Proof.
  assert (Hne : lit "The Earth is flat." ≠ []) by (vm_compute; discriminate).
  split; [exact Hne|].
  destruct (fact_check_answer_renders false (fun _ => None) sampleMockTable
              sampleUnverified (FetchRejected []) (lit "The Earth is flat.")
              (lit "2025-01-01T00:00:00Z") sampleSolo Hne)
    as ((result & Hanswer & _ & _ & _ & _ & card & Hcard & Hverdict & _) & _).
  exists result, card. split; [exact Hanswer|]. split; [exact Hcard|].
  rewrite Hverdict. vm_compute. reflexivity.
Defined.

(** The solo view after one long final result: its fact-check timeout is
    pending under id 1. *)
Definition sampleListening : TruthSeeker.State (H := SampleHost.host) :=
  TruthSeeker.run sampleBackend sampleSession true
    [TruthSeeker.RecognitionResult 1 sampleLongResult].

Lemma debounce_keeps_only_the_latest_statement_witness :
  timers (TruthSeeker.rt sampleListening) !! 1
  = Some {| due := 1000;
            callback := TruthSeeker.CbFactCheck (lit "The Earth is flat.") |} ∧
  timers (TruthSeeker.rt
            (TruthSeeker.steps sampleBackend sampleSession true
               (TruthSeeker.processSentenceForFactCheck (lit "Water boils at 100 C.")
                  sampleListening)
               [TruthSeeker.Elapse 1000; TruthSeeker.TimerFires 1])) !! 1
  = None.
Proof.
  assert (Hpending :
    timers (TruthSeeker.rt sampleListening) !! 1
    = Some {| due := 1000;
              callback := TruthSeeker.CbFactCheck (lit "The Earth is flat.") |})
    by (vm_compute; reflexivity).
  split; [exact Hpending|].
  destruct (debounce_keeps_only_the_latest_statement sampleBackend sampleSession true
              [TruthSeeker.RecognitionResult 1 sampleLongResult]
              (lit "The Earth is flat.") (lit "Water boils at 100 C.") 1 _
              Hpending eq_refl) as (_ & Hnever & _).
  exact (proj1 (Hnever [TruthSeeker.Elapse 1000; TruthSeeker.TimerFires 1])).
Defined.

(** * Further properties of the views *)

(** ** The solo view: what a recognition result does to the transcript *)
Section Transcripts.
Context `{Host}.

Import TruthSeeker.

(** The transcripts of the results with a given [isFinal], in order. *)
Definition transcriptsOf (final : bool) (rs : list (jsstring * bool)) : jsstring :=
  concat (fst <$> filter (fun r => snd r = final) rs).

Lemma transcripts_loop (rs : list (jsstring * bool)) (acc : jsstring * jsstring) :
  foldl (fun (acc : jsstring * jsstring) (r : jsstring * bool) =>
           if snd r then (fst acc, snd acc ++ fst r)
           else (fst acc ++ fst r, snd acc)) acc rs
  = (fst acc ++ transcriptsOf false rs, snd acc ++ transcriptsOf true rs).
Proof.
  unfold transcriptsOf. revert acc.
  induction rs as [|[t f] rs IH]; intros [i fi].
  - simpl. by rewrite !app_nil_r.
  - cbn [foldl]. rewrite IH. rewrite !filter_cons.
    destruct f; simpl; by rewrite <- app_assoc.
Qed.

(** The loop of [recognition.onresult] collects, in order, the transcripts
    of the final results and of the interim results from [resultIndex] on;
    results before [resultIndex] are left out, and an event whose
    [resultIndex] is past the last result yields two empty strings, which
    clears [currentSentence] and changes nothing else. *)
Theorem onresult_reads_results_from_resultIndex (ev : ResultEvent) (st : State) :
  finalTranscript ev = transcriptsOf true (drop (resultIndex ev) (results ev)) ∧
  interimTranscript ev = transcriptsOf false (drop (resultIndex ev) (results ev)) ∧
  ((length (results ev) ≤ resultIndex ev)%nat →
     onresult ev st = setCurrentSentence [] st).
Proof.
  unfold finalTranscript, interimTranscript, transcripts.
  rewrite transcripts_loop. simpl. split; [done|]. split; [done|].
  intros Hpast. unfold onresult, finalTranscript, interimTranscript, transcripts.
  rewrite transcripts_loop. simpl. by rewrite drop_ge by done.
Qed.

(** What one result adds to [transcription]. *)
Definition spoken (ev : ResultEvent) : jsstring :=
  if bool_decide (finalTranscript ev = []) then []
  else finalTranscript ev ++ lit " ".

Lemma onresult_transcription ev st :
  transcription (onresult ev st) = transcription st ++ spoken ev ∧
  currentSentence (onresult ev st)
  = (if bool_decide (finalTranscript ev = []) then interimTranscript ev else []).
Proof.
  unfold onresult, spoken. case_bool_decide as E; simpl.
  - by rewrite app_nil_r.
  - case_match; [|done].
    unfold processSentenceForFactCheck. by destruct (pendingTimeout _).
Qed.

(** Over any sequence of recognition results, [transcription] grows by the
    final transcript of each event that has one, each followed by one
    space, in the order of the events; events with interim results only
    add nothing.  This holds whether or not a fact-check is scheduled: a
    final transcript of blanks is appended too. *)
Theorem transcription_accumulates_final_results
    (BACKEND_URL sessionId : jsstring) (SpeechRecognition : bool)
    (r : N) (evs : list ResultEvent) (st : State) :
  transcription
    (TruthSeeker.steps BACKEND_URL sessionId SpeechRecognition st
       (RecognitionResult r <$> evs))
  = transcription st ++ concat (spoken <$> evs).
Proof.
  revert st. induction evs as [|ev evs IH]; intros st; simpl.
  - by rewrite app_nil_r.
  - unfold TruthSeeker.steps in IH |- *. simpl. rewrite IH.
    destruct (onresult_transcription ev st) as [-> _].
    by rewrite <- app_assoc.
Qed.

End Transcripts.

(** ** The solo view: from a final result to the request *)
Section Transmission.
Context `{Host}.
Context (BACKEND_URL sessionId : jsstring) (SpeechRecognition : bool).

Import TruthSeeker.

Abbreviation steps := (TruthSeeker.steps BACKEND_URL sessionId SpeechRecognition).

(** Whether [wsRef.current] is a socket in state OPEN. *)
Definition socketOpen (st : State) : bool :=
  match wsRef st with
  | Some s => isOpen s (rt st)
  | None => false
  end.

(** The one request that carries [sentence]: over the socket when it is
    open, to POST /api/fact-check otherwise. *)
Definition request (st : State) (sentence : jsstring) : Call Callback :=
  match wsRef st with
  | Some s =>
      if isOpen s (rt st) then
        CSend s (object [(lit "type", JStr (lit "transcription_update"));
                         (lit "text", JStr sentence);
                         (lit "is_final", JBool true)])
      else
        CFetch (API_URL BACKEND_URL ++ lit "/fact-check") (lit "POST")
          (object [(lit "statement", JStr sentence);
                   (lit "session_id", JStr sessionId)])
  | None =>
      CFetch (API_URL BACKEND_URL ++ lit "/fact-check") (lit "POST")
        (object [(lit "statement", JStr sentence);
                 (lit "session_id", JStr sessionId)])
  end.

Lemma factCheckTimeout_request sentence st :
  calls (rt (factCheckTimeout BACKEND_URL sessionId sentence st))
    = calls (rt st) ++ [request st sentence] ∧
  isProcessing (factCheckTimeout BACKEND_URL sessionId sentence st)
    = (if socketOpen st then false else isProcessing st) ∧
  timers (rt (factCheckTimeout BACKEND_URL sessionId sentence st)) = timers (rt st).
Proof.
  unfold factCheckTimeout, request, socketOpen, call.
  destruct (wsRef st) as [s|]; [destruct (isOpen s (rt st))|]; done.
Qed.

(** A final result whose trimmed transcript is longer than 10 code units is
    transmitted exactly once, trimmed, by the timeout scheduled for it: not
    before 1000 ms have passed, and then over the WebSocket if
    [wsRef.current] is open at that moment and by POST /api/fact-check
    otherwise.  On the WebSocket path [isProcessing] is false as soon as
    the message is sent; on the HTTP path it stays true until the answer. *)
Theorem long_result_is_sent_once_after_1000ms (r : N) (ev : ResultEvent) (st : State) :
  let sentence := trim (finalTranscript ev) in
  let id := nextTimer (rt st) in
  (10 < length sentence)%nat →
  (∀ dt, dt < 1000 →
     steps st [RecognitionResult r ev; Elapse dt; TimerFires id]
     = steps st [RecognitionResult r ev; Elapse dt]) ∧
  (∀ dt, 1000 ≤ dt →
     let st' := steps st [RecognitionResult r ev; Elapse dt; TimerFires id] in
     calls (rt st')
       = calls (rt st) ++ cancelled st
           ++ [CSetTimeout id (CbFactCheck sentence) 1000; request st sentence] ∧
     isProcessing st' = negb (socketOpen st) ∧
     timers (rt st') !! id = None).
Proof.
  intros sentence id Hlong.
  assert (Hon : TruthSeeker.onresult ev st
                = processSentenceForFactCheck sentence
                    (setCurrentSentence []
                       (setTranscription
                          (transcription st ++ finalTranscript ev ++ lit " ") st))).
  { unfold TruthSeeker.onresult. fold sentence.
    assert (finalTranscript ev ≠ []) as Hne.
    { intros E. subst sentence. rewrite E in Hlong. simpl in Hlong. lia. }
    rewrite bool_decide_eq_false_2 by done. simpl negb. cbv iota.
    by rewrite (proj2 (Nat.ltb_lt _ _) Hlong). }
  set (cb := CbFactCheck sentence).
  assert (Hrt : ∃ r', rt (TruthSeeker.onresult ev st) = snd (setTimeout cb 1000 r') ∧
                      nextTimer r' = id ∧ sockets r' = sockets (rt st) ∧
                      calls r' = calls (rt st) ++ cancelled st).
  { rewrite Hon. unfold processSentenceForFactCheck, cancelled.
    change (pendingTimeout (setCurrentSentence _ _)) with (pendingTimeout st).
    destruct (pendingTimeout st) as [id0|].
    - exists (clearTimeout id0 (rt st)). by repeat split.
    - exists (rt st). simpl. rewrite app_nil_r. by repeat split. }
  destruct Hrt as (r' & Hrt & Hid & Hsock & Hcalls).
  assert (S : ∀ dt, steps st [RecognitionResult r ev; Elapse dt; TimerFires id]
                    = TruthSeeker.step BACKEND_URL sessionId SpeechRecognition
                        (steps st [RecognitionResult r ev; Elapse dt]) (TimerFires id))
    by reflexivity.
  assert (E : ∀ dt, takeTimer id (rt (steps st [RecognitionResult r ev; Elapse dt]))
                    = takeTimer (nextTimer r') (advance dt (snd (setTimeout cb 1000 r')))).
  { intros dt. rewrite Hid, <- Hrt. reflexivity. }
  split; intros dt Hdt; rewrite S.
  - unfold TruthSeeker.step at 1. rewrite E, takeTimer_after_setTimeout.
    by rewrite (proj2 (N.leb_gt _ _)) by lia.
  - unfold TruthSeeker.step at 1. rewrite E, takeTimer_after_setTimeout.
    rewrite (proj2 (N.leb_le _ _)) by lia.
    simpl runCallback.
    match goal with
    | |- context [factCheckTimeout _ _ ?s ?x] =>
        destruct (factCheckTimeout_request s x) as (Hc & Hp & Ht);
        assert (Hreq : request x s = request st s);
        [|assert (Hopen : socketOpen x = socketOpen st)]
    end.
    + unfold request, isOpen. simpl. rewrite Hsock.
      rewrite Hon. unfold processSentenceForFactCheck.
      by destruct (pendingTimeout _).
    + unfold socketOpen, isOpen. simpl. rewrite Hsock.
      rewrite Hon. unfold processSentenceForFactCheck.
      by destruct (pendingTimeout _).
    + rewrite Hc, Hp, Ht, Hreq, Hopen. simpl. rewrite Hcalls, Hid.
      split; [by rewrite <- !app_assoc|]. split.
      * destruct (socketOpen st); [done|].
        rewrite Hon. unfold processSentenceForFactCheck.
        by destruct (pendingTimeout _).
      * apply lookup_delete_eq.
Qed.

End Transmission.

(** ** The solo view: incoming results, Clear All, browsers without speech
    recognition *)
Section SoloResults.
Context `{Host}.
Context (BACKEND_URL sessionId : jsstring) (SpeechRecognition : bool).

Import TruthSeeker.

Abbreviation step := (TruthSeeker.step BACKEND_URL sessionId SpeechRecognition).
Abbreviation steps := (TruthSeeker.steps BACKEND_URL sessionId SpeechRecognition).
Abbreviation run := (TruthSeeker.run BACKEND_URL sessionId SpeechRecognition).
Abbreviation staysMounted :=
  (TruthSeeker.staysMounted BACKEND_URL sessionId SpeechRecognition).

(** A WebSocket message [{type: 'fact_check_result', data: d, ...}]. *)
Definition carriesResult (message d : JsVal) : Prop :=
  ∃ m : gmap jsstring JsVal,
    message = JObj m ∧
    m !! lit "type" = Some (JStr (lit "fact_check_result")) ∧
    m !! lit "data" = Some d.

Lemma ws_onmessage_result message d st :
  carriesResult message d →
  ws_onmessage (Some message) st
  = setIsProcessing false (setFactChecks (d :: factChecks st) st).
Proof.
  intros (m & -> & Ht & Hd). unfold ws_onmessage. simpl getProp.
  rewrite Ht, Hd. simpl default. unfold strictEq.
  by rewrite bool_decide_eq_true_2 by reflexivity.
Qed.

Lemma renders_result d st :
  renders (setIsProcessing false (setFactChecks (d :: factChecks st) st))
  = match renderCard d with
    | Some _ => renders st
    | None => false
    end.
Proof.
  unfold renders, renderFactChecks. simpl.
  destruct (renderCard d); [|done]. simpl.
  by destruct (mapM renderCard (factChecks st)).
Qed.

(** Results arriving over the WebSocket are put in front of the list.  As
    long as each [data] renders as a card the view stays mounted, and
    after any number of 'fact_check_result' messages the list shows their
    [data] newest first, before the results that were there.  A [data]
    whose card does not render is put in front of the list all the same,
    and the render that follows throws.  A message of another type, a
    message that is not an object with that [type], and a frame that is
    not JSON change nothing. *)
Theorem socket_results_are_listed_newest_first
    (s : N) (messages ds : list JsVal) (st : State) :
  Forall2 carriesResult messages ds →
  renders st = true →
  let events := (fun m => SocketMessage s (Some m)) <$> messages in
  (Forall (fun d => is_Some (renderCard d)) ds →
     staysMounted st events = true ∧
     factChecks (steps st events) = reverse ds ++ factChecks st) ∧
  (∀ message d,
     carriesResult message d → renderCard d = None →
     factChecks (step st (SocketMessage s (Some message))) = d :: factChecks st ∧
     renders (step st (SocketMessage s (Some message))) = false) ∧
  (∀ m : gmap jsstring JsVal,
     m !! lit "type" ≠ Some (JStr (lit "fact_check_result")) →
     step st (SocketMessage s (Some (JObj m))) = st) ∧
  step st (SocketMessage s None) = st ∧
  step st (SocketMessage s (Some JNull)) = st.
Proof.
  intros Hall Hst events. subst events. split; [|split; [|split; [|split]]].
  - intros Hcards. revert st Hst Hcards.
    induction Hall as [|message d messages ds Hm _ IH]; intros st Hst Hcards.
    + done.
    + apply Forall_cons in Hcards as [[card Hcard] Hcards].
      unfold TruthSeeker.steps in IH |- *.
      cbn [fmap list_fmap foldl TruthSeeker.staysMounted].
      change (TruthSeeker.step _ _ _ st (SocketMessage s (Some message)))
        with (ws_onmessage (Some message) st).
      rewrite (ws_onmessage_result _ _ _ Hm).
      assert (Hst' : renders (setIsProcessing false
                                (setFactChecks (d :: factChecks st) st)) = true)
        by (by rewrite renders_result, Hcard).
      destruct (IH _ Hst' Hcards) as [-> ->]. rewrite Hst'. split; [done|].
      simpl. by rewrite reverse_cons, <- app_assoc.
  - intros message d Hm Hcard.
    change (TruthSeeker.step _ _ _ st (SocketMessage s (Some message)))
      with (ws_onmessage (Some message) st).
    rewrite (ws_onmessage_result _ _ _ Hm). split; [done|].
    by rewrite renders_result, Hcard.
  - intros m Hne. simpl.
    destruct (m !! lit "type") as [[| |b|n|t|l|o]|] eqn:E; simpl; try done.
    case_bool_decide as Et; [|done]. by subst t.
  - done.
  - done.
Qed.

(** Clear All empties the transcript, the sentence in progress, the list
    and the error, and nothing else: a fact-check whose timeout is pending
    is still transmitted, with the same request, and its answer is shown in
    the emptied list. *)
Theorem clearAll_keeps_the_pending_fact_check (id : N) (result : JsVal) (st : State) :
  let cleared := step st ClickClearAll in
  (transcription cleared = [] ∧ currentSentence cleared = [] ∧
   factChecks cleared = [] ∧ error cleared = []) ∧
  (rt cleared = rt st ∧ processTimeoutRef cleared = processTimeoutRef st ∧
   isProcessing cleared = isProcessing st ∧ isListening cleared = isListening st) ∧
  rt (steps st [ClickClearAll; TimerFires id]) = rt (steps st [TimerFires id]) ∧
  factChecks (steps st [ClickClearAll; FactCheckAnswers (Response true (inl result))])
    = [result].
Proof.
  intros cleared. split; [done|]. split; [done|]. split; [|done].
  unfold TruthSeeker.steps. simpl. unfold clearAll. simpl.
  destruct (takeTimer id (rt st)) as [[cb rt']|]; [|done].
  destruct cb as [|r|sentence]; simpl.
  - unfold TruthSeeker.connectWebSocket. simpl.
    by destruct (newWebSocket _ rt') as [[sock|] r''].
  - unfold restart, recognitionStart. simpl.
    destruct (recognitions st !! r) as [k|]; [destruct (started k)|]; try done;
      unfold TruthSeeker.setIsListening; simpl;
      (case_bool_decide; [done|]);
      unfold recognitionEffect, recognitionCleanup; simpl;
      destruct SpeechRecognition; simpl; try done;
      by destruct (recognitionRef st).
  - unfold factCheckTimeout. simpl.
    destruct (wsRef st) as [s|]; [destruct (isOpen s rt')|]; done.
Qed.

(** The states of a browser without speech recognition. *)
Definition deaf (st : State) : Prop :=
  isListening st = false ∧ recognitionRef st = None ∧ recognitions st = ∅.

Lemma step_deaf st e :
  SpeechRecognition = false → deaf st → deaf (step st e).
Proof.
  intros Hsr (Hl & Hr & Hk). unfold deaf.
  assert (K : ∀ st0, isListening st0 = false →
                TruthSeeker.setIsListening SpeechRecognition false st0 = st0).
  { intros st0 E. unfold TruthSeeker.setIsListening.
    by rewrite bool_decide_eq_true_2 by done. }
  destruct e; simpl.
  - done.
  - destruct (takeTimer id (rt st)) as [[cb rt']|]; [|done].
    destruct cb as [|r|sentence]; simpl.
    + unfold TruthSeeker.connectWebSocket. simpl.
      by destruct (newWebSocket _ rt') as [[sock|] r''].
    + unfold restart, recognitionStart. simpl. rewrite Hk, lookup_empty.
      by rewrite K.
    + unfold factCheckTimeout. simpl.
      destruct (wsRef st) as [s|]; [destruct (isOpen s rt')|]; done.
  - done.
  - unfold onresult. case_bool_decide; simpl; [done|].
    case_match; [|done].
    unfold processSentenceForFactCheck. by destruct (pendingTimeout _).
  - unfold onerror. rewrite K; repeat case_bool_decide; by repeat split.
  - unfold onend, ended. simpl. rewrite Hk. by rewrite lookup_alter_eq, lookup_empty.
  - done.
  - unfold ws_onmessage. repeat case_match; done.
  - done.
  - done.
  - unfold healthResponse. repeat case_match; done.
  - unfold factCheckResponse. repeat case_match; done.
  - unfold toggleListening. by rewrite Hr.
  - done.
Qed.

(** In a browser without speech recognition the view says so when it is
    mounted, and whatever happens afterwards it never listens: no
    recognition object exists, [isListening] stays false, and a click on the
    microphone changes nothing. *)
Theorem without_speech_recognition_the_view_never_listens (es : list Event) :
  SpeechRecognition = false →
  error (run [])
    = lit "Speech recognition not supported in this browser. Please use Chrome, Safari, or Edge." ∧
  isListening (run es) = false ∧
  recognitionRef (run es) = None ∧
  recognitions (run es) = ∅ ∧
  step (run es) ClickMicrophone = run es.
Proof.
  intros Hsr.
  assert (M : deaf (TruthSeeker.mount BACKEND_URL sessionId SpeechRecognition)).
  { unfold TruthSeeker.mount, checkHealth, call, TruthSeeker.connectWebSocket,
      recognitionEffect. rewrite Hsr. simpl.
    by destruct (newWebSocket _ _) as [[sock|] r'']. }
  assert (D : ∀ st, deaf st → deaf (steps st es)).
  { induction es as [|e es' IH]; intros st Dst; [done|].
    apply IH. by apply step_deaf. }
  split.
  - unfold TruthSeeker.run, TruthSeeker.steps, TruthSeeker.mount, checkHealth, call,
      TruthSeeker.connectWebSocket, recognitionEffect. rewrite Hsr. simpl.
    by destruct (newWebSocket _ _) as [[sock|] r''].
  - destruct (D _ M) as (Hl & Hr & Hk). fold (run es) in Hl, Hr, Hk.
    repeat (split; [done|]). simpl. unfold toggleListening. by rewrite Hr.
Qed.

End SoloResults.

(** ** The WebSocket URL *)
Section SocketUrl.

(** [s.includes(sub)]. *)
Fixpoint includes (s sub : jsstring) : bool :=
  isPrefix sub s ||
  match s with
  | [] => false
  | _ :: s' => includes s' sub
  end.

Lemma replace_absent s pat by' :
  includes s pat = false → replace s pat by' = s.
Proof.
  induction s as [|c s IH]; simpl; intros Hno.
  - apply orb_false_iff in Hno as [-> _]. done.
  - apply orb_false_iff in Hno as [-> Hno]. by rewrite IH.
Qed.

(** [WS_URL] is [BACKEND_URL] with a leading https:// turned into wss://,
    or a leading http:// into ws://; the two views compute it alike.  The
    two [replace] calls look at the whole string, so a later http:// (or
    https://) inside the URL is rewritten as well; when there is none, the
    rest of the URL is kept as it is.  A [BACKEND_URL] that contains neither
    scheme is used unchanged. *)
Theorem WS_URL_turns_http_schemes_into_ws (rest : jsstring) :
  TruthSeeker.WS_URL (lit "https://" ++ rest)
    = lit "wss://" ++ replace rest (lit "http://") (lit "ws://") ∧
  TruthSeeker.WS_URL (lit "http://" ++ rest)
    = lit "ws://" ++ replace rest (lit "https://") (lit "wss://") ∧
  (includes rest (lit "http://") = false →
     TruthSeeker.WS_URL (lit "https://" ++ rest) = lit "wss://" ++ rest) ∧
  (includes rest (lit "https://") = false →
     TruthSeeker.WS_URL (lit "http://" ++ rest) = lit "ws://" ++ rest) ∧
  (includes rest (lit "https://") = false → includes rest (lit "http://") = false →
     TruthSeeker.WS_URL rest = rest) ∧
  YouTubeLive.WS_URL rest = TruthSeeker.WS_URL rest.
Proof.
  assert (A : TruthSeeker.WS_URL (lit "https://" ++ rest)
              = lit "wss://" ++ replace rest (lit "http://") (lit "ws://")).
  { unfold TruthSeeker.WS_URL. unfold lit. simpl. reflexivity. }
  assert (B : TruthSeeker.WS_URL (lit "http://" ++ rest)
              = lit "ws://" ++ replace rest (lit "https://") (lit "wss://")).
  { unfold TruthSeeker.WS_URL. unfold lit. simpl. reflexivity. }
  split; [exact A|]. split; [exact B|]. split; [|split; [|split]].
  - intros Hno. by rewrite A, replace_absent.
  - intros Hno. by rewrite B, replace_absent.
  - intros H1 H2. unfold TruthSeeker.WS_URL.
    by rewrite (replace_absent rest _ _ H1), (replace_absent rest _ _ H2).
  - done.
Qed.

End SocketUrl.

(** ** Unmounting the views *)
Section Unmount.
Context `{Host}.
Context (BACKEND_URL sessionId : jsstring) (SpeechRecognition : bool).

Abbreviation soloSteps := (TruthSeeker.steps BACKEND_URL sessionId SpeechRecognition).
Abbreviation liveSteps := (YouTubeLive.steps BACKEND_URL).

Section SoloView.
Import TruthSeeker.

(** The calls of the cleanup of the recognition effect. *)
Definition stopCalls (st : State) : list (Call Callback) :=
  if SpeechRecognition then
    match recognitionRef st with
    | Some r => [CRecognitionStop r]
    | None => []
    end
  else [].

(** Unmounting the solo view stops the current recognition and closes the
    socket, and clears no timeout: the timer table is as before, so a
    pending fact-check is still transmitted.  The close event that follows
    the [close()] of the cleanup runs [ws.onclose] like any other: a
    reconnect is scheduled and, 3000 ms later, a new WebSocket is
    constructed for the unmounted view. *)
Theorem solo_unmount_keeps_timers_and_reconnects (st : State) (s : N) :
  wsRef st = Some s →
  let gone := TruthSeeker.unmount SpeechRecognition st in
  let id := nextTimer (rt st) in
  calls (rt gone) = calls (rt st) ++ stopCalls st ++ [CClose s] ∧
  timers (rt gone) = timers (rt st) ∧
  (∀ dt, 3000 ≤ dt →
     calls (rt (soloSteps gone [SocketCloses s; Elapse dt; TimerFires id]))
     = calls (rt gone)
         ++ [CSetTimeout id CbConnectWebSocket 3000;
             CNewWebSocket (WS_URL BACKEND_URL ++ lit "/ws/" ++ sessionId)]).
Proof.
  intros Hws gone id.
  assert (G : calls (rt gone) = calls (rt st) ++ stopCalls st ++ [CClose s] ∧
              timers (rt gone) = timers (rt st) ∧
              nextTimer (rt gone) = id).
  { subst gone id.
    unfold TruthSeeker.unmount, wsCleanup, recognitionCleanup, recognitionStop,
      call, stopCalls, close.
    destruct SpeechRecognition; simpl; [destruct (recognitionRef st) as [r|]|];
      simpl; rewrite Hws; simpl;
      repeat first [case_match | progress simpl];
      rewrite <- ?app_assoc, ?app_nil_r; done. }
  destruct G as (Gc & Gt & Gn). split; [exact Gc|]. split; [exact Gt|].
  intros dt Hdt.
  destruct (solo_close_reconnects BACKEND_URL sessionId SpeechRecognition gone s)
    as (Hc1 & _ & _ & Hfire).
  rewrite Gn in Hc1, Hfire.
  destruct (Hfire dt Hdt) as (Hc2 & _).
  change (soloSteps gone [SocketCloses s; Elapse dt; TimerFires id])
    with (soloSteps (soloSteps gone [SocketCloses s]) [Elapse dt; TimerFires id]).
  rewrite Hc2, Hc1, <- app_assoc. done.
Qed.

End SoloView.

Section LiveView.
Import YouTubeLive.

Lemma close_keeps_timers {C} s (r : Runtime C) :
  timers (close s r) = timers r ∧ nextTimer (close s r) = nextTimer r.
Proof. unfold close. repeat case_match; done. Qed.

Lemma wsCleanup_clears st id :
  reconnectTimeoutRef st = Some id → id ≠ 0 →
  timers (rt (wsCleanup st)) = delete id (timers (rt st)) ∧
  nextTimer (rt (wsCleanup st)) = nextTimer (rt st).
Proof.
  intros Href Hid. unfold wsCleanup.
  destruct (wsRef st) as [s0|]; simpl; rewrite Href;
    rewrite (proj2 (N.eqb_neq id 0)) by done; simpl; [|done].
  by destruct (close_keeps_timers s0 (rt st)) as [-> ->].
Qed.

(** Unmounting the YouTube Live view cancels the reconnect that a close
    event has scheduled: that timeout is no longer pending and never
    connects.  But the close event that follows the [close()] of the
    cleanup itself comes after the cleanup, and the reconnect it schedules
    is cancelled by nothing: 3000 ms later a new WebSocket is constructed
    for the unmounted view. *)
Theorem live_unmount_cancels_only_the_pending_reconnect (st : State) (s : N) :
  nextTimer (rt st) ≠ 0 →
  let id := nextTimer (rt st) in
  (∃ st1, liveSteps st [SocketCloses s] = Some st1 ∧
          timers (rt st1) !! id
            = Some {| due := now (rt st) + 3000; callback := CbConnectWebSocket |} ∧
          timers (rt (unmount st1)) !! id = None ∧
          ∀ dt, liveSteps (unmount st1) [Elapse dt; TimerFires id]
                = liveSteps (unmount st1) [Elapse dt]) ∧
  (∀ dt, 3000 ≤ dt →
     ∃ st2, liveSteps (unmount st) [SocketCloses s; Elapse dt; TimerFires id] = Some st2 ∧
            calls (rt st2)
            = calls (rt (unmount st))
                ++ [CSetTimeout id CbConnectWebSocket 3000;
                    CNewWebSocket (WS_URL BACKEND_URL ++ lit "/ws/youtube-live")]).
Proof.
  intros Hid id. split.
  - eexists. split; [reflexivity|].
    split; [simpl; by rewrite lookup_insert_eq|].
    assert (Hgone : timers (rt (unmount (ws_onclose
                              (setRt (setReadyState s CLOSED (rt st)) st)))) !! id
                    = None).
    { unfold unmount.
      match goal with
      | |- context [wsCleanup ?x] =>
          destruct (wsCleanup_clears x id eq_refl Hid) as [-> _]
      end.
      apply lookup_delete_eq. }
    split; [exact Hgone|].
    intros dt. simpl. unfold takeTimer. simpl.
    change (timers (rt (wsCleanup ?x))) with (timers (rt (unmount x))).
    by rewrite Hgone.
  - intros dt Hdt.
    assert (Gn : nextTimer (rt (unmount st)) = id).
    { unfold unmount, wsCleanup. subst id.
      destruct (wsRef st) as [s0|]; simpl;
        repeat (case_match; simpl);
        by rewrite ?(proj2 (close_keeps_timers _ _)). }
    destruct (live_close_reconnects BACKEND_URL (unmount st) s)
      as (st1 & Hst1 & Hc1 & _ & _ & Hfire).
    rewrite Gn in Hc1, Hfire.
    destruct (Hfire dt Hdt) as (st2 & Hst2 & Hc2 & _).
    exists st2. split.
    + change (liveSteps (unmount st) [SocketCloses s; Elapse dt; TimerFires id])
        with (st' ← liveSteps (unmount st) [SocketCloses s];
              liveSteps st' [Elapse dt; TimerFires id]).
      rewrite Hst1. exact Hst2.
    + rewrite Hc2, Hc1, <- app_assoc. done.
Qed.

End LiveView.

End Unmount.

(** ** The solo view: what a click on the idle microphone does *)
Section MicrophoneClick.
Context `{Host}.
Context (BACKEND_URL sessionId : jsstring).

Import TruthSeeker.

Abbreviation step := (TruthSeeker.step BACKEND_URL sessionId true).
Abbreviation steps := (TruthSeeker.steps BACKEND_URL sessionId true).

(** [recognitionRef] holds a recognition object that has not been
    started. *)
Definition ready (st : State) : Prop :=
  ∃ r k, recognitionRef st = Some r ∧ recognitions st !! r = Some k ∧
         started k = false.

Lemma ready_frame st st' :
  recognitions st' = recognitions st → recognitionRef st' = recognitionRef st →
  ready st → ready st'.
Proof. intros Hk Hr (r & k & ? & ? & ?). exists r, k. by rewrite Hk, Hr. Qed.

Lemma setIsListening_ready b st :
  ready st → ready (TruthSeeker.setIsListening true b st).
Proof.
  intros R. unfold TruthSeeker.setIsListening.
  case_bool_decide; [done|].
  unfold recognitionEffect. simpl.
  eexists _, _. split; [reflexivity|]. simpl. by rewrite lookup_insert_eq.
Qed.

Ltac same_ready R :=
  eapply ready_frame; [..|exact R];
  repeat first [reflexivity | case_match | case_bool_decide | progress simpl].

Lemma step_ready st e :
  restartDead true st → ready st → ready (step st e).
Proof.
  intros D R.
  destruct e as [dt|id|r|r ev|r err|r|s|s parsed|s|s|o|o| |]; simpl.
  - same_ready R.
  - unfold takeTimer.
    destruct (timers (rt st) !! id) as [t|] eqn:Ht; [|done].
    destruct (due t <=? now (rt st)); [|done].
    destruct (callback t) as [|r|sentence] eqn:Hcb; simpl.
    + unfold TruthSeeker.connectWebSocket.
      destruct (newWebSocket _ _) as [[sock|] r']; same_ready R.
    + destruct D as (_ & _ & _ & _ & D5). by destruct (D5 _ _ r Ht).
    + unfold factCheckTimeout, call. same_ready R.
  - same_ready R.
  - unfold onresult, processSentenceForFactCheck. same_ready R.
  - unfold onerror. apply setIsListening_ready. same_ready R.
  - unfold onend, ended. simpl.
    assert (R' : ready (setRecognitions
                          (alter (fun k => {| capturedIsListening := capturedIsListening k;
                                              started := false |}) r (recognitions st))
                          st)).
    { destruct R as (r0 & k & Hr & Hk & Hs). unfold ready. simpl.
      exists r0. rewrite lookup_alter. case_decide.
      - subst r0. rewrite Hk. simpl. by eexists.
      - by exists k. }
    revert R'. generalize (alter (fun k => {| capturedIsListening := capturedIsListening k;
                                              started := false |}) r (recognitions st)).
    intros m R'. destruct (m !! r) as [k|]; [destruct (capturedIsListening k)|];
      exact R'.
  - same_ready R.
  - unfold ws_onmessage. same_ready R.
  - same_ready R.
  - same_ready R.
  - unfold healthResponse. same_ready R.
  - unfold factCheckResponse. same_ready R.
  - unfold toggleListening.
    destruct (recognitionRef st) as [r|] eqn:Href; [|done].
    destruct (isListening st) eqn:Hl.
    + apply setIsListening_ready. unfold recognitionStop, call. same_ready R.
    + unfold recognitionStart.
      destruct (recognitions st !! r) as [k|]; [destruct (started k)|];
        [same_ready R| |same_ready R].
      eapply ready_frame; [reflexivity|reflexivity|].
      unfold TruthSeeker.setIsListening. simpl. rewrite Hl. simpl.
      eexists _, _. split; [reflexivity|]. simpl. by rewrite lookup_insert_eq.
  - same_ready R.
Qed.

Lemma mount_ready : ready (TruthSeeker.mount BACKEND_URL sessionId true).
Proof.
  unfold TruthSeeker.mount, checkHealth, call, TruthSeeker.connectWebSocket.
  destruct (newWebSocket _ _) as [[sock|] r']; simpl;
    (eexists _, _; split; [reflexivity|]; simpl; by rewrite lookup_insert_eq).
Qed.

Lemma steps_ready st es :
  restartDead true st → deliverableAll BACKEND_URL sessionId true st es →
  ready st → ready (steps st es) ∧ restartDead true (steps st es).
Proof.
  revert st. induction es as [|e es IH]; intros st D Hes R; [done|].
  destruct Hes as [He Hes].
  apply IH; [by apply step_dead|done|by apply step_ready].
Qed.

(** On a browser with speech recognition, in any run in which the browser
    ends only recognitions that were started: whenever the view is not
    listening, a click on the microphone calls [start()] on the object in
    [recognitionRef], which never throws there, and sets [isListening];
    the re-render that follows replaces the object in [recognitionRef] by
    a new one and its cleanup calls [stop()] on the object just started.
    So every [start()] made by a click is followed at once by a [stop()] of
    the same object, and the error 'Error starting speech recognition' is
    never shown. *)
Theorem click_on_idle_microphone_starts_then_stops (es : list Event) :
  let mounted := TruthSeeker.mount BACKEND_URL sessionId true in
  let st := steps mounted es in
  deliverableAll BACKEND_URL sessionId true mounted es →
  isListening st = false →
  ∃ r, recognitionRef st = Some r ∧
       isListening (step st ClickMicrophone) = true ∧
       error (step st ClickMicrophone) = [] ∧
       calls (rt (step st ClickMicrophone))
         = calls (rt st) ++ [CRecognitionStart r; CRecognitionStop r] ∧
       recognitionRef (step st ClickMicrophone) = Some (nextRecognition st).
Proof.
  intros mounted st Hes Hl.
  destruct (steps_ready mounted es (mount_dead BACKEND_URL sessionId true) Hes mount_ready)
    as [(r & k & Hr & Hk & Hs) _].
  fold st in Hr, Hk. exists r. split; [exact Hr|].
  simpl. unfold toggleListening, recognitionStart.
  rewrite Hr, Hl, Hk, Hs.
  unfold TruthSeeker.setIsListening. simpl. rewrite Hl. simpl.
  unfold recognitionCleanup, recognitionStop, call. simpl. rewrite Hr. simpl.
  rewrite <- app_assoc. done.
Qed.

End MicrophoneClick.

(** ** The YouTube Live view: the screen and the statistics *)
Module LiveRender.

(** The three returns of the component (lines 165, 176 and 220). *)
Inductive Screen := Spinner | NoVideo | Live.

Section Render.
Context `{Host}.

Import YouTubeLive.

Definition screen (st : State) : Screen :=
  if loading st then Spinner
  else if negb (truthy (videoSession st)) then NoVideo
  else Live.

(** [fc.verdict === label]; reading [verdict] of [null] throws. *)
Definition verdictIs (label : jsstring) (fc : JsVal) : option bool :=
  v ← getProp fc (lit "verdict"); Some (strictEq v label).

(** [factChecks.filter(fc => fc.verdict === label).length] (lines 386-398);
    only an array has [filter]. *)
Definition countVerdict (label : jsstring) (fcs : JsVal) : option nat :=
  match fcs with
  | JArr l => matches ← mapM (verdictIs label) l; Some (length (filter (fun b => b = true) matches))
  | _ => None
  end.

(** The four boxes of the footer: True, False, Partial, Unverified. *)
Definition stats (fcs : JsVal) : option (nat * nat * nat * nat) :=
  t ← countVerdict (lit "True") fcs;
  f ← countVerdict (lit "False") fcs;
  p ← countVerdict (lit "Partially True") fcs;
  u ← countVerdict (lit "Unverified") fcs;
  Some (t, f, p, u).

(** *** Whether the render returns (lines 165-410) *)

(** [f] of [v.k]; [false] when the read throws. *)
Definition reads (v : JsVal) (k : string) (f : JsVal -> bool) : bool :=
  match getProp v (lit k) with
  | Some x => f x
  | None => false
  end.

(** [formatTime(t)] (lines 157-163): [new Date(t)] converts [t] to a
    primitive value; the time of an invalid date is a text, not an
    error. *)
Definition formatTime (t : JsVal) : bool := convertible t.

(** One segment of the transcript (lines 309-316). *)
Definition renderSegment (segment : JsVal) : bool :=
  reads segment "timestamp" formatTime && reads segment "transcript" validChild.

(** One fact-check (lines 334-369): the card of the solo view with the time
    of [created_at] added; the block of the sources is the same text in
    both views. *)
Definition renderCard (check : JsVal) : bool :=
  reads check "verdict"
    (fun v => match getVerdictColor v, getVerdictIcon v with
              | Some _, Some _ => true
              | _, _ => false
              end)
  && reads check "confidence_score" convertible
  && reads check "created_at" formatTime
  && reads check "statement" validChild
  && reads check "explanation" validChild
  && reads check "sources"
       (fun srcs => match TruthSeeker.renderSources srcs with
                    | Some _ => true
                    | None => false
                    end).

(** [list.length > 0 ? list.map(item) : placeholder] (lines 307 and 332);
    only an array has a [map] to call. *)
Definition renderList (item : JsVal -> bool) (list : JsVal) : bool :=
  match lengthPositive list with
  | Some true =>
      match list with
      | JArr l => forallb item l
      | _ => false
      end
  | Some false => true
  | None => false
  end.

(** [{factChecks.length}] as a child (line 260). *)
Definition lengthChild (list : JsVal) : bool :=
  match list with
  | JArr _ | JStr _ => true
  | _ => reads list "length" validChild
  end.

(** The header, the error banner and the video (lines 223-293): the title
    is a child, [created_at] is formatted, [duration] is compared with 0
    and divided, [video_id] goes through the template of the frame's
    [src], and the title is also the [title] attribute of the frame, which
    React sets as ['' + value]; [is_live] is only tested. *)
Definition renderHeader (st : State) : bool :=
  reads (videoSession st) "title" validChild
  && reads (videoSession st) "created_at" formatTime
  && reads (videoSession st) "duration"
       (fun d => match positive d with
                 | Some _ => true
                 | None => false
                 end)
  && validChild (error st)
  && reads (videoSession st) "video_id" convertible
  && reads (videoSession st) "title" convertible.

(** The third return. *)
Definition renderLive (st : State) : bool :=
  renderHeader st
  && lengthChild (factChecks st)
  && renderList renderSegment (transcriptSegments st)
  && renderList renderCard (factChecks st)
  && match stats (factChecks st) with
     | Some _ => true
     | None => false
     end.

(** Whether the render of the view returns.  The spinner reads nothing;
    the second return shows [error] as a child when it is truthy.  The
    view sits under no error boundary: when its render throws, React
    unmounts it. *)
Definition renders (st : State) : bool :=
  match screen st with
  | Spinner => true
  | NoVideo => validChild (error st)
  | Live => renderLive st
  end.

End Render.

Section Runs.
Context `{Host}.
Context (BACKEND_URL : jsstring).

Import YouTubeLive.

(** The events reach a mounted view one after the other: no state updater
    throws and the render after each event returns. *)
Fixpoint staysMounted (st : State) (es : list Event) : bool :=
  match es with
  | [] => true
  | e :: es' =>
      match YouTubeLive.step BACKEND_URL st e with
      | Some st' => renders st' && staysMounted st' es'
      | None => false
      end
  end.

End Runs.

End LiveRender.

(** ** The YouTube Live view: streams of messages *)
Section LiveStreams.
Context `{Host}.
Context (BACKEND_URL : jsstring).

Import YouTubeLive.

Abbreviation step := (YouTubeLive.step BACKEND_URL).
Abbreviation steps := (YouTubeLive.steps BACKEND_URL).
Abbreviation staysMounted := (LiveRender.staysMounted BACKEND_URL).

(** A message object [{type: t, data: d, ...}]. *)
Definition carries (t : string) (message d : JsVal) : Prop :=
  ∃ m : gmap jsstring JsVal,
    message = JObj m ∧ m !! lit "type" = Some (JStr (lit t)) ∧
    m !! lit "data" = Some d.

Ltac differs := let E := fresh in intros E; vm_compute in E; discriminate E.

Ltac dispatch Ht Hd :=
  unfold handleWebSocketMessage; simpl getProp; rewrite Ht, Hd; simpl default;
  unfold strictEq;
  repeat (rewrite bool_decide_eq_false_2 by differs);
  rewrite bool_decide_eq_true_2 by reflexivity.

Lemma new_fact_check_appends message d l st :
  carries "new_fact_check" message d → factChecks st = JArr l →
  handleWebSocketMessage message st = Some (setFactChecks (JArr (l ++ [d])) st).
Proof.
  intros (m & -> & Ht & Hd) Hl. dispatch Ht Hd.
  unfold append. by rewrite Hl.
Qed.

Lemma new_transcript_appends message d l st :
  carries "new_transcript" message d → transcriptSegments st = JArr l →
  handleWebSocketMessage message st = Some (setTranscriptSegments (JArr (l ++ [d])) st).
Proof.
  intros (m & -> & Ht & Hd) Hl. dispatch Ht Hd.
  unfold append. by rewrite Hl.
Qed.

(** The footer can count exactly the lists whose entries have a [verdict]
    to read. *)
Lemma stats_is_Some (l : list JsVal) :
  is_Some (LiveRender.stats (JArr l))
  ↔ Forall (fun fc => is_Some (getProp fc (lit "verdict"))) l.
Proof.
  assert (Hcount : ∀ label,
            is_Some (LiveRender.countVerdict label (JArr l))
            ↔ Forall (fun fc => is_Some (getProp fc (lit "verdict"))) l).
  { intros label. unfold LiveRender.countVerdict.
    assert (Hm : is_Some (mapM (LiveRender.verdictIs label) l)
                 ↔ Forall (fun fc => is_Some (getProp fc (lit "verdict"))) l).
    { rewrite mapM_is_Some. apply Forall_iff. intros fc.
      unfold compose, LiveRender.verdictIs.
      destruct (getProp fc (lit "verdict")); simpl; split; intros [? ?];
        simplify_eq/=; by eexists. }
    rewrite <- Hm.
    destruct (mapM (LiveRender.verdictIs label) l); simpl; split; intros [? ?];
      simplify_eq/=; by eexists. }
  unfold LiveRender.stats. split.
  - intros Hstats. apply (Hcount (lit "True")).
    destruct (LiveRender.countVerdict (lit "True") (JArr l)); [by eexists|].
    by destruct Hstats.
  - intros Hl.
    destruct (proj2 (Hcount (lit "True")) Hl) as [t ->].
    destruct (proj2 (Hcount (lit "False")) Hl) as [f ->].
    destruct (proj2 (Hcount (lit "Partially True")) Hl) as [p' ->].
    destruct (proj2 (Hcount (lit "Unverified")) Hl) as [u ->].
    by eexists.
Qed.

Lemma renderCard_verdict d :
  LiveRender.renderCard d = true → is_Some (getProp d (lit "verdict")).
Proof.
  unfold LiveRender.renderCard, LiveRender.reads.
  destruct (getProp d (lit "verdict")); [by eexists|done].
Qed.

(** The render after an append to the fact-checks. *)
Lemma renders_append st l d :
  factChecks st = JArr l → LiveRender.renders st = true →
  LiveRender.renders (setFactChecks (JArr (l ++ [d])) st)
  = match LiveRender.screen st with
    | LiveRender.Live => LiveRender.renderCard d
    | _ => true
    end.
Proof.
  intros Hl. unfold LiveRender.renders.
  change (LiveRender.screen (setFactChecks (JArr (l ++ [d])) st))
    with (LiveRender.screen st).
  destruct (LiveRender.screen st); [done|done|].
  unfold LiveRender.renderLive. rewrite Hl.
  change (LiveRender.renderHeader (setFactChecks (JArr (l ++ [d])) st))
    with (LiveRender.renderHeader st).
  cbn [factChecks transcriptSegments setFactChecks LiveRender.lengthChild].
  intros Hlive.
  apply andb_true_iff in Hlive as [Hlive Hstats].
  apply andb_true_iff in Hlive as [Hlive Hcards].
  apply andb_true_iff in Hlive as [Hlive Hsegs].
  apply andb_true_iff in Hlive as [Hhead _].
  rewrite Hhead, Hsegs.
  assert (Hl' : forallb LiveRender.renderCard l = true).
  { revert Hcards. unfold LiveRender.renderList. simpl.
    case_bool_decide as Hnil; [by subst l|done]. }
  assert (Hlist : LiveRender.renderList LiveRender.renderCard (JArr (l ++ [d]))
                  = LiveRender.renderCard d).
  { unfold LiveRender.renderList. simpl.
    rewrite bool_decide_eq_false_2 by (by destruct l). simpl.
    rewrite forallb_app, Hl'. simpl. by rewrite andb_true_r. }
  rewrite Hlist. simpl.
  destruct (LiveRender.renderCard d) eqn:Hd; [|done].
  assert (Hsome : is_Some (LiveRender.stats (JArr (l ++ [d])))).
  { apply stats_is_Some, Forall_app. split.
    - apply stats_is_Some. by destruct (LiveRender.stats (JArr l)); [eexists|].
    - apply Forall_singleton. by apply renderCard_verdict. }
  by destruct Hsome as [? ->].
Qed.

(** Fact-checks announced one by one are listed in the order of arrival,
    after those already there (the solo view lists newest first); the
    transcript and the video session are not touched.  The view stays
    mounted as long as each of them renders as a card; on the third screen
    one that does not is appended all the same, and the render that
    follows throws. *)
Theorem new_fact_checks_are_listed_in_arrival_order
    (s : N) (messages ds l : list JsVal) (st : State) :
  Forall2 (carries "new_fact_check") messages ds →
  factChecks st = JArr l →
  LiveRender.renders st = true →
  let events := (fun m => SocketMessage s (Some m)) <$> messages in
  (Forall (fun d => LiveRender.renderCard d = true) ds →
     staysMounted st events = true ∧
     ∃ st', steps st events = Some st' ∧
            factChecks st' = JArr (l ++ ds) ∧
            transcriptSegments st' = transcriptSegments st ∧
            videoSession st' = videoSession st) ∧
  (∀ message d,
     carries "new_fact_check" message d →
     LiveRender.screen st = LiveRender.Live →
     LiveRender.renderCard d = false →
     ∃ st1, step st (SocketMessage s (Some message)) = Some st1 ∧
            factChecks st1 = JArr (l ++ [d]) ∧
            LiveRender.renders st1 = false).
Proof.
  intros Hall Hl Hst events. subst events. split.
  - intros Hcards. revert l st Hl Hst Hcards.
    induction Hall as [|message d messages ds Hm _ IH]; intros l st Hl Hst Hcards.
    + split; [done|]. exists st. by rewrite app_nil_r.
    + apply Forall_cons in Hcards as [Hcard Hcards].
      cbn [fmap list_fmap YouTubeLive.steps LiveRender.staysMounted].
      change (YouTubeLive.step BACKEND_URL st (SocketMessage s (Some message)))
        with (handleWebSocketMessage message st).
      rewrite (new_fact_check_appends _ _ _ _ Hm Hl). simpl mbind.
      assert (Hst' : LiveRender.renders (setFactChecks (JArr (l ++ [d])) st) = true).
      { rewrite (renders_append _ _ _ Hl Hst), Hcard. by destruct (LiveRender.screen st). }
      destruct (IH (l ++ [d]) (setFactChecks (JArr (l ++ [d])) st) eq_refl Hst' Hcards)
        as (-> & st' & Hst'' & Hf & Ht & Hv).
      rewrite Hst'. split; [done|].
      exists st'. split; [exact Hst''|]. rewrite Hf, <- app_assoc. done.
  - intros message d Hm Hscreen Hcard.
    change (YouTubeLive.step BACKEND_URL st (SocketMessage s (Some message)))
      with (handleWebSocketMessage message st).
    rewrite (new_fact_check_appends _ _ _ _ Hm Hl).
    eexists. split; [reflexivity|]. split; [done|].
    by rewrite (renders_append _ _ _ Hl Hst), Hscreen.
Qed.

(** A value that [v || []] turns into an array. *)
Definition arrayOrFalsy (v : JsVal) : Prop := truthy v = false ∨ ∃ l, v = JArr l.

(** The payload of a session, as the backend sends it: its [fact_checks] and
    [transcript_segments], when present, are arrays. *)
Definition sessionPayload (data : JsVal) : Prop :=
  ∀ f t, getProp data (lit "fact_checks") = Some f →
         getProp data (lit "transcript_segments") = Some t →
         arrayOrFalsy f ∧ arrayOrFalsy t.

(** The events in which every session payload has arrays for its lists. *)
Definition wellFormed (e : Event) : Prop :=
  match e with
  | SocketMessage _ (Some message) =>
      getProp message (lit "type") = Some (JStr (lit "current_session")) →
      ∀ data, getProp message (lit "data") = Some data → sessionPayload data
  | InitialDataAnswers (Response true (inl data)) => sessionPayload data
  | _ => True
  end.

Definition listsAreArrays (st : State) : Prop :=
  (∃ l, factChecks st = JArr l) ∧ (∃ l, transcriptSegments st = JArr l).

Lemma or_else_array v : arrayOrFalsy v → ∃ l, or_else v (JArr []) = JArr l.
Proof.
  unfold or_else. intros [->|[l ->]]; [by exists []|by exists l].
Qed.

Lemma payload_lists data :
  sessionPayload data → truthy data = true →
  (∃ l, or_else (default JUndefined (getProp data (lit "fact_checks"))) (JArr []) = JArr l) ∧
  (∃ l, or_else (default JUndefined (getProp data (lit "transcript_segments"))) (JArr [])
        = JArr l).
Proof.
  intros Hp Ht.
  destruct (getProp data (lit "fact_checks")) as [f|] eqn:Ef;
    [|by destruct data].
  destruct (getProp data (lit "transcript_segments")) as [t|] eqn:Et;
    [|by destruct data].
  destruct (Hp f t Ef Et). split; by apply or_else_array.
Qed.

Lemma step_keeps_arrays st e :
  wellFormed e → listsAreArrays st →
  ∃ st', step st e = Some st' ∧ listsAreArrays st'.
Proof.
  intros Hwf A. pose proof A as [[lf Hf] [lt Ht]].
  destruct e as [dt|id|s|s [message|]|s|s|o]; simpl.
  - by eexists.
  - destruct (takeTimer id (rt st)) as [[[] rt']|]; [|by eexists].
    eexists. split; [reflexivity|].
    unfold YouTubeLive.connectWebSocket.
    by destruct (newWebSocket _ _) as [[sock|] r'].
  - by eexists.
  - unfold handleWebSocketMessage.
    destruct (getProp message (lit "type")) as [type|] eqn:Etype; [|by eexists].
    unfold strictEq.
    destruct type as [| |b|n|t|l|o]; try by eexists.
    simpl in Hwf.
    case_bool_decide as E1.
    { subst t. specialize (Hwf Etype).
      destruct (getProp message (lit "data")) as [data|] eqn:Edata;
        [|by destruct message].
      simpl. destruct (truthy data) eqn:Etruthy; [|by eexists].
      destruct (payload_lists data (Hwf data eq_refl) Etruthy) as [[l1 E1] [l2 E2]].
      eexists. split; [reflexivity|]. split; simpl; [by exists l1|by exists l2]. }
    case_bool_decide.
    { unfold append. rewrite Hf. simpl. eexists. split; [reflexivity|].
      split; simpl; [by eexists|by exists lt]. }
    case_bool_decide.
    { unfold append. rewrite Ht. simpl. eexists. split; [reflexivity|].
      split; simpl; [by exists lf|by eexists]. }
    case_bool_decide.
    { eexists. split; [reflexivity|]. split; simpl; by eexists. }
    case_bool_decide; by eexists.
  - by eexists.
  - by eexists.
  - by eexists.
  - eexists. split; [reflexivity|]. unfold initialDataResponse.
    destruct o as [m|[] [data|m]]; try done.
    simpl in Hwf.
    destruct (getProp data (lit "session")) as [session|] eqn:Es; [|done].
    destruct (truthy session) eqn:Etruthy; [|done].
    assert (truthy data = true) as Hdata.
    { destruct data; simpl in Es |- *; try done;
        injection Es as <-; discriminate Etruthy. }
    destruct (payload_lists data Hwf Hdata) as [[l1 E1] [l2 E2]].
    split; simpl; [by exists l1|by exists l2].
Qed.

Lemma staysMounted_steps es : ∀ st,
  staysMounted st es = true → is_Some (steps st es).
Proof.
  induction es as [|e es IH]; intros st; simpl; [by eexists|].
  destruct (step st e) as [st1|]; [|done]. simpl.
  intros [_ Hes]%andb_true_iff. by apply IH.
Qed.

(** The lists of the view are arrays at mount.  From a state in which they
    are, an event whose session payload (if it brings one) has arrays for
    its lists, or leaves them out, makes no state updater throw and
    leaves both lists arrays, whatever else it is: a message of unknown
    type, one without fields, a frame that is not JSON, an error.  So over
    the events that reach a mounted view both lists stay arrays, and the
    appends of 'new_fact_check' and 'new_transcript' always find a list to
    spread. *)
Theorem well_formed_payloads_keep_the_lists_arrays (es : list Event) (st : State) :
  LiveRender.renders st = true →
  listsAreArrays st → Forall wellFormed es →
  listsAreArrays (YouTubeLive.mount BACKEND_URL) ∧
  (∀ e, wellFormed e → ∃ st', step st e = Some st' ∧ listsAreArrays st') ∧
  (staysMounted st es = true →
     ∃ st', steps st es = Some st' ∧ listsAreArrays st').
Proof.
  intros _ A Hall. split; [|split].
  { unfold YouTubeLive.mount, fetchInitialData, call, YouTubeLive.connectWebSocket.
    destruct (newWebSocket _ _) as [[sock|] r']; split; by eexists. }
  { intros e He. by apply step_keeps_arrays. }
  intros _. revert st A. induction Hall as [|e es He _ IH]; intros st A.
  - by exists st.
  - destruct (step_keeps_arrays st e He A) as (st1 & Hst1 & A1).
    destruct (IH st1 A1) as (st' & Hst' & A').
    exists st'. split; [|done]. simpl. by rewrite Hst1.
Qed.

(** A session payload is stored without a check of its lists.  On the
    third screen a [fact_checks] that is truthy and no array makes the
    render that follows throw: the footer filters it.  A
    [transcript_segments] that is truthy and not iterable (an object, a
    number, [true]) does not stop that render when its [length] is not
    positive, the panel then shows its placeholder; the next
    'new_transcript' spreads it, and the state updater throws. *)
Theorem a_list_that_is_not_an_array_takes_the_view_down
    (s s' : N) (session data f t : JsVal) (st : State) :
  LiveRender.renders st = true →
  carries "current_session" session data →
  truthy data = true →
  getProp data (lit "fact_checks") = Some f →
  getProp data (lit "transcript_segments") = Some t →
  ∃ st1,
    step st (SocketMessage s (Some session)) = Some st1 ∧
    factChecks st1 = or_else f (JArr []) ∧
    transcriptSegments st1 = or_else t (JArr []) ∧
    LiveRender.screen st1 = LiveRender.Live ∧
    (truthy f = true → (∀ l, f ≠ JArr l) → LiveRender.renders st1 = false) ∧
    (truthy t = true → spread t = None →
       (lengthPositive t = Some false →
          LiveRender.renderList LiveRender.renderSegment (transcriptSegments st1) = true) ∧
       ∀ announcement d,
         carries "new_transcript" announcement d →
         step st1 (SocketMessage s' (Some announcement)) = None).
Proof.
  intros _ (m & -> & Ht & Hd) Hdata Hf Hsegs.
  assert (E1 : handleWebSocketMessage (JObj m) st
               = Some (setLoading false
                         (setTranscriptSegments (or_else t (JArr []))
                            (setFactChecks (or_else f (JArr []))
                               (setVideoSession data st))))).
  { dispatch Ht Hd. by rewrite Hdata, Hf, Hsegs. }
  eexists. split; [exact E1|]. split; [done|]. split; [done|].
  split; [|split].
  - unfold LiveRender.screen. simpl. by rewrite Hdata.
  - intros Hfacts Hno. unfold LiveRender.renders, LiveRender.screen. simpl.
    rewrite Hdata. simpl. unfold LiveRender.renderLive. simpl.
    assert (Hf' : or_else f (JArr []) = f) by (unfold or_else; by rewrite Hfacts).
    rewrite !Hf'.
    assert (Hstats : LiveRender.stats f = None).
    { unfold LiveRender.stats, LiveRender.countVerdict.
      destruct f as [| |?|?|?|l|?]; try done. by destruct (Hno l). }
    rewrite Hstats. by rewrite andb_false_r.
  - intros Htruthy Hspread. unfold or_else at 1. simpl. unfold or_else.
    rewrite Htruthy. split.
    + intros Hlen. unfold LiveRender.renderList. by rewrite Hlen.
    + intros announcement d (m' & -> & Ht' & Hd').
      change (YouTubeLive.step BACKEND_URL ?x (SocketMessage s' (Some (JObj m'))))
        with (handleWebSocketMessage (JObj m') x).
      dispatch Ht' Hd'. unfold append. simpl transcriptSegments. by rewrite Hspread.
Qed.

(** What ends the spinner. *)
Definition bringsSession (e : Event) : Prop :=
  match e with
  | InitialDataAnswers _ => True
  | SocketMessage _ (Some message) =>
      getProp message (lit "type") = Some (JStr (lit "current_session"))
  | _ => False
  end.

Lemma step_loading st e st' :
  step st e = Some st' →
  (loading st = false → loading st' = false) ∧
  (bringsSession e → loading st' = false).
Proof.
  destruct e as [dt|id|s|s [message|]|s|s|o]; simpl; intros Hst.
  - by injection Hst as <-.
  - destruct (takeTimer id (rt st)) as [[[] rt']|]; injection Hst as <-; [|done].
    unfold YouTubeLive.connectWebSocket.
    by destruct (newWebSocket _ _) as [[sock|] r'].
  - by injection Hst as <-.
  - unfold handleWebSocketMessage in Hst.
    destruct (getProp message (lit "type")) as [type|] eqn:Etype;
      [|injection Hst as <-; done].
    unfold strictEq in Hst.
    destruct type as [| |b|n|t|l|o]; try (injection Hst as <-; done).
    case_bool_decide as E1.
    { injection Hst as <-. by destruct (truthy _). }
    assert (Etype' : Some (JStr t) ≠ Some (JStr (lit "current_session")))
      by congruence.
    repeat case_bool_decide;
      try (injection Hst as <-; done);
      unfold append in Hst;
      destruct (spread _); try done; injection Hst as <-; done.
  - by injection Hst as <-.
  - by injection Hst as <-.
  - by injection Hst as <-.
  - injection Hst as <-. done.
Qed.

(** The spinner is shown from the first render until the answer of the
    initial request for the session arrives (whatever the answer) or a
    'current_session' message does, whichever is first; from then on the
    view shows the session or 'No Video Currently Set', and never the
    spinner again. *)
Theorem spinner_ends_with_the_first_session_data (es : list Event) (st st' : State) :
  steps st es = Some st' →
  LiveRender.screen (YouTubeLive.mount BACKEND_URL) = LiveRender.Spinner ∧
  (loading st = false → LiveRender.screen st' ≠ LiveRender.Spinner) ∧
  (Exists bringsSession es → LiveRender.screen st' ≠ LiveRender.Spinner).
Proof.
  intros Hst. split.
  { unfold YouTubeLive.mount, fetchInitialData, call, YouTubeLive.connectWebSocket.
    by destruct (newWebSocket _ _) as [[sock|] r']. }
  assert (L : (loading st = false → loading st' = false) ∧
              (Exists bringsSession es → loading st' = false)).
  { revert st Hst. induction es as [|e es IH]; intros st Hst.
    - injection Hst as <-. split; [done|]. by intros ?%Exists_nil.
    - simpl in Hst. destruct (step st e) as [st1|] eqn:E1; [|done].
      simpl in Hst. destruct (step_loading st e st1 E1) as [Hkeep Hend].
      destruct (IH st1 Hst) as [IHkeep IHend].
      split; [tauto|].
      intros [He|Hes]%Exists_cons; [apply IHkeep, Hend, He|by apply IHend]. }
  destruct L as [Lkeep Lend].
  unfold LiveRender.screen.
  split; intros Hyp; [rewrite (Lkeep Hyp)|rewrite (Lend Hyp)];
    by destruct (negb _).
Qed.

(** After a close event the view shows 'Disconnected'; when the reconnect
    scheduled by it has run and the new socket opens, the view asks the
    backend for the current session again, over the new socket, shows
    'Live' and drops the error text. *)
Theorem reconnection_asks_for_the_session_again (st : State) (s : N) (dt : N) :
  webSocketUrlOk (WS_URL BACKEND_URL ++ lit "/ws/youtube-live") = true →
  3000 ≤ dt →
  let id := nextTimer (rt st) in
  let s' := nextSocket (rt st) in
  (∃ st1, steps st [SocketCloses s] = Some st1 ∧ isConnected st1 = false) ∧
  ∃ st4, steps st [SocketCloses s; Elapse dt; TimerFires id; SocketOpens s'] = Some st4 ∧
         calls (rt st4)
           = calls (rt st)
               ++ [CSetTimeout id CbConnectWebSocket 3000;
                   CNewWebSocket (WS_URL BACKEND_URL ++ lit "/ws/youtube-live");
                   CSend s' (object [(lit "type", JStr (lit "get_current_session"))])] ∧
         wsRef st4 = Some s' ∧ isConnected st4 = true ∧ error st4 = JStr [] ∧
         isOpen s' (rt st4) = true.
Proof.
  intros Hurl Hdt id s'. split; [by eexists|].
  set (st0 := setRt (setReadyState s CLOSED (rt st)) st).
  set (st1 := ws_onclose st0).
  assert (E : takeTimer id (rt (setRt (advance dt (rt st1)) st1))
              = takeTimer (nextTimer (rt st0))
                  (advance dt (snd (setTimeout CbConnectWebSocket 3000 (rt st0)))))
    by reflexivity.
  assert (S : steps st [SocketCloses s; Elapse dt; TimerFires id; SocketOpens s']
              = (st2 ← step (setRt (advance dt (rt st1)) st1) (TimerFires id);
                 st3 ← step st2 (SocketOpens s'); Some st3))
    by reflexivity.
  rewrite S.
  unfold YouTubeLive.step. rewrite E, takeTimer_after_setTimeout.
  rewrite (proj2 (N.leb_le _ _)) by lia. simpl mbind.
  unfold YouTubeLive.connectWebSocket, newWebSocket. simpl rt. rewrite Hurl.
  eexists. split; [reflexivity|].
  simpl. rewrite <- !app_assoc. repeat split; try done.
  unfold isOpen, record, setReadyState. simpl.
  by rewrite lookup_alter_eq, lookup_insert_eq.
Qed.

End LiveStreams.

(** ** The YouTube Live view: the statistics of the footer *)
Section LiveStats.
Context `{Host}.

Import LiveRender.

(** A fact-check whose [verdict] is spelled exactly as in the enum. *)
Definition spelledAsInEnum (fc : JsVal) : Prop :=
  ∃ v, getProp fc (lit "verdict") = Some (JStr v) ∧
       v ∈ [lit "True"; lit "False"; lit "Partially True"; lit "Unverified"].

#[local] Instance spelledAsInEnum_dec fc : Decision (spelledAsInEnum fc).
Proof.
  unfold spelledAsInEnum.
  destruct (getProp fc (lit "verdict")) as [[| |b|n|v|l|o]|];
    try (right; intros (v' & [=] & _); done).
  destruct (decide (v ∈ [lit "True"; lit "False"; lit "Partially True";
                         lit "Unverified"])) as [Hin|Hout].
  - left. by exists v.
  - right. intros (v' & [= <-] & Hin). done.
Defined.

Lemma countVerdict_cons label fc l v :
  getProp fc (lit "verdict") = Some v →
  countVerdict label (JArr (fc :: l))
  = (fun n => if strictEq v label then S n else n) <$> countVerdict label (JArr l).
Proof.
  intros Hv.
  assert (Hfc : verdictIs label fc = Some (strictEq v label))
    by (unfold verdictIs; by rewrite Hv).
  unfold countVerdict. simpl. rewrite Hfc. simpl. destruct (mapM (verdictIs label) l) as [bs|]; [|done].
  simpl. rewrite filter_cons. by destruct (strictEq v label).
Qed.

Ltac differs := let E := fresh in intros E; vm_compute in E; discriminate E.

(** Each fact-check of the list whose [verdict] is spelled exactly 'True',
    'False', 'Partially True' or 'Unverified' is counted in exactly one of
    the four boxes, and every other fact-check in none: the four numbers add
    up to the number of fact-checks spelled as in the enum.  (The icon and
    the colour of a card ignore case; the boxes do not.)  A list with a
    [null] entry cannot be counted. *)
Theorem stats_count_the_exact_spellings (l : list JsVal) :
  (Forall (fun fc => is_Some (getProp fc (lit "verdict"))) l →
   ∃ t f p u, stats (JArr l) = Some (t, f, p, u) ∧
              (t + f + p + u = length (filter spelledAsInEnum l))%nat ∧
              (t + f + p + u ≤ length l)%nat) ∧
  (JNull ∈ l → stats (JArr l) = None).
Proof.
  split.
  - intros Hall.
    assert (∃ t f p u,
              countVerdict (lit "True") (JArr l) = Some t ∧
              countVerdict (lit "False") (JArr l) = Some f ∧
              countVerdict (lit "Partially True") (JArr l) = Some p ∧
              countVerdict (lit "Unverified") (JArr l) = Some u ∧
              (t + f + p + u = length (filter spelledAsInEnum l))%nat) as K.
    { induction Hall as [|fc l [v Hv] _ (t & f & p & u & Ht & Hf & Hp & Hu & Hsum)].
      - by exists 0%nat, 0%nat, 0%nat, 0%nat.
      - rewrite !(countVerdict_cons _ _ _ _ Hv), Ht, Hf, Hp, Hu. simpl.
        rewrite filter_cons.
        destruct (decide (spelledAsInEnum fc)) as [(v' & Hv' & Hin)|Hout].
        + rewrite Hv in Hv'. injection Hv' as ->.
          unfold strictEq.
          repeat (apply elem_of_cons in Hin as [->|Hin]);
            [| | | |by apply elem_of_nil in Hin];
            repeat (first [rewrite bool_decide_eq_true_2 by reflexivity
                          |rewrite bool_decide_eq_false_2 by differs]);
            do 4 eexists; repeat (split; [reflexivity|]); simpl; lia.
        + assert (∀ label,
                    label ∈ [lit "True"; lit "False"; lit "Partially True";
                             lit "Unverified"] →
                    strictEq v label = false) as Hno.
          { intros label Hin. destruct v as [| |b|n|s|l'|o]; try done.
            simpl. apply bool_decide_eq_false_2. intros ->.
            apply Hout. by exists label. }
          rewrite !Hno by set_solver.
          do 4 eexists. repeat (split; [reflexivity|]). done. }
    destruct K as (t & f & p & u & Ht & Hf & Hp & Hu & Hsum).
    exists t, f, p, u. unfold stats. rewrite Ht, Hf, Hp, Hu. simpl.
    split; [done|]. split; [done|]. rewrite Hsum. apply length_filter.
  - intros Hin. unfold stats.
    assert (countVerdict (lit "True") (JArr l) = None) as ->; [|done].
    unfold countVerdict.
    assert (mapM (verdictIs (lit "True")) l = None) as ->; [|done].
    induction l as [|fc l IH]; [by apply elem_of_nil in Hin|].
    apply elem_of_cons in Hin as [<-|Hin]; [done|].
    simpl. rewrite (IH Hin). by destruct (verdictIs _ fc).
Qed.

End LiveStats.

(** ** The admin panel: processing, the message box, the forms *)
Module AdminActions.

Section Actions.
Context `{Host}.
Context (BACKEND_URL : jsstring) (REACT_APP_ADMIN_KEY : option jsstring).

Import AdminPanel.

Abbreviation API_URL := (AdminPanel.API_URL BACKEND_URL).

(** *** Start and stop (lines 89-138) *)

(** [handleStartProcessing] up to [await fetch]. *)
Definition handleStartProcessing (st : State) : State :=
  if negb (truthy (currentSession st)) then
    setMessage (lit "No video session available") st
  else
    let st1 := setMessage [] (setIsProcessing true st) in
    setCalls (calls st1 ++ [CFetch (API_URL ++ lit "/youtube/start-processing") (lit "POST")
                              (object [(lit "video_id",
                                        prop (currentSession st) "video_id")])]) st1.

(** The message when the answer is no success; a TypeError of the
    template literal is caught like one of the property read. *)
Definition refused (what : jsstring) (data : JsVal) (st : State) : State :=
  match getProp data (lit "error") with
  | Some e =>
      match toString (or_else e (JStr (lit "Unknown error"))) with
      | Some text => setMessage (errorMark ++ what ++ text) st
      | None => networkError conversionErrorMessage st
      end
  | None => networkError (typeErrorMessage (lit "error")) st
  end.

(** [handleStartProcessing] from the answer on (lines 109-118): there is no
    [finally], and [isProcessing] is not set again. *)
Definition startProcessingResponse (o : FetchOutcome) (st : State) : State :=
  match o with
  | FetchRejected m => networkError m st
  | Response _ (inr m) => networkError m st
  | Response false (inl data) => refused (lit " Error starting processing: ") data st
  | Response true (inl data) =>
      match getProp data (lit "success") with
      | None => networkError (typeErrorMessage (lit "success")) st
      | Some success =>
          if truthy success then
            setMessage (okMark ++ lit " Processing started successfully") st
          else refused (lit " Error starting processing: ") data st
      end
  end.

(** [handleStopProcessing] up to [await fetch]: a POST without a body. *)
Definition handleStopProcessing (st : State) : State :=
  setCalls (calls st ++ [CFetch (API_URL ++ lit "/youtube/stop-processing") (lit "POST")
                           JUndefined]) st.

(** U+23F9 U+FE0F. *)
Definition stopMark : jsstring := [9209; 65039].

Definition stopProcessingResponse (o : FetchOutcome) (st : State) : State :=
  match o with
  | FetchRejected m => networkError m st
  | Response _ (inr m) => networkError m st
  | Response false (inl data) => refused (lit " Error stopping processing: ") data st
  | Response true (inl data) =>
      match getProp data (lit "success") with
      | None => networkError (typeErrorMessage (lit "success")) st
      | Some success =>
          if truthy success then
            setIsProcessing false (setMessage (stopMark ++ lit " Processing stopped") st)
          else refused (lit " Error stopping processing: ") data st
      end
  end.

(** *** The message box (lines 313-323) *)

(** The classes of the box; [None] when the message is empty and the box
    is not rendered. *)
Definition messageClass (message : jsstring) : option jsstring :=
  if bool_decide (message = []) then None
  else if includes message okMark then
    Some (lit "bg-green-500/20 border-green-500/30 text-green-300")
  else if includes message errorMark then
    Some (lit "bg-red-500/20 border-red-500/30 text-red-300")
  else Some (lit "bg-blue-500/20 border-blue-500/30 text-blue-300").

(** *** What the panel shows of the session (lines 209-236) *)

(** [currentSession && (...)]: the title and the video id are children,
    [new Date(currentSession.created_at)] converts its argument to a
    primitive; [is_live] is only tested. *)
Definition renderSession (session : JsVal) : bool :=
  if truthy session then
    validChild (prop session "title") && validChild (prop session "video_id")
    && convertible (prop session "created_at")
  else true.

(** Whether the render of the panel returns: the login form shows the
    message and the key, which are strings; the panel shows the session.
    The panel sits under no error boundary: when its render throws, React
    unmounts it. *)
Definition renders (st : State) : bool :=
  if isAuthenticated st then renderSession (currentSession st) else true.

(** *** The life of the panel *)

Definition mount : State := fetchCurrentSession BACKEND_URL initial.

(** What the administrator and the backend can do.  The login form is
    rendered while [isAuthenticated] is false and the panel afterwards
    (line 140); both text inputs are [required], so that an empty one
    keeps its form from being submitted (lines 162, 284; the syntax check
    of the [type="url"] input is the browser's and is not modelled: a
    submission is taken as it comes); the Start and Stop buttons are
    rendered with the current session (line 209), Start disabled by
    [isProcessing] and Stop by its negation (lines 243, 255); the submit
    button of the video form is disabled by [isLoading] (line 293).  The
    events are those of a panel that is mounted: it stays so while
    [renders] holds of its state. *)
Inductive Event :=
| TypeAdminKey (key : jsstring)
| SubmitLogin
| TypeVideoUrl (target : jsstring)
| SubmitSetVideo
| ClickStart
| ClickStop
| CurrentSessionAnswers (o : FetchOutcome)
| SetVideoAnswers (o : FetchOutcome) (isoNow : jsstring)
| StartAnswers (o : FetchOutcome)
| StopAnswers (o : FetchOutcome).

Definition step (st : State) (e : Event) : State :=
  match e with
  | TypeAdminKey key =>
      if isAuthenticated st then st else setAdminKey key st
  | SubmitLogin =>
      if isAuthenticated st || bool_decide (adminKey st = []) then st
      else handleAuth REACT_APP_ADMIN_KEY st
  | TypeVideoUrl target =>
      if isAuthenticated st then setVideoUrl target st else st
  | SubmitSetVideo =>
      if isAuthenticated st && negb (bool_decide (videoUrl st = []))
         && negb (isLoading st)
      then handleSetVideo BACKEND_URL st else st
  | ClickStart =>
      if isAuthenticated st && truthy (currentSession st) && negb (isProcessing st)
      then handleStartProcessing st else st
  | ClickStop =>
      if isAuthenticated st && truthy (currentSession st) && isProcessing st
      then handleStopProcessing st else st
  | CurrentSessionAnswers o => currentSessionResponse o st
  | SetVideoAnswers o isoNow => setVideoResponse o isoNow st
  | StartAnswers o => startProcessingResponse o st
  | StopAnswers o => stopProcessingResponse o st
  end.

Definition steps (st : State) (es : list Event) : State := foldl step st es.

Definition run (es : list Event) : State := steps mount es.

End Actions.

End AdminActions.

(** ** Properties of the admin panel beyond login and set-video errors *)
Section AdminFlows.
Context `{Host}.
Context (BACKEND_URL : jsstring) (REACT_APP_ADMIN_KEY : option jsstring).

Import AdminPanel AdminActions.

Abbreviation API_URL := (AdminPanel.API_URL BACKEND_URL).
Abbreviation step := (AdminActions.step BACKEND_URL REACT_APP_ADMIN_KEY).
Abbreviation steps := (AdminActions.steps BACKEND_URL REACT_APP_ADMIN_KEY).
Abbreviation run := (AdminActions.run BACKEND_URL REACT_APP_ADMIN_KEY).

(** What no answer of the backend touches. *)
Definition sameAccess (st st' : State) : Prop :=
  isAuthenticated st' = isAuthenticated st /\ adminKey st' = adminKey st
  /\ calls st' = calls st.

Lemma refused_access what data st : sameAccess st (refused what data st).
Proof. unfold refused. by repeat case_match. Qed.

Lemma answers_keep_access st e :
  match e with
  | CurrentSessionAnswers _ | SetVideoAnswers _ _ | StartAnswers _ | StopAnswers _ => True
  | _ => False
  end ->
  sameAccess st (step st e).
Proof.
  destruct e as [key| |target| | | |o|o isoNow|o|o]; try done; intros _; simpl.
  - unfold currentSessionResponse. by repeat case_match.
  - unfold setVideoResponse, setVideoFailed. by repeat case_match.
  - unfold startProcessingResponse.
    repeat case_match; try done; apply refused_access.
  - unfold stopProcessingResponse.
    repeat case_match; try done; apply refused_access.
Qed.

(** The key field holds nothing that opens the panel. *)
Definition wrongKey (key : jsstring) : Prop :=
  key <> lit "admin123" /\ Some key <> REACT_APP_ADMIN_KEY.

Definition outside (st : State) : Prop :=
  isAuthenticated st = false
  /\ calls st = [CFetch (API_URL ++ lit "/youtube/current-session") (lit "GET") JUndefined]
  /\ (adminKey st = [] \/ wrongKey (adminKey st)).

Lemma step_outside st e :
  outside st ->
  (forall key, e = TypeAdminKey key -> wrongKey key) ->
  outside (step st e).
Proof.
  intros (Ha & Hc & Hk) He.
  destruct e as [key| |target| | | |o|o isoNow|o|o].
  - simpl. rewrite Ha. split; [done|]. split; [done|]. right. by apply He.
  - simpl. rewrite Ha. simpl. case_bool_decide as Hempty; [done|].
    destruct Hk as [?|[Hk1 Hk2]]; [done|].
    unfold handleAuth.
    rewrite (bool_decide_eq_false_2 _ Hk1), (bool_decide_eq_false_2 _ Hk2).
    split; [done|]. split; [done|]. by right.
  - simpl. by rewrite Ha.
  - simpl. by rewrite Ha.
  - simpl. by rewrite Ha.
  - simpl. by rewrite Ha.
  - destruct (answers_keep_access st (CurrentSessionAnswers o) I) as (Ha' & Hk' & Hc').
    unfold outside. by rewrite Ha', Hk', Hc'.
  - destruct (answers_keep_access st (SetVideoAnswers o isoNow) I) as (Ha' & Hk' & Hc').
    unfold outside. by rewrite Ha', Hk', Hc'.
  - destruct (answers_keep_access st (StartAnswers o) I) as (Ha' & Hk' & Hc').
    unfold outside. by rewrite Ha', Hk', Hc'.
  - destruct (answers_keep_access st (StopAnswers o) I) as (Ha' & Hk' & Hc').
    unfold outside. by rewrite Ha', Hk', Hc'.
Qed.

Lemma steps_outside es : forall st,
  outside st ->
  (forall key, In (TypeAdminKey key) es -> wrongKey key) ->
  outside (steps st es).
Proof.
  induction es as [|e es IH]; intros st Hst Hes; [done|].
  apply IH.
  - apply step_outside; [done|]. intros key ->. apply Hes. by left.
  - intros key Hin. apply Hes. by right.
Qed.

(** As long as none of the keys typed into the login form is
    ['admin123'] or the configured key, the panel stays on the login form
    and the only request it has sent is the GET of the current session made
    at mount: no video is set, nothing is started or stopped. *)
Theorem without_a_right_key_nothing_is_asked_of_the_backend (es : list Event) :
  (forall key, In (TypeAdminKey key) es ->
     key <> lit "admin123" /\ Some key <> REACT_APP_ADMIN_KEY) ->
  isAuthenticated (run es) = false
  /\ calls (run es)
     = [CFetch (API_URL ++ lit "/youtube/current-session") (lit "GET") JUndefined].
Proof.
  intros Hes.
  destruct (steps_outside es (mount BACKEND_URL)) as (Ha & Hc & _); [|done|done].
  split; [done|]. split; [done|]. by left.
Qed.

Lemma step_stays_in st e :
  isAuthenticated st = true ->
  isAuthenticated (step st e) = true /\ adminKey (step st e) = adminKey st.
Proof.
  intros Ha.
  destruct e as [key| |target| | | |o|o isoNow|o|o].
  - simpl. by rewrite Ha.
  - simpl. by rewrite Ha.
  - simpl. by rewrite Ha.
  - simpl. rewrite Ha. case_match; [|done]. unfold handleSetVideo. by case_match.
  - simpl. rewrite Ha. case_match; [|done]. unfold handleStartProcessing. by case_match.
  - simpl. rewrite Ha. by case_match.
  - destruct (answers_keep_access st (CurrentSessionAnswers o) I) as (Ha' & Hk' & _).
    by rewrite Ha', Hk'.
  - destruct (answers_keep_access st (SetVideoAnswers o isoNow) I) as (Ha' & Hk' & _).
    by rewrite Ha', Hk'.
  - destruct (answers_keep_access st (StartAnswers o) I) as (Ha' & Hk' & _).
    by rewrite Ha', Hk'.
  - destruct (answers_keep_access st (StopAnswers o) I) as (Ha' & Hk' & _).
    by rewrite Ha', Hk'.
Qed.

(** The panel has no logout: once authenticated it stays so whatever
    is clicked, typed or answered, and the key that opened it stays in the
    state. *)
Theorem the_panel_never_logs_out (es : list Event) : forall st : State,
  isAuthenticated st = true ->
  isAuthenticated (steps st es) = true /\ adminKey (steps st es) = adminKey st.
Proof.
  induction es as [|e es IH]; intros st Ha; [done|].
  destruct (step_stays_in st e Ha) as [Ha' Hk].
  destruct (IH _ Ha') as [? Hk']. split; [done|].
  by etrans.
Qed.

(** *** Processing *)

Lemma refused_isProcessing what data st :
  isProcessing (refused what data st) = isProcessing st.
Proof. unfold refused. by repeat case_match. Qed.

Lemma startProcessingResponse_isProcessing o st :
  isProcessing (startProcessingResponse o st) = isProcessing st.
Proof.
  unfold startProcessingResponse.
  repeat case_match; try done; apply refused_isProcessing.
Qed.

(** A click on an enabled Start button disables it for good as far as
    the start request is concerned: whatever the answer (a success, a
    refusal, an unreadable body, no answer at all because the network
    failed), [isProcessing] is still true afterwards, so that Start stays
    disabled and a further click on it does nothing. *)
Theorem start_stays_disabled_whatever_the_answer (st : State) (o : FetchOutcome) :
  isAuthenticated st = true ->
  truthy (currentSession st) = true ->
  isProcessing st = false ->
  let st' := steps st [ClickStart; StartAnswers o] in
  isProcessing st' = true
  /\ calls st' = calls st ++ [CFetch (API_URL ++ lit "/youtube/start-processing")
                                (lit "POST")
                                (object [(lit "video_id",
                                          prop (currentSession st) "video_id")])]
  /\ step st' ClickStart = st'.
Proof.
  intros Ha Hs Hp.
  assert (Hclick : step st ClickStart = handleStartProcessing BACKEND_URL st).
  { simpl. by rewrite Ha, Hs, Hp. }
  assert (Hstart : isProcessing (handleStartProcessing BACKEND_URL st) = true
                   /\ calls (handleStartProcessing BACKEND_URL st)
                      = calls st ++ [CFetch (API_URL ++ lit "/youtube/start-processing")
                                       (lit "POST")
                                       (object [(lit "video_id",
                                                 prop (currentSession st) "video_id")])]).
  { unfold handleStartProcessing. by rewrite Hs. }
  destruct Hstart as [Hp' Hc'].
  unfold AdminActions.steps. cbn [foldl]. rewrite Hclick.
  assert (Hp'' : isProcessing (step (handleStartProcessing BACKEND_URL st) (StartAnswers o))
                 = true).
  { simpl. by rewrite startProcessingResponse_isProcessing. }
  split; [done|]. split.
  - destruct (answers_keep_access (handleStartProcessing BACKEND_URL st) (StartAnswers o) I)
      as (_ & _ & ->). done.
  - cbn [AdminActions.step] in *. rewrite Hp''.
    by rewrite !andb_false_r.
Qed.

(** [isProcessing] falls back to false in one way only: an answer to
    the stop request with [ok] and a truthy [success].  No click, no answer
    to a start or set-video request, and no failure does it. *)
Theorem only_a_successful_stop_ends_processing (st : State) (e : Event) :
  isProcessing st = true ->
  isProcessing (step st e) = false ->
  exists data success,
    e = StopAnswers (Response true (inl data))
    /\ getProp data (lit "success") = Some success
    /\ truthy success = true.
Proof.
  intros Hp Hp'.
  destruct e as [key| |target| | | |o|o isoNow|o|o]; [exfalso..|].
  - simpl in Hp'. destruct (isAuthenticated st); simpl in Hp'; congruence.
  - simpl in Hp'. revert Hp'. unfold handleAuth. repeat case_match; simpl; congruence.
  - simpl in Hp'. destruct (isAuthenticated st); simpl in Hp'; congruence.
  - simpl in Hp'. revert Hp'. unfold handleSetVideo. repeat case_match; simpl; congruence.
  - simpl in Hp'. revert Hp'. unfold handleStartProcessing.
    repeat case_match; simpl; congruence.
  - simpl in Hp'. revert Hp'. repeat case_match; simpl; congruence.
  - simpl in Hp'. revert Hp'. unfold currentSessionResponse.
    repeat case_match; simpl; congruence.
  - simpl in Hp'. revert Hp'. unfold setVideoResponse, setVideoFailed.
    repeat case_match; simpl; congruence.
  - simpl in Hp'. rewrite startProcessingResponse_isProcessing in Hp'. congruence.
  - simpl in Hp'. unfold stopProcessingResponse in Hp'.
    destruct o as [m|ok [data|m]]; [simpl in Hp'; congruence| |destruct ok; simpl in Hp'; congruence].
    destruct ok; [|rewrite refused_isProcessing in Hp'; congruence].
    destruct (getProp data (lit "success")) as [success|] eqn:Hsuccess;
      [|simpl in Hp'; congruence].
    destruct (truthy success) eqn:Ht; [|rewrite refused_isProcessing in Hp'; congruence].
    by exists data, success.
Qed.

(** *** From set-video to start *)

Lemma session_video_id (a b c d e : JsVal) :
  prop (object [(lit "video_id", a); (lit "title", b); (lit "duration", c);
                (lit "is_live", d); (lit "created_at", e)]) "video_id" = a.
Proof.
  unfold prop, object, getProp.
  change (list_to_map _) with
    (<[lit "video_id" := a]>
       (list_to_map [(lit "title", b); (lit "duration", c);
                     (lit "is_live", d); (lit "created_at", e)] : gmap jsstring JsVal)).
  by rewrite lookup_insert_eq.
Qed.

(** A value that React takes as a child holds no object, so it can be
    converted. *)
Lemma validChild_convertible : forall v : JsVal,
  validChild v = true -> convertible v = true.
Proof.
  fix IH 1. intros [| |b|n|t|l|m]; simpl; try done.
  induction l as [|x l IHl]; simpl; [done|].
  intros [Hx Hl]%andb_true_iff. rewrite (IH x Hx). simpl. by apply IHl.
Qed.

(** After a set-video request has been answered with a success whose
    [title] and [video_id] can be shown, the panel renders the new session
    and a click on Start asks the backend to process the [video_id] of that
    answer: the session object built by the panel carries it over.  With a
    [title] that cannot be converted to a string the template of line 70
    throws before the session is replaced: the answer is reported as a
    network error and the session is the one before.  With a [title] that
    can be converted but not shown (an object), the session is replaced and
    the render that follows throws. *)
Theorem start_names_the_video_that_was_just_set
    (st : State) (data success : JsVal) (isoNow : jsstring) :
  renders st = true ->
  isAuthenticated st = true ->
  isProcessing st = false ->
  getProp data (lit "success") = Some success ->
  truthy success = true ->
  let st1 := step st (SetVideoAnswers (Response true (inl data)) isoNow) in
  (validChild (prop data "title") = true ->
   validChild (prop data "video_id") = true ->
     renders st1 = true /\
     calls (step st1 ClickStart)
     = calls st ++ [CFetch (API_URL ++ lit "/youtube/start-processing") (lit "POST")
                      (object [(lit "video_id", prop data "video_id")])]) /\
  (toString (prop data "title") = None ->
     currentSession st1 = currentSession st /\
     message st1 = errorMark ++ lit " Network error: " ++ conversionErrorMessage) /\
  (convertible (prop data "title") = true ->
   validChild (prop data "title") = false ->
     renders st1 = false).
Proof.
  intros _ Ha Hp Hsuccess Ht st1.
  assert (Hset : convertible (prop data "title") = true ->
            isAuthenticated st1 = true /\ isProcessing st1 = false
            /\ calls st1 = calls st
            /\ currentSession st1
               = object [(lit "video_id", prop data "video_id");
                         (lit "title", prop data "title");
                         (lit "duration", prop data "duration");
                         (lit "is_live", prop data "is_live");
                         (lit "created_at", JStr isoNow)]).
  { intros Hc. subst st1. simpl. unfold setVideoResponse, toString.
    by rewrite Hsuccess, Ht, Hc. }
  assert (Hfields : forall a b c d e : JsVal,
            prop (object [(lit "video_id", a); (lit "title", b); (lit "duration", c);
                          (lit "is_live", d); (lit "created_at", e)]) "title" = b
            /\ prop (object [(lit "video_id", a); (lit "title", b); (lit "duration", c);
                             (lit "is_live", d); (lit "created_at", e)]) "created_at" = e).
  { intros a b c d e. split; by vm_compute. }
  split; [|split].
  - intros Htitle Hid.
    destruct (Hset (validChild_convertible _ Htitle)) as (Ha1 & Hp1 & Hc1 & Hs1).
    split.
    + unfold renders, renderSession. rewrite Ha1, Hs1. simpl truthy. cbn iota.
      rewrite session_video_id.
      destruct (Hfields (prop data "video_id") (prop data "title") (prop data "duration")
                  (prop data "is_live") (JStr isoNow)) as [-> ->].
      by rewrite Htitle, Hid.
    + cbn [AdminActions.step]. rewrite Ha1, Hp1, Hs1. simpl truthy. cbn [andb negb].
      unfold handleStartProcessing. rewrite Hs1. simpl truthy. cbn [negb].
      rewrite session_video_id.
      unfold setCalls, setMessage, setIsProcessing. cbn [calls]. by rewrite Hc1.
  - intros Hnone. subst st1. simpl. unfold setVideoResponse.
    by rewrite Hsuccess, Ht, Hnone.
  - intros Hc Hchild. destruct (Hset Hc) as (Ha1 & _ & _ & Hs1).
    unfold renders, renderSession. rewrite Ha1, Hs1. simpl truthy. cbn iota.
    destruct (Hfields (prop data "video_id") (prop data "title") (prop data "duration")
                (prop data "is_live") (JStr isoNow)) as [-> _].
    by rewrite Hchild.
Qed.

(** *** The message box *)

Abbreviation green := (lit "bg-green-500/20 border-green-500/30 text-green-300").
Abbreviation red := (lit "bg-red-500/20 border-red-500/30 text-red-300").

Lemma includes_unit_app (a b : jsstring) (u : N) :
  includes (a ++ b) [u] = includes a [u] || includes b [u].
Proof.
  induction a as [|c a IH].
  - by destruct b.
  - cbn [app includes isPrefix]. rewrite IH.
    by destruct (u =? c)%N.
Qed.

Lemma error_box (text : string) (m : jsstring) :
  includes (lit text) okMark = false ->
  messageClass (errorMark ++ lit text ++ m)
  = Some (if includes m okMark then green else red).
Proof.
  intros Htext. unfold messageClass.
  rewrite bool_decide_eq_false_2 by done.
  unfold okMark in *. rewrite !includes_unit_app, Htext.
  change (includes errorMark [9989%N]) with false. cbn [orb].
  destruct (includes m [9989%N]); [done|].
  unfold errorMark. by rewrite includes_unit_app.
Qed.

(** The message box picks its colour by looking for the marks in the
    whole message, the ok mark first.  So when a request fails in the
    network the box is red, unless the text of the error itself contains
    U+2705: then the failure is shown in green.  This holds for the three
    requests alike. *)
Theorem a_network_error_is_red_unless_its_text_has_the_ok_mark
    (m isoNow : jsstring) (st : State) :
  let colour := Some (if includes m okMark then green else red) in
  messageClass (message (setVideoResponse (FetchRejected m) isoNow st)) = colour
  /\ messageClass (message (startProcessingResponse (FetchRejected m) st)) = colour
  /\ messageClass (message (stopProcessingResponse (FetchRejected m) st)) = colour.
Proof.
  intros colour.
  assert (Hbox : messageClass (errorMark ++ lit " Network error: " ++ m) = colour)
    by (by apply error_box; vm_compute).
  split; [|split]; exact Hbox.
Qed.

(** *** Set-video requests in flight *)

Definition isSetVideoRequest (c : Call Empty_set) : bool :=
  match c with
  | CFetch target _ _ => bool_decide (target = API_URL ++ lit "/youtube/set-video")
  | _ => false
  end.

Definition setVideoRequests (st : State) : nat :=
  length (List.filter isSetVideoRequest (calls st)).

Definition setVideoAnswers (es : list Event) : nat :=
  length (List.filter (fun e => match e with SetVideoAnswers _ _ => true | _ => false end)
            es).

(** What is left of the one request the form allows at a time. *)
Definition allowance (st : State) : nat := if isLoading st then 0 else 1.

Lemma refused_isLoading what data st :
  isLoading (refused what data st) = isLoading st.
Proof. unfold refused. by repeat case_match. Qed.

Lemma other_request (path : string) (method : jsstring) (body : JsVal) (l : list (Call Empty_set)) :
  lit path <> lit "/youtube/set-video" ->
  length (List.filter isSetVideoRequest (l ++ [CFetch (API_URL ++ lit path) method body]))
  = length (List.filter isSetVideoRequest l).
Proof.
  intros Hpath. rewrite List.filter_app, length_app. simpl.
  rewrite bool_decide_eq_false_2; [simpl; lia|].
  intros Heq. by apply app_inv_head in Heq.
Qed.

Lemma allowance_same st st' n :
  calls st' = calls st -> isLoading st' = isLoading st ->
  (setVideoRequests st' + allowance st' <= setVideoRequests st + allowance st + n)%nat.
Proof. unfold setVideoRequests, allowance. intros -> ->. lia. Qed.

Lemma step_allowance st e :
  (setVideoRequests (step st e) + allowance (step st e)
   <= setVideoRequests st + allowance st + setVideoAnswers [e])%nat.
Proof.
  destruct e as [key| |target| | | |o|o isoNow|o|o]; cbn [AdminActions.step].
  - by case_match; apply allowance_same.
  - case_match; apply allowance_same; try done; unfold handleAuth; by case_match.
  - by case_match; apply allowance_same.
  - destruct (isAuthenticated st && negb (bool_decide (videoUrl st = [])));
      [|by apply allowance_same].
    destruct (isLoading st) eqn:Hl; [by apply allowance_same|].
    cbn [andb negb]. unfold handleSetVideo.
    case_match; [by apply allowance_same|].
    unfold setVideoRequests, allowance. rewrite Hl. simpl.
    rewrite List.filter_app, length_app. simpl.
    rewrite bool_decide_eq_true_2 by done. simpl. lia.
  - case_match; [|by apply allowance_same]. unfold handleStartProcessing.
    case_match; [by apply allowance_same|].
    unfold setVideoRequests, allowance. simpl.
    rewrite (other_request "/youtube/start-processing"); [lia|by vm_compute].
  - case_match; [|by apply allowance_same].
    unfold setVideoRequests, allowance. simpl.
    rewrite (other_request "/youtube/stop-processing"); [lia|by vm_compute].
  - apply allowance_same; unfold currentSessionResponse; by repeat case_match.
  - destruct (answers_keep_access st (SetVideoAnswers o isoNow) I) as (_ & _ & Hc).
    cbn [AdminActions.step] in Hc. unfold setVideoRequests, allowance. rewrite Hc.
    unfold setVideoAnswers. simpl. case_match; lia.
  - destruct (answers_keep_access st (StartAnswers o) I) as (_ & _ & Hc).
    apply allowance_same; [done|].
    unfold startProcessingResponse.
    repeat case_match; try done; apply refused_isLoading.
  - destruct (answers_keep_access st (StopAnswers o) I) as (_ & _ & Hc).
    apply allowance_same; [done|].
    unfold stopProcessingResponse.
    repeat case_match; try done; apply refused_isLoading.
Qed.

Lemma steps_allowance es : forall st,
  (setVideoRequests (steps st es) + allowance (steps st es)
   <= setVideoRequests st + allowance st + setVideoAnswers es)%nat.
Proof.
  induction es as [|e es IH]; intros st; [simpl; unfold setVideoAnswers; simpl; lia|].
  change (steps st (e :: es)) with (steps (step st e) es).
  specialize (IH (step st e)). pose proof (step_allowance st e) as He.
  assert (Hsplit : setVideoAnswers (e :: es) = (setVideoAnswers [e] + setVideoAnswers es)%nat).
  { unfold setVideoAnswers. change (e :: es) with ([e] ++ es).
    by rewrite List.filter_app, length_app. }
  lia.
Qed.

(** The video form has at most one request in flight.  Over any
    course of events the set-video requests sent never exceed the answers
    received by more than one, and while the form is not loading they do
    not exceed them at all: the submit button is disabled from the click
    until the answer, and every answer, good or bad, enables it again. *)
Theorem at_most_one_set_video_request_is_in_flight (es : list Event) :
  (setVideoRequests (run es)
   <= setVideoAnswers es + (if isLoading (run es) then 1 else 0))%nat.
Proof.
  pose proof (steps_allowance es (mount BACKEND_URL)) as Hrun.
  assert (Hmount : setVideoRequests (mount BACKEND_URL) = 0%nat).
  { unfold setVideoRequests, mount, fetchCurrentSession. simpl.
    rewrite bool_decide_eq_false_2; [done|].
    intros Heq. apply app_inv_head in Heq. by vm_compute in Heq. }
  rewrite Hmount in Hrun. unfold allowance in Hrun. simpl in Hrun.
  unfold AdminActions.run in *.
  destruct (isLoading _); lia.
Qed.

End AdminFlows.

(** ** Concrete runs of the further properties *)

(** A result event whose [resultIndex] is past its only result. *)
Definition sampleStaleResult : TruthSeeker.ResultEvent :=
  {| TruthSeeker.resultIndex := 1;
     TruthSeeker.results := [(lit "hello", true)] |}.

Lemma onresult_reads_results_from_resultIndex_witness :
  (length (TruthSeeker.results sampleStaleResult)
   ≤ TruthSeeker.resultIndex sampleStaleResult)%nat ∧
  TruthSeeker.onresult sampleStaleResult sampleSolo
  = TruthSeeker.setCurrentSentence [] sampleSolo.
Proof.
  assert (Hlen : (length (TruthSeeker.results sampleStaleResult)
                  ≤ TruthSeeker.resultIndex sampleStaleResult)%nat) by apply le_n.
  split; [exact Hlen|].
  exact (proj2 (proj2 (onresult_reads_results_from_resultIndex
                         sampleStaleResult sampleSolo)) Hlen).
Defined.

Lemma long_result_is_sent_once_after_1000ms_witness :
  (10 < length (trim (TruthSeeker.finalTranscript sampleLongResult)))%nat ∧
  TruthSeeker.isProcessing
    (TruthSeeker.steps sampleBackend sampleSession true sampleSolo
       [TruthSeeker.RecognitionResult 1 sampleLongResult; TruthSeeker.Elapse 1000;
        TruthSeeker.TimerFires (nextTimer (TruthSeeker.rt sampleSolo))])
  = negb (socketOpen sampleSolo).
Proof.
  assert (Hlong : (10 < length (trim (TruthSeeker.finalTranscript sampleLongResult)))%nat)
    by (vm_compute; lia).
  split; [exact Hlong|].
  destruct (long_result_is_sent_once_after_1000ms sampleBackend sampleSession true
              1 sampleLongResult sampleSolo Hlong) as [_ Hfire].
  exact (proj1 (proj2 (Hfire 1000 (N.le_refl 1000)))).
Defined.

(** A fact-check result as the socket delivers it. *)
Definition sampleResultMessage : JsVal (H := SampleHost.host) :=
  object [(lit "type", JStr (lit "fact_check_result"));
          (lit "data", sampleBareResult)].

Lemma socket_results_are_listed_newest_first_witness :
  (Forall2 carriesResult [sampleResultMessage] [sampleBareResult] ∧
   TruthSeeker.renders sampleSolo = true ∧
   Forall (fun d => is_Some (TruthSeeker.renderCard d)) [sampleBareResult]) ∧
  TruthSeeker.staysMounted sampleBackend sampleSession true sampleSolo
    ((fun m => TruthSeeker.SocketMessage 1 (Some m)) <$> [sampleResultMessage]) = true ∧
  TruthSeeker.factChecks
    (TruthSeeker.steps sampleBackend sampleSession true sampleSolo
       ((fun m => TruthSeeker.SocketMessage 1 (Some m)) <$> [sampleResultMessage]))
  = reverse [sampleBareResult] ++ TruthSeeker.factChecks sampleSolo.
Proof.
  assert (Hcarries : Forall2 carriesResult [sampleResultMessage] [sampleBareResult]).
  { constructor; [|constructor].
    eexists. split; [reflexivity|]. split; reflexivity. }
  assert (Hcards : Forall (fun d => is_Some (TruthSeeker.renderCard d)) [sampleBareResult]).
  { apply Forall_cons. split; [|apply Forall_nil_2]. vm_compute. eexists. reflexivity. }
  split; [split; [exact Hcarries|split; [reflexivity|exact Hcards]]|].
  exact (proj1 (socket_results_are_listed_newest_first sampleBackend sampleSession true
                  1 _ _ sampleSolo Hcarries eq_refl) Hcards).
Defined.

Lemma without_speech_recognition_the_view_never_listens_witness :
  false = false ∧
  TruthSeeker.isListening
    (TruthSeeker.run (H := SampleHost.host) sampleBackend sampleSession false
       [TruthSeeker.ClickMicrophone]) = false.
Proof.
  split; [reflexivity|].
  exact (proj1 (proj2 (without_speech_recognition_the_view_never_listens
                         (H := SampleHost.host) sampleBackend sampleSession false
                         [TruthSeeker.ClickMicrophone] eq_refl))).
Defined.

Lemma WS_URL_turns_http_schemes_into_ws_witness :
  includes (lit "api.example.com") (lit "http://") = false ∧
  TruthSeeker.WS_URL (lit "https://" ++ lit "api.example.com")
  = lit "wss://" ++ lit "api.example.com".
Proof.
  assert (Hplain : includes (lit "api.example.com") (lit "http://") = false)
    by reflexivity.
  split; [exact Hplain|].
  destruct (WS_URL_turns_http_schemes_into_ws (lit "api.example.com"))
    as (_ & _ & Hsecure & _).
  exact (Hsecure Hplain).
Defined.

Lemma solo_unmount_keeps_timers_and_reconnects_witness :
  TruthSeeker.wsRef sampleListening = Some 1 ∧
  timers (TruthSeeker.rt (TruthSeeker.unmount true sampleListening))
  = timers (TruthSeeker.rt sampleListening).
Proof.
  assert (Hws : TruthSeeker.wsRef sampleListening = Some 1) by reflexivity.
  split; [exact Hws|].
  exact (proj1 (proj2 (solo_unmount_keeps_timers_and_reconnects sampleBackend
                         sampleSession true sampleListening 1 Hws))).
Defined.

Lemma live_unmount_cancels_only_the_pending_reconnect_witness :
  nextTimer (YouTubeLive.rt sampleLive) ≠ 0 ∧
  ∃ st1, YouTubeLive.steps sampleBackend sampleLive [YouTubeLive.SocketCloses 1] = Some st1 ∧
         timers (YouTubeLive.rt (YouTubeLive.unmount st1))
           !! nextTimer (YouTubeLive.rt sampleLive) = None.
Proof.
  assert (Hid : nextTimer (YouTubeLive.rt sampleLive) ≠ 0) by (intros E; discriminate E).
  split; [exact Hid|].
  destruct (live_unmount_cancels_only_the_pending_reconnect sampleBackend sampleLive 1 Hid)
    as [(st1 & Hclose & _ & Hgone & _) _].
  exists st1. split; [exact Hclose|exact Hgone].
Defined.

Lemma click_on_idle_microphone_starts_then_stops_witness :
  deliverableAll sampleBackend sampleSession true sampleSolo [TruthSeeker.ClickClearAll] ∧
  TruthSeeker.isListening
    (TruthSeeker.steps sampleBackend sampleSession true sampleSolo
       [TruthSeeker.ClickClearAll]) = false ∧
  ∃ r, TruthSeeker.isListening
         (TruthSeeker.step sampleBackend sampleSession true
            (TruthSeeker.steps sampleBackend sampleSession true sampleSolo
               [TruthSeeker.ClickClearAll])
            TruthSeeker.ClickMicrophone) = true ∧
       TruthSeeker.recognitionRef
         (TruthSeeker.steps sampleBackend sampleSession true sampleSolo
            [TruthSeeker.ClickClearAll]) = Some r.
Proof.
  assert (Hdeliverable : deliverableAll sampleBackend sampleSession true sampleSolo
                           [TruthSeeker.ClickClearAll]) by (split; exact I).
  split; [exact Hdeliverable|]. split; [reflexivity|].
  destruct (click_on_idle_microphone_starts_then_stops (H := SampleHost.host)
              sampleBackend sampleSession
              [TruthSeeker.ClickClearAll] Hdeliverable eq_refl)
    as (r & Href & Hon & _).
  exists r. split; [exact Hon|exact Href].
Defined.

(** A fact-check as the backend announces it, and the live view showing a
    session that has one. *)
Definition sampleCheck (statement : string) : JsVal (H := SampleHost.host) :=
  object [(lit "statement", JStr (lit statement));
          (lit "verdict", JStr (lit "True"));
          (lit "confidence_score", JNum (H := SampleHost.host) 1%Z);
          (lit "explanation", JStr (lit "Well established."));
          (lit "sources", JArr []);
          (lit "created_at", JStr (lit "2025-01-01T00:00:00Z"))].

Definition sampleVideo : JsVal (H := SampleHost.host) :=
  object [(lit "video_id", JStr (lit "dQw4w9WgXcQ"));
          (lit "title", JStr (lit "Debate night"));
          (lit "duration", JNum (H := SampleHost.host) 0%Z);
          (lit "is_live", JBool true);
          (lit "created_at", JStr (lit "2025-01-01T00:00:00Z"))].

Definition sampleOnAir : YouTubeLive.State (H := SampleHost.host) :=
  YouTubeLive.setLoading false
    (YouTubeLive.setFactChecks (JArr [sampleCheck "The Earth is round"])
       (YouTubeLive.setVideoSession sampleVideo (YouTubeLive.mount sampleBackend))).

Definition sampleAnnouncement : JsVal (H := SampleHost.host) :=
  object [(lit "type", JStr (lit "new_fact_check"));
          (lit "data", sampleCheck "Water boils at 100 C")].

Lemma new_fact_checks_are_listed_in_arrival_order_witness :
  (Forall2 (carries "new_fact_check") [sampleAnnouncement]
     [sampleCheck "Water boils at 100 C"] ∧
   YouTubeLive.factChecks sampleOnAir = JArr [sampleCheck "The Earth is round"] ∧
   LiveRender.renders sampleOnAir = true ∧
   Forall (fun d => LiveRender.renderCard d = true) [sampleCheck "Water boils at 100 C"]) ∧
  LiveRender.screen sampleOnAir = LiveRender.Live ∧
  LiveRender.staysMounted sampleBackend sampleOnAir
    ((fun m => YouTubeLive.SocketMessage 1 (Some m)) <$> [sampleAnnouncement]) = true.
Proof.
  assert (Hcarries : Forall2 (carries "new_fact_check") [sampleAnnouncement]
                       [sampleCheck "Water boils at 100 C"]).
  { constructor; [|constructor].
    eexists. split; [reflexivity|]. split; reflexivity. }
  assert (Hcards : Forall (fun d => LiveRender.renderCard d = true)
                     [sampleCheck "Water boils at 100 C"]).
  { apply Forall_cons. split; [reflexivity|apply Forall_nil_2]. }
  split; [split; [exact Hcarries|split; [reflexivity|split; [reflexivity|exact Hcards]]]|].
  split; [reflexivity|].
  exact (proj1 (proj1 (new_fact_checks_are_listed_in_arrival_order sampleBackend 1 _ _ _
                         sampleOnAir Hcarries eq_refl eq_refl) Hcards)).
Defined.

Lemma well_formed_payloads_keep_the_lists_arrays_witness :
  (LiveRender.renders sampleOnAir = true ∧
   listsAreArrays sampleOnAir ∧
   Forall wellFormed [YouTubeLive.SocketMessage 1 (Some sampleAnnouncement);
                      YouTubeLive.Elapse 5] ∧
   LiveRender.staysMounted sampleBackend sampleOnAir
     [YouTubeLive.SocketMessage 1 (Some sampleAnnouncement); YouTubeLive.Elapse 5]
   = true) ∧
  ∃ st', YouTubeLive.steps sampleBackend sampleOnAir
           [YouTubeLive.SocketMessage 1 (Some sampleAnnouncement);
            YouTubeLive.Elapse 5] = Some st' ∧
         listsAreArrays st'.
Proof.
  assert (Harrays : listsAreArrays sampleOnAir).
  { split; eexists; reflexivity. }
  assert (Hes : Forall wellFormed
                  [YouTubeLive.SocketMessage 1 (Some sampleAnnouncement);
                   YouTubeLive.Elapse 5]).
  { apply Forall_cons. split; [|apply Forall_cons; split; [exact I|apply Forall_nil_2]].
    intros E. vm_compute in E. discriminate E. }
  assert (Hmounted : LiveRender.staysMounted sampleBackend sampleOnAir
                       [YouTubeLive.SocketMessage 1 (Some sampleAnnouncement);
                        YouTubeLive.Elapse 5] = true) by reflexivity.
  split; [split; [reflexivity|split; [exact Harrays|split; [exact Hes|exact Hmounted]]]|].
  exact (proj2 (proj2 (well_formed_payloads_keep_the_lists_arrays sampleBackend _
                         sampleOnAir eq_refl Harrays Hes)) Hmounted).
Defined.

(** A session whose [transcript_segments] is an object, not an array, and
    the announcement of a segment. *)
Definition sampleOddPayload : JsVal (H := SampleHost.host) :=
  object [(lit "video_id", JStr (lit "dQw4w9WgXcQ"));
          (lit "title", JStr (lit "Debate night"));
          (lit "created_at", JStr (lit "2025-01-01T00:00:00Z"));
          (lit "fact_checks", JArr []);
          (lit "transcript_segments", object [])].

Definition sampleOddSession : JsVal (H := SampleHost.host) :=
  object [(lit "type", JStr (lit "current_session")); (lit "data", sampleOddPayload)].

Definition sampleSegment : JsVal (H := SampleHost.host) :=
  object [(lit "type", JStr (lit "new_transcript"));
          (lit "data", object [(lit "timestamp", JStr (lit "2025-01-01T00:00:05Z"));
                               (lit "transcript", JStr (lit "Good evening."))])].

Lemma a_list_that_is_not_an_array_takes_the_view_down_witness :
  (LiveRender.renders sampleOnAir = true ∧
   carries "current_session" sampleOddSession sampleOddPayload ∧
   truthy sampleOddPayload = true ∧
   getProp sampleOddPayload (lit "fact_checks") = Some (JArr []) ∧
   getProp sampleOddPayload (lit "transcript_segments") = Some (object []) ∧
   truthy (object [] : JsVal (H := SampleHost.host)) = true ∧
   spread (object [] : JsVal (H := SampleHost.host)) = None) ∧
  ∃ st1,
    YouTubeLive.step sampleBackend sampleOnAir
      (YouTubeLive.SocketMessage 1 (Some sampleOddSession)) = Some st1 ∧
    LiveRender.renders st1 = true ∧
    YouTubeLive.step sampleBackend st1 (YouTubeLive.SocketMessage 1 (Some sampleSegment))
    = None.
Proof.
  assert (Hsession : carries "current_session" sampleOddSession sampleOddPayload).
  { eexists. split; [reflexivity|]. split; reflexivity. }
  assert (Hsegment : carries "new_transcript" sampleSegment
                       (object [(lit "timestamp", JStr (lit "2025-01-01T00:00:05Z"));
                                (lit "transcript", JStr (lit "Good evening."))])).
  { eexists. split; [reflexivity|]. split; reflexivity. }
  split.
  - split; [reflexivity|]. split; [exact Hsession|]. split; [reflexivity|].
    split; [reflexivity|]. split; [reflexivity|]. split; reflexivity.
  - destruct (a_list_that_is_not_an_array_takes_the_view_down sampleBackend 1 1
                sampleOddSession sampleOddPayload (JArr []) (object []) sampleOnAir
                eq_refl Hsession eq_refl eq_refl eq_refl)
      as (st1 & Hstep & _ & _ & _ & _ & Hsegments).
    exists st1. split; [exact Hstep|]. split.
    + assert (Hrun : YouTubeLive.step sampleBackend sampleOnAir
                       (YouTubeLive.SocketMessage 1 (Some sampleOddSession))
                     = Some (YouTubeLive.setLoading false
                               (YouTubeLive.setTranscriptSegments (object [])
                                  (YouTubeLive.setFactChecks (JArr [])
                                     (YouTubeLive.setVideoSession sampleOddPayload
                                        sampleOnAir)))))
        by reflexivity.
      rewrite Hrun in Hstep. injection Hstep as <-. reflexivity.
    + exact (proj2 (Hsegments eq_refl eq_refl) _ _ Hsegment).
Defined.

Lemma spinner_ends_with_the_first_session_data_witness :
  ∃ st',
    YouTubeLive.steps sampleBackend (YouTubeLive.mount (H := SampleHost.host) sampleBackend)
      [YouTubeLive.InitialDataAnswers (FetchRejected (lit "Failed to fetch"))] = Some st' ∧
    Exists bringsSession
      [YouTubeLive.InitialDataAnswers (H := SampleHost.host)
         (FetchRejected (lit "Failed to fetch"))] ∧
    LiveRender.screen st' ≠ LiveRender.Spinner.
Proof.
  destruct (YouTubeLive.steps sampleBackend
              (YouTubeLive.mount (H := SampleHost.host) sampleBackend)
              [YouTubeLive.InitialDataAnswers (FetchRejected (lit "Failed to fetch"))])
    as [st'|] eqn:Hrun; [|vm_compute in Hrun; discriminate Hrun].
  assert (Hbrings : Exists bringsSession
                      [YouTubeLive.InitialDataAnswers (H := SampleHost.host)
                         (FetchRejected (lit "Failed to fetch"))])
    by (apply Exists_cons_hd; exact I).
  exists st'. split; [reflexivity|]. split; [exact Hbrings|].
  exact (proj2 (proj2 (spinner_ends_with_the_first_session_data sampleBackend _ _ _ Hrun))
           Hbrings).
Defined.

Lemma reconnection_asks_for_the_session_again_witness :
  webSocketUrlOk (Host := SampleHost.host)
    (YouTubeLive.WS_URL sampleBackend ++ lit "/ws/youtube-live") = true ∧
  3000 ≤ 3000 ∧
  ∃ st1, YouTubeLive.steps sampleBackend sampleLive [YouTubeLive.SocketCloses 1] = Some st1 ∧
         YouTubeLive.isConnected st1 = false.
Proof.
  assert (Hurl : webSocketUrlOk (Host := SampleHost.host)
                   (YouTubeLive.WS_URL sampleBackend ++ lit "/ws/youtube-live") = true)
    by reflexivity.
  split; [exact Hurl|]. split; [apply N.le_refl|].
  exact (proj1 (reconnection_asks_for_the_session_again sampleBackend sampleLive 1 3000
                  Hurl (N.le_refl 3000))).
Defined.

(** Two fact-checks: one spelled as the enum has it, one in lower case. *)
Definition sampleVerdicts : list (JsVal (H := SampleHost.host)) :=
  [object [(lit "verdict", JStr (lit "True"))];
   object [(lit "verdict", JStr (lit "true"))]].

Lemma stats_count_the_exact_spellings_witness :
  Forall (fun fc => is_Some (getProp fc (lit "verdict"))) sampleVerdicts ∧
  ∃ t f p u, LiveRender.stats (JArr sampleVerdicts) = Some (t, f, p, u) ∧
             (t + f + p + u ≤ length sampleVerdicts)%nat.
Proof.
  assert (Hverdicts : Forall (fun fc => is_Some (getProp fc (lit "verdict"))) sampleVerdicts).
  { apply Forall_cons. split; [eexists; reflexivity|].
    apply Forall_cons. split; [eexists; reflexivity|]. apply Forall_nil_2. }
  split; [exact Hverdicts|].
  destruct (proj1 (stats_count_the_exact_spellings sampleVerdicts) Hverdicts)
    as (t & f & p & u & Hstats & _ & Hle).
  exists t, f, p, u. split; [exact Hstats|exact Hle].
Defined.

(** A visitor who tries one wrong key and then the forms of the panel. *)
Definition sampleIntrusion : list (AdminActions.Event (H := SampleHost.host)) :=
  [AdminActions.TypeAdminKey (lit "letmein"); AdminActions.SubmitLogin;
   AdminActions.SubmitSetVideo; AdminActions.ClickStart].

Lemma without_a_right_key_nothing_is_asked_of_the_backend_witness :
  (forall key, In (AdminActions.TypeAdminKey key) sampleIntrusion ->
     key <> lit "admin123" /\ Some key <> Some (lit "s3cret")) /\
  AdminPanel.isAuthenticated
    (AdminActions.run sampleBackend (Some (lit "s3cret")) sampleIntrusion) = false.
Proof.
  assert (Hwrong : forall key, In (AdminActions.TypeAdminKey key) sampleIntrusion ->
                     key <> lit "admin123" /\ Some key <> Some (lit "s3cret")).
  { intros key [E|[E|[E|[E|[]]]]]; try discriminate E.
    injection E as <-. split; intros E'; vm_compute in E'; discriminate E'. }
  split; [exact Hwrong|].
  exact (proj1 (without_a_right_key_nothing_is_asked_of_the_backend sampleBackend
                  (Some (lit "s3cret")) sampleIntrusion Hwrong)).
Defined.

(** The panel after a login, with a session and without. *)
Definition sampleOpened : AdminPanel.State (H := SampleHost.host) :=
  AdminPanel.handleAuth None sampleLogin.

Definition sampleWithSession : AdminPanel.State (H := SampleHost.host) :=
  AdminPanel.setCurrentSession (object [(lit "video_id", JStr (lit "dQw4w9WgXcQ"))])
    sampleOpened.

Lemma the_panel_never_logs_out_witness :
  AdminPanel.isAuthenticated sampleOpened = true /\
  AdminPanel.isAuthenticated
    (AdminActions.steps sampleBackend None sampleOpened
       [AdminActions.SubmitLogin; AdminActions.TypeAdminKey (lit "letmein");
        AdminActions.StopAnswers (FetchRejected (lit "Failed to fetch"))]) = true.
Proof.
  split; [reflexivity|].
  exact (proj1 (the_panel_never_logs_out sampleBackend None _ sampleOpened eq_refl)).
Defined.

Lemma start_stays_disabled_whatever_the_answer_witness :
  (AdminPanel.isAuthenticated sampleWithSession = true /\
   truthy (AdminPanel.currentSession sampleWithSession) = true /\
   AdminPanel.isProcessing sampleWithSession = false) /\
  AdminPanel.isProcessing
    (AdminActions.steps sampleBackend None sampleWithSession
       [AdminActions.ClickStart;
        AdminActions.StartAnswers (FetchRejected (lit "Failed to fetch"))]) = true.
Proof.
  split; [split; [reflexivity|split; reflexivity]|].
  exact (proj1 (start_stays_disabled_whatever_the_answer sampleBackend None
                  sampleWithSession (FetchRejected (lit "Failed to fetch"))
                  eq_refl eq_refl eq_refl)).
Defined.

Definition sampleStopped : JsVal (H := SampleHost.host) :=
  object [(lit "success", JBool true)].

Lemma only_a_successful_stop_ends_processing_witness :
  (AdminPanel.isProcessing (AdminPanel.setIsProcessing true sampleWithSession) = true /\
   AdminPanel.isProcessing
     (AdminActions.step sampleBackend None
        (AdminPanel.setIsProcessing true sampleWithSession)
        (AdminActions.StopAnswers (Response true (inl sampleStopped)))) = false) /\
  exists data success,
    AdminActions.StopAnswers (Response true (inl sampleStopped))
    = AdminActions.StopAnswers (Response true (inl data))
    /\ getProp data (lit "success") = Some success
    /\ truthy success = true.
Proof.
  split; [split; reflexivity|].
  exact (only_a_successful_stop_ends_processing sampleBackend None
           (AdminPanel.setIsProcessing true sampleWithSession)
           (AdminActions.StopAnswers (Response true (inl sampleStopped)))
           eq_refl eq_refl).
Defined.

Definition sampleVideoSet : JsVal (H := SampleHost.host) :=
  object [(lit "success", JBool true); (lit "video_id", JStr (lit "dQw4w9WgXcQ"));
          (lit "title", JStr (lit "Debate night"))].

Lemma start_names_the_video_that_was_just_set_witness :
  (AdminActions.renders sampleOpened = true /\
   AdminPanel.isAuthenticated sampleOpened = true /\
   AdminPanel.isProcessing sampleOpened = false /\
   getProp sampleVideoSet (lit "success") = Some (JBool true) /\
   truthy (JBool true : JsVal (H := SampleHost.host)) = true /\
   validChild (AdminPanel.prop sampleVideoSet "title") = true /\
   validChild (AdminPanel.prop sampleVideoSet "video_id") = true) /\
  AdminPanel.calls
    (AdminActions.steps sampleBackend None sampleOpened
       [AdminActions.SetVideoAnswers (Response true (inl sampleVideoSet))
          (lit "2024-01-01T00:00:00.000Z");
        AdminActions.ClickStart])
  = AdminPanel.calls sampleOpened
      ++ [CFetch (AdminPanel.API_URL sampleBackend ++ lit "/youtube/start-processing")
            (lit "POST")
            (object [(lit "video_id", AdminPanel.prop sampleVideoSet "video_id")])].
Proof.
  split.
  - split; [reflexivity|]. split; [reflexivity|]. split; [reflexivity|].
    split; [reflexivity|]. split; [reflexivity|]. split; reflexivity.
  - exact (proj2 (proj1 (start_names_the_video_that_was_just_set sampleBackend None
                           sampleOpened sampleVideoSet (JBool true)
                           (lit "2024-01-01T00:00:00.000Z")
                           eq_refl eq_refl eq_refl eq_refl eq_refl) eq_refl eq_refl)).
Defined.
